(** * easysnmp [interface.c]: resolution, type translation and the
      request / walk orchestration, embedded and verified.

    The C code is translated function by function.  C integers are [Z]
    (wrap-around written out where the code mixes signed and unsigned
    values), C strings are [string] with [option string] for a pointer
    that may be [NULL], oid arrays are [list Z] buffers updated by index,
    and the transport is an explicit world: the list of requests handed to
    the session so far, together with an agent that answers them. *)

From Stdlib Require Import ZArith Ascii String Lia.
From stdpp Require Import base numbers option list strings gmap.

Local Open Scope string_scope.
Local Open Scope Z_scope.

Set Warnings "-register-all".

(** ** Constants *)

Module Const.

(** interface.c *)
Definition SUCCESS : Z := 1.
Definition FAILURE : Z := 0.
Definition TYPE_UNKNOWN : Z := 0.
Definition NO_RETRY_NOSUCH : Z := 0.
Definition NON_LEAF_NAME : Z := 4.

(** net-snmp, parse.h *)
Definition TYPE_OTHER : Z := 0.
Definition TYPE_OBJID : Z := 1.
Definition TYPE_OCTETSTR : Z := 2.
Definition TYPE_INTEGER : Z := 3.
Definition TYPE_NETADDR : Z := 4.
Definition TYPE_IPADDR : Z := 5.
Definition TYPE_COUNTER : Z := 6.
Definition TYPE_GAUGE : Z := 7.
Definition TYPE_TIMETICKS : Z := 8.
Definition TYPE_OPAQUE : Z := 9.
Definition TYPE_NULL : Z := 10.
Definition TYPE_COUNTER64 : Z := 11.
Definition TYPE_BITSTRING : Z := 12.
Definition TYPE_NSAPADDRESS : Z := 13.
Definition TYPE_UINTEGER : Z := 14.
Definition TYPE_UNSIGNED32 : Z := 15.
Definition TYPE_INTEGER32 : Z := 16.
Definition TYPE_TRAPTYPE : Z := 20.
Definition TYPE_NOTIFTYPE : Z := 21.

(** net-snmp, snmp.h and asn1.h *)
Definition SNMP_NOSUCHOBJECT : Z := 128.
Definition SNMP_NOSUCHINSTANCE : Z := 129.
Definition SNMP_ENDOFMIBVIEW : Z := 130.
Definition ASN_INTEGER : Z := 2.
Definition ASN_OCTET_STR : Z := 4.
Definition ASN_NULL : Z := 5.
Definition ASN_OBJECT_ID : Z := 6.
Definition ASN_IPADDRESS : Z := 64.
Definition ASN_COUNTER : Z := 65.
Definition ASN_GAUGE : Z := 66.
Definition ASN_TIMETICKS : Z := 67.
Definition ASN_UINTEGER : Z := 71.

Definition SNMP_MSG_GET : Z := 160.
Definition SNMP_MSG_GETNEXT : Z := 161.
Definition SNMP_MSG_RESPONSE : Z := 162.
Definition SNMP_MSG_SET : Z := 163.
Definition SNMP_MSG_GETBULK : Z := 165.

Definition SNMP_ERR_NOERROR : Z := 0.
Definition SNMP_ERR_NOSUCHNAME : Z := 2.

(** net-snmp, snmp_client.h and snmp_api.h *)
Definition STAT_SUCCESS : Z := 0.
Definition STAT_ERROR : Z := 1.
Definition STAT_TIMEOUT : Z := 2.
Definition SNMPERR_BAD_SESSION : Z := -4.

Definition MAX_OID_LEN : Z := 128.

End Const.
Import Const.

(** ** The C library functions the code calls *)

Module Libc.

Definition is_upper (c : ascii) : bool :=
  let n := nat_of_ascii c in ((65 <=? n) && (n <=? 90))%nat.
Definition is_lower (c : ascii) : bool :=
  let n := nat_of_ascii c in ((97 <=? n) && (n <=? 122))%nat.
Definition is_digit (c : ascii) : bool :=
  let n := nat_of_ascii c in ((48 <=? n) && (n <=? 57))%nat.

(** [isalpha] in the C locale. *)
Definition isalpha (c : ascii) : bool := is_upper c || is_lower c.

(** [isspace] in the C locale. *)
Definition isspace (c : ascii) : bool :=
  let n := nat_of_ascii c in ((n =? 32) || ((9 <=? n) && (n <=? 13)))%nat.

Definition tolower (c : ascii) : ascii :=
  if is_upper c then ascii_of_nat (nat_of_ascii c + 32) else c.

Definition code (c : ascii) : Z := Z.of_nat (nat_of_ascii c).

(** The character a [char *] points at; the terminator at the end. *)
Definition peek (s : string) : ascii :=
  match s with
  | EmptyString => Ascii.zero
  | String c _ => c
  end.

(** [strcmp]: the difference of the first two characters that differ. *)
Fixpoint strcmp (a b : string) : Z :=
  match a, b with
  | EmptyString, EmptyString => 0
  | String x a', String y b' =>
      if Ascii.eqb x y then strcmp a' b' else code x - code y
  | _, _ => code (peek a) - code (peek b)
  end.

(** [strncasecmp]: at most [n] characters, letters compared in lower
    case. *)
Fixpoint strncasecmp (a b : string) (n : nat) : Z :=
  match n with
  | O => 0
  | S n' =>
      match a, b with
      | String x a', String y b' =>
          if Ascii.eqb (tolower x) (tolower y) then strncasecmp a' b' n'
          else code (tolower x) - code (tolower y)
      | _, _ => code (tolower (peek a)) - code (tolower (peek b))
      end
  end.

(** [strcasecmp]: the whole of both strings. *)
Definition strcasecmp (a b : string) : Z :=
  strncasecmp a b (S (Nat.max (String.length a) (String.length b))).

(** [strchr(s, c) != NULL] for a character [c] other than the
    terminator. *)
Fixpoint strchr (s : string) (c : ascii) : bool :=
  match s with
  | EmptyString => false
  | String x s' => Ascii.eqb x c || strchr s' c
  end.

Definition ULONG_MAX : Z := 2 ^ 64 - 1.

Fixpoint skip_space (s : string) : string :=
  match s with
  | String c s' => if isspace c then skip_space s' else s
  | EmptyString => s
  end.

(** The digits at the head of [s], accumulated in base ten; [None] when
    [s] does not start with a digit. *)
Fixpoint digits (s : string) (acc : option Z) : option Z :=
  match s with
  | String c s' =>
      if is_digit c
      then digits s' (Some (10 * default 0 acc + (code c - 48)))
      else acc
  | EmptyString => acc
  end.

(** [sscanf(s, "%lu", &x)]: [Some v] when a number was read and [v]
    stored in [x]; [None] when there was no number and [x] is left as it
    was.  White space is skipped, a sign is accepted, a value that does
    not fit is stored as [ULONG_MAX], and a negated value wraps. *)
Definition sscanf_lu (s : string) : option Z :=
  let s1 := skip_space s in
  let '(neg, s2) :=
    match s1 with
    | String "-" r => (true, r)
    | String "+" r => (false, r)
    | _ => (false, s1)
    end in
  match digits s2 None with
  | None => None
  | Some v =>
      if ULONG_MAX <? v then Some ULONG_MAX
      else if neg then Some ((- v) mod 2 ^ 64)
      else Some v
  end.

Definition is_dot (c : ascii) : bool := Ascii.eqb c ".".

(** The tokens [strtok_r(s, ".", &st)] returns, call after call: the
    maximal runs of characters other than the separator.  [cur] is the
    token being read, most recent character first. *)
Fixpoint strtok_all (s : string) (cur : list ascii) : list string :=
  match s with
  | EmptyString =>
      match cur with
      | [] => []
      | _ => [string_of_list_ascii (rev cur)]
      end
  | String c s' =>
      if is_dot c
      then match cur with
           | [] => strtok_all s' []
           | _ => string_of_list_ascii (rev cur) :: strtok_all s' []
           end
      else strtok_all s' (c :: cur)
  end.

End Libc.
Import Libc.

(** ** Type translator *)

(** [!f(...)] on a C comparison result. *)
Definition is_zero (z : Z) : bool := z =? 0.

Definition __translate_appl_type (typestr : option string) : Z :=
  match typestr with
  | None => TYPE_UNKNOWN
  | Some EmptyString => TYPE_UNKNOWN
  | Some (String c EmptyString) =>
      if Ascii.eqb c "i" then TYPE_INTEGER
      else if Ascii.eqb c "u" then TYPE_UNSIGNED32
      else if Ascii.eqb c "s" then TYPE_OCTETSTR
      else if Ascii.eqb c "n" then TYPE_NULL
      else if Ascii.eqb c "o" then TYPE_OBJID
      else if Ascii.eqb c "t" then TYPE_TIMETICKS
      else if Ascii.eqb c "a" then TYPE_IPADDR
      else if Ascii.eqb c "b" then TYPE_BITSTRING
      else TYPE_UNKNOWN
  | Some s =>
      if is_zero (strncasecmp s "INTEGER32" 8) then TYPE_INTEGER32
      else if is_zero (strncasecmp s "INTEGER" 3) then TYPE_INTEGER
      else if is_zero (strncasecmp s "UNSIGNED32" 3) then TYPE_UNSIGNED32
      else if is_zero (strcasecmp s "COUNTER") then TYPE_COUNTER
      else if is_zero (strncasecmp s "GAUGE" 3) then TYPE_GAUGE
      else if is_zero (strncasecmp s "IPADDR" 3) then TYPE_IPADDR
      else if is_zero (strncasecmp s "OCTETSTR" 3) then TYPE_OCTETSTR
      else if is_zero (strncasecmp s "TICKS" 3) then TYPE_TIMETICKS
      else if is_zero (strncasecmp s "OPAQUE" 3) then TYPE_OPAQUE
      else if is_zero (strncasecmp s "OBJECTID" 3) then TYPE_OBJID
      else if is_zero (strncasecmp s "NETADDR" 3) then TYPE_NETADDR
      else if is_zero (strncasecmp s "COUNTER64" 3) then TYPE_COUNTER64
      else if is_zero (strncasecmp s "NULL" 3) then TYPE_NULL
      else if is_zero (strncasecmp s "BITS" 3) then TYPE_BITSTRING
      else if is_zero (strncasecmp s "ENDOFMIBVIEW" 3) then SNMP_ENDOFMIBVIEW
      else if is_zero (strncasecmp s "NOSUCHOBJECT" 7) then SNMP_NOSUCHOBJECT
      else if is_zero (strncasecmp s "NOSUCHINSTANCE" 7)
           then SNMP_NOSUCHINSTANCE
      else if is_zero (strncasecmp s "UINTEGER" 3) then TYPE_UINTEGER
      else if is_zero (strncasecmp s "NOTIF" 3) then TYPE_NOTIFTYPE
      else if is_zero (strncasecmp s "TRAP" 4) then TYPE_TRAPTYPE
      else TYPE_UNKNOWN
  end.

(** The display names of [__get_type_str], in the order of its [switch]. *)
Definition type_names : list (Z * string) :=
  [ (TYPE_OBJID, "OBJECTID"); (TYPE_OCTETSTR, "OCTETSTR");
    (TYPE_INTEGER, "INTEGER"); (TYPE_INTEGER32, "INTEGER32");
    (TYPE_UNSIGNED32, "UNSIGNED32"); (TYPE_NETADDR, "NETADDR");
    (TYPE_IPADDR, "IPADDR"); (TYPE_COUNTER, "COUNTER");
    (TYPE_GAUGE, "GAUGE"); (TYPE_TIMETICKS, "TICKS");
    (TYPE_OPAQUE, "OPAQUE"); (TYPE_COUNTER64, "COUNTER64");
    (TYPE_NULL, "NULL"); (SNMP_ENDOFMIBVIEW, "ENDOFMIBVIEW");
    (SNMP_NOSUCHOBJECT, "NOSUCHOBJECT");
    (SNMP_NOSUCHINSTANCE, "NOSUCHINSTANCE"); (TYPE_UINTEGER, "UINTEGER");
    (TYPE_NOTIFTYPE, "NOTIF"); (TYPE_BITSTRING, "BITS");
    (TYPE_TRAPTYPE, "TRAP") ].

Fixpoint switch_case (cases : list (Z * string)) (type : Z) : option string :=
  match cases with
  | [] => None
  | (k, name) :: rest => if type =? k then Some name else switch_case rest type
  end.

(** [__get_type_str(type, str, log_error)]: the status and the contents of
    [str] afterwards.  [TYPE_OTHER], [TYPE_NSAPADDRESS] and every value
    without a case take the [default] branch. *)
Definition __get_type_str (type : Z) : Z * string :=
  match switch_case type_names type with
  | Some name => (SUCCESS, name)
  | None => (FAILURE, "")
  end.

(** ** Object identifiers and the naming tree *)

Definition oid : Type := Z.

(** A node of the loaded naming tree ([struct tree]): the fields the code
    reads. *)
Inductive tree : Type :=
  mk_tree { t_subid : oid;
            t_type : Z;
            t_enums : list (string * Z);
            t_parent : option tree }.

(** The libraries behind the resolver.  The naming tree adapter: the
    net-snmp functions the resolver calls, with the tree head they are
    given; the searches take the name buffer and its length and hand both
    back with their status.  And the [strdup] of the C library: the copy,
    or [NULL] when no memory is left. *)
Record mib : Type :=
  { get_node : string -> list oid -> Z -> Z * list oid * Z;
    get_wild_node : string -> list oid -> Z -> Z * list oid * Z;
    read_objid : string -> list oid -> Z -> Z * list oid * Z;
    get_tree : list oid -> Z -> option tree;
    find_node : string -> option tree;
    strdup : string -> option string }.

(** An assignment through a pointer into an oid array.  [v] is what
    [sscanf] read: with [None] the slot keeps its value.  A slot outside
    the array is a fault ([None]). *)
Definition store (arr : list oid) (i : Z) (v : option oid)
  : option (list oid) :=
  if (0 <=? i) && (i <? Z.of_nat (length arr))
  then Some (match v with
             | Some x => <[Z.to_nat i := x]> arr
             | None => arr
             end)
  else None.

(** [memcpy(dst, src, n * sizeof(oid))]; reading or writing past either
    array is a fault. *)
Definition memcpy (dst src : list oid) (n : Z) : option (list oid) :=
  if (0 <=? n) && (n <=? Z.of_nat (length src))
     && (n <=? Z.of_nat (length dst))
  then Some (take (Z.to_nat n) src ++ drop (Z.to_nat n) dst)%list
  else None.

Definition skip_leading_dot (s : string) : string :=
  match s with
  | String c s' => if is_dot c then s' else s
  | EmptyString => s
  end.

(** The [while] loop of [__scan_num_objid] over the characters of [buf]:
    [buf] is the scanning pointer and [cp] the start of the current
    component. *)
Fixpoint scan_components (buf cp : string) (objid : list oid) (len : Z)
  : option (Z * list oid * Z) :=
  match buf with
  | EmptyString =>
      objid' ← store objid len (sscanf_lu cp);
      Some (SUCCESS, objid', len + 1)
  | String c rest =>
      if is_dot c
      then objid' ← store objid len (sscanf_lu cp);
           scan_components rest rest objid' (len + 1)
      else if isalpha (peek rest) then Some (FAILURE, objid, len)
      else scan_components rest cp objid len
  end.

Definition __scan_num_objid (buf : string) (objid : list oid)
  : option (Z * list oid * Z) :=
  let buf := skip_leading_dot buf in
  scan_components buf buf objid 0.

(** The [while (cp)] loop of [__concat_oid_str] over the tokens of the
    instance string. *)
Fixpoint concat_tokens (toks : list string) (doid_arr : list oid)
    (doid_arr_len : Z) : option (list oid * Z) :=
  match toks with
  | [] => Some (doid_arr, doid_arr_len)
  | cp :: toks' =>
      arr' ← store doid_arr doid_arr_len (sscanf_lu cp);
      concat_tokens toks' arr' (doid_arr_len + 1)
  end.

(** [__concat_oid_str(doid_arr, doid_arr_len, soid_str)]: the status, the
    array and its length afterwards.  When [strdup] gives [NULL] the
    function reports failure and leaves both as they were. *)
Definition __concat_oid_str (m : mib) (doid_arr : list oid)
    (doid_arr_len : Z) (soid_str : option string)
  : option (Z * list oid * Z) :=
  match soid_str with
  | None => Some (SUCCESS, doid_arr, doid_arr_len)
  | Some EmptyString => Some (SUCCESS, doid_arr, doid_arr_len)
  | Some s =>
      match strdup m (skip_leading_dot s) with
      | None => Some (FAILURE, doid_arr, doid_arr_len)
      | Some soid_buf =>
          '(arr, len) ← concat_tokens (strtok_all soid_buf [])
                                      doid_arr doid_arr_len;
          Some (SUCCESS, arr, len)
      end
  end.

(** The loop of [__tag2oid] that writes the sub-identifiers from the
    matched node up to the root, from the end of [newname] downwards; [op]
    is the index the pointer [op] is at.  It returns the index the loop
    stopped at. *)
Fixpoint fill_to_root (tp : tree) (newname : list oid) (op : Z)
  : list oid * Z :=
  if op <? 0 then (newname, op)
  else
    let newname' := <[Z.to_nat op := t_subid tp]> newname in
    match tp with
    | mk_tree _ _ _ (Some up) => fill_to_root up newname' (op - 1)
    | mk_tree _ _ _ None => (newname', op)
    end.

Definition type_of (tp : option tree) : Z :=
  match tp with
  | Some t => t_type t
  | None => TYPE_UNKNOWN
  end.

Section Resolver.

Variable m : mib.

(** The contents of storage that was allocated and not initialised
    ([newname] on the stack, [PyMem_New(oid, MAX_OID_LEN)]). *)
Variable junk : nat -> oid.

Definition fresh_oid_buf : list oid :=
  map junk (seq 0 (Z.to_nat MAX_OID_LEN)).

(** A search of the tree for a tag that did not scan as numeric
    ([clear_tree_flags] acts on the tree only). *)
Definition search (best_guess : Z) (tag : string) (newname : list oid)
    (newname_len : Z) : option tree * list oid * Z :=
  if best_guess =? 2 then
    let '(r, nn, nl) := get_node m tag newname newname_len in
    if r =? 0 then (None, nn, nl) else (get_tree m nn nl, nn, nl)
  else if best_guess =? 1 then
    let '(r, nn, nl) := get_wild_node m tag newname newname_len in
    if r =? 0 then (None, nn, nl) else (get_tree m nn nl, nn, nl)
  else (None, newname, newname_len).

(** [__tag2oid] up to the label [done], for a tag that is not [NULL]:
    whether the function returned early ([true]), the node, the oid
    array, its length and the type. *)
Definition tag_stage (tag : string) (oid_arr : list oid) (best_guess : Z)
  : option (bool * option tree * list oid * Z * Z) :=
  let newname := fresh_oid_buf in
  if (best_guess =? 1) || (best_guess =? 2) then
    '(ok, newname, newname_len) ← __scan_num_objid tag newname;
    let '(tp, newname, newname_len) :=
      if ok =? 0 then search best_guess tag newname MAX_OID_LEN
      else (get_tree m newname newname_len, newname, newname_len) in
    oid_arr' ← memcpy oid_arr newname newname_len;
    Some (false, tp, oid_arr', newname_len, type_of tp)
  else if strchr tag "." || strchr tag ":" then
    '(ok, newname, newname_len) ← __scan_num_objid tag newname;
    let '(tp, newname, newname_len) :=
      if ok =? 0 then
        let '(r, nn, nl) := read_objid m tag newname MAX_OID_LEN in
        if r =? 0 then (None, nn, 0) else (get_tree m nn nl, nn, nl)
      else (get_tree m newname newname_len, newname, newname_len) in
    oid_arr' ← memcpy oid_arr newname newname_len;
    Some (false, tp, oid_arr', newname_len, type_of tp)
  else
    match find_node m tag with
    | Some tp =>
        let '(newname, op) := fill_to_root tp newname (MAX_OID_LEN - 1) in
        let len := MAX_OID_LEN - op in
        oid_arr' ← memcpy oid_arr (drop (Z.to_nat op) newname) len;
        if op <? 0 then None
        else Some (false, Some tp, oid_arr', len, t_type tp)
    | None => Some (true, None, oid_arr, 0, TYPE_UNKNOWN)
    end.

(** [__tag2oid(tag, iid, oid_arr, &oid_arr_len, type, best_guess)] with
    the array and its length present, as every caller passes them: the
    node returned, the array, [oid_arr_len], and what is stored through
    [type] when the caller gives that pointer. *)
Definition __tag2oid (tag iid : option string) (oid_arr : list oid)
    (best_guess : Z) : option (option tree * list oid * Z * Z) :=
  let stage :=
    match tag with
    | None => Some (false, None, oid_arr, 0, TYPE_UNKNOWN)
    | Some tag => tag_stage tag oid_arr best_guess
    end in
  match stage with
  | None => None
  | Some (true, rtp, oid_arr, oid_arr_len, type) =>
      Some (rtp, oid_arr, oid_arr_len, type)
  | Some (false, rtp, oid_arr, oid_arr_len, type) =>
      '(_, oid_arr, oid_arr_len) ←
        __concat_oid_str m oid_arr oid_arr_len iid;
      Some (rtp, oid_arr, oid_arr_len, type)
  end.

End Resolver.

(** A naming tree with nothing loaded: every search fails and leaves the
    name buffer as it was; memory does not run out. *)
Definition empty_mib : mib :=
  {| get_node := fun _ nn nl => (0, nn, nl);
     get_wild_node := fun _ nn nl => (0, nn, nl);
     read_objid := fun _ nn nl => (0, nn, nl);
     get_tree := fun _ _ => None;
     find_node := fun _ => None;
     strdup := Some |}.

Definition zero_junk : nat -> oid := fun _ => 0.

(** ** Requests, responses and the transport *)

Inductive var_val : Type :=
| ValNone
| ValInteger (z : Z)
| ValString (bytes : string)
| ValObjid (o : list oid).

(** [netsnmp_variable_list], one entry: [name_length] is the length of
    [v_name]. *)
Record variable : Type :=
  { v_name : list oid;
    v_type : Z;
    v_val : var_val }.

(** [netsnmp_pdu]: the fields the code reads and writes.  net-snmp names
    the two error fields [non_repeaters] and [max_repetitions] in a bulk
    request. *)
Record netsnmp_pdu : Type :=
  { command : Z;
    errstat : Z;
    errindex : Z;
    variables : list variable }.

Definition SNMP_DEFAULT_ERRSTAT : Z := -1.
Definition SNMP_DEFAULT_ERRINDEX : Z := -1.

Definition snmp_pdu_create (cmd : Z) : netsnmp_pdu :=
  {| command := cmd;
     errstat := SNMP_DEFAULT_ERRSTAT;
     errindex := SNMP_DEFAULT_ERRINDEX;
     variables := [] |}.

Definition add_var (pdu : netsnmp_pdu) (v : variable) : netsnmp_pdu :=
  {| command := command pdu;
     errstat := errstat pdu;
     errindex := errindex pdu;
     variables := (variables pdu ++ [v])%list |}.

Definition snmp_add_null_var (pdu : netsnmp_pdu) (name : list oid)
    (name_length : Z) : netsnmp_pdu :=
  add_var pdu {| v_name := take (Z.to_nat name_length) name;
                 v_type := ASN_NULL;
                 v_val := ValNone |}.

(** net-snmp's [snmp_fix_pdu(pdu, command)]: a copy of the response
    without the variable its error index names, as a new request; [NULL]
    when the response does not name one or nothing is left. *)
Definition snmp_fix_pdu (pdu : netsnmp_pdu) (cmd : Z) : option netsnmp_pdu :=
  if negb (command pdu =? SNMP_MSG_RESPONSE)
     || (errstat pdu =? SNMP_ERR_NOERROR)
     || (Z.of_nat (length (variables pdu)) <? errindex pdu)
     || (errindex pdu <=? 0)
  then None
  else
    match delete (Z.to_nat (errindex pdu - 1)) (variables pdu) with
    | [] => None
    | vars => Some {| command := cmd;
                      errstat := SNMP_DEFAULT_ERRSTAT;
                      errindex := SNMP_DEFAULT_ERRINDEX;
                      variables := vars |}
    end.

(** The session handle and the agent behind it.  [synch_response] is
    [snmp_sess_synch_response]: given the requests sent before and the
    request, the transport status and the response.  [sess_error] is
    [snmp_sess_error]: the system error number, the protocol error number
    and the diagnostic text. *)
Record netsnmp_session : Type :=
  { synch_response : list netsnmp_pdu -> netsnmp_pdu -> Z * option netsnmp_pdu;
    sess_error : list netsnmp_pdu -> Z * Z * string;
    s_snmp_errno : Z }.

(** The message tables of net-snmp. *)
Record errtext : Type :=
  { snmp_errstring : Z -> string;
    snmp_api_errstring : Z -> string }.

Inductive py_exception : Type :=
| EasySNMPError (msg : string)
| EasySNMPConnectionError
| EasySNMPTimeoutError
| EasySNMPNoSuchNameError
| EasySNMPUnknownObjectIDError (tag : option string)
| EasySNMPUndeterminedTypeError.

(** Modelled from the spec: [simple_bitarray.h] is not among the sources.
    The mask is the growable bit-vector of the data model, one bit per
    original batch entry: the set of the bit positions that are set. *)
Abbreviation bitarray := (gset Z).

Definition bitarray_set_bit (ba : bitarray) (bit : Z) : bitarray :=
  {[ bit ]} ∪ ba.

Definition bitarray_test_bit (ba : bitarray) (bit : Z) : bool :=
  bool_decide (bit ∈ ba).

(** Conversion to [unsigned long] / [size_t]. *)
Definition to_ulong (z : Z) : Z := z mod 2 ^ 64.

(** Conversion of a [long] to [int]: the low 32 bits, read as a signed
    number. *)
Definition to_int (z : Z) : Z := (z + 2 ^ 31) mod 2 ^ 32 - 2 ^ 31.

(** The result of running code that may loop: a value, a fault (a null or
    out-of-range access), or no result within the fuel given; the last two
    with the requests sent until then. *)
Inductive run (A : Type) : Type :=
| Ret (a : A)
| Fault (sent : list netsnmp_pdu)
| NoFuel (sent : list netsnmp_pdu).
Arguments Ret {A} a.
Arguments Fault {A} sent.
Arguments NoFuel {A} sent.

(** ** Request / retry orchestrator *)

(** The correction applied to the transport status before it is
    classified, with the contents of [err_str] at that point. *)
Definition correct_status (err_str : string) (status : Z) : Z :=
  if negb (strcmp err_str "Timeout" =? 0) && (status =? STAT_ERROR)
  then STAT_TIMEOUT
  else status.

(** The bit [bitarray_set_bit] is called with in the retry branch. *)
Definition nosuch_bit (last_errindex errindex retry_num : Z) : Z :=
  if last_errindex =? 0 then to_ulong (errindex - 1)
  else if to_ulong errindex <? last_errindex then to_ulong (errindex - 1)
  else to_ulong (errindex - 1 + retry_num).

(** The variables of [__send_sync_pdu] that live across [goto retry]. *)
Record sync_state : Type :=
  { st_pdu : netsnmp_pdu;
    st_retry_num : Z;
    st_last_errindex : Z;
    st_err_str : string;
    st_invalid_oids : option bitarray;
    st_sent : list netsnmp_pdu }.

(** What [__send_sync_pdu] leaves behind: its return value, the out
    parameters, the exception it set, and the requests sent so far. *)
Record sync_out : Type :=
  { status : Z;
    response : option netsnmp_pdu;
    err_str : string;
    err_num : Z;
    err_ind : Z;
    invalid_oids : option bitarray;
    py_err : option py_exception;
    retry_num : Z;
    sent : list netsnmp_pdu }.

Inductive round : Type :=
| Retry (st : sync_state)
| Done (o : sync_out)
| Crash (sent : list netsnmp_pdu).

Section Orchestrator.

Variable txt : errtext.
Variable ss : netsnmp_session.
Variable retry_nosuch : Z.
Variable cmd : Z.

(** The remote status [SNMP_ERR_NOSUCHNAME] of response [r].  With retry
    enabled the mask is written through its pointer: a null mask is a
    fault. *)
Definition nosuchname (st : sync_state) (r : netsnmp_pdu)
    (sent' : list netsnmp_pdu) : round :=
  if negb (retry_nosuch =? 0) then
    match st_invalid_oids st with
    | None => Crash sent'
    | Some ba =>
        let ba' :=
          bitarray_set_bit ba
            (nosuch_bit (st_last_errindex st) (errindex r)
                        (st_retry_num st)) in
        let last_errindex := to_ulong (errindex r) in
        match snmp_fix_pdu r cmd with
        | None =>
            Done {| status := STAT_SUCCESS; response := Some r;
                    err_str := st_err_str st; err_num := 0; err_ind := 0;
                    invalid_oids := Some ba'; py_err := None;
                    retry_num := st_retry_num st; sent := sent' |}
        | Some pdu =>
            Retry {| st_pdu := pdu;
                     st_retry_num := st_retry_num st + 1;
                     st_last_errindex := last_errindex;
                     st_err_str := st_err_str st;
                     st_invalid_oids := Some ba';
                     st_sent := sent' |}
        end
    end
  else
    Done {| status := SNMP_ERR_NOSUCHNAME; response := Some r;
            err_str := st_err_str st; err_num := 0; err_ind := 0;
            invalid_oids := st_invalid_oids st;
            py_err := Some EasySNMPNoSuchNameError;
            retry_num := st_retry_num st; sent := sent' |}.

(** One pass from the label [retry] to [goto retry] or to [done].  The
    remote status is a [long] stored in the [int status] before it is
    classified; [err_num] and [err_ind] are [int] as well, and so is the
    argument of [snmp_errstring]. *)
Definition sync_round (st : sync_state) : round :=
  let '(status, response) := synch_response ss (st_sent st) (st_pdu st) in
  let sent' := (st_sent st ++ [st_pdu st])%list in
  let status :=
    if bool_decide (response = None) && (status =? STAT_SUCCESS)
    then STAT_ERROR else status in
  let status := correct_status (st_err_str st) status in
  let finish status err_str err_num err_ind exc :=
    Done {| status := status; response := response; err_str := err_str;
            err_num := err_num; err_ind := err_ind;
            invalid_oids := st_invalid_oids st; py_err := exc;
            retry_num := st_retry_num st; sent := sent' |} in
  if status =? STAT_SUCCESS then
    match response with
    | None => Crash sent'
    | Some r =>
        let status := to_int (errstat r) in
        if status =? SNMP_ERR_NOERROR
        then finish status (st_err_str st) 0 0 None
        else if status =? SNMP_ERR_NOSUCHNAME then nosuchname st r sent'
        else
          let err_str := snmp_errstring txt (to_int (errstat r)) in
          finish status err_str (to_int (errstat r)) (to_int (errindex r))
                 (Some (EasySNMPError err_str))
    end
  else if status =? STAT_TIMEOUT then
    let '(e, se, text) := sess_error ss sent' in
    finish status text e se (Some EasySNMPTimeoutError)
  else if status =? STAT_ERROR then
    let '(e, se, text) := sess_error ss sent' in
    finish status text e se (Some (EasySNMPError text))
  else
    finish status (st_err_str st ++ "send_sync_pdu: unknown status")
           (s_snmp_errno ss) 0 None.

(** The loop [retry: ... goto retry]. *)
Fixpoint sync_loop (fuel : nat) (st : sync_state) : run sync_out :=
  match fuel with
  | O => NoFuel (st_sent st)
  | S fuel' =>
      match sync_round st with
      | Retry st' => sync_loop fuel' st'
      | Done o => Ret o
      | Crash sent' => Fault sent'
      end
  end.

End Orchestrator.

(** The state at the label [retry] the first time: [err_str] has been
    cleared, nothing was retried and no error index was seen. *)
Definition sync_init (pdu : netsnmp_pdu) (invalid_oids : option bitarray)
    (sent : list netsnmp_pdu) : sync_state :=
  {| st_pdu := pdu; st_retry_num := 0; st_last_errindex := 0;
     st_err_str := ""; st_invalid_oids := invalid_oids; st_sent := sent |}.

(** [__send_sync_pdu(ss, pdu, &response, retry_nosuch, err_str, &err_num,
    &err_ind, invalid_oids)], in a world where [sent] was sent before. *)
Definition __send_sync_pdu (txt : errtext) (fuel : nat)
    (ss : option netsnmp_session) (pdu : option netsnmp_pdu)
    (retry_nosuch : Z) (invalid_oids : option bitarray)
    (sent : list netsnmp_pdu) : run sync_out :=
  match pdu with
  | None => Fault sent
  | Some pdu =>
      match ss with
      | None =>
          Ret {| status := SNMPERR_BAD_SESSION; response := None;
                 err_str := snmp_api_errstring txt SNMPERR_BAD_SESSION;
                 err_num := 0; err_ind := SNMPERR_BAD_SESSION;
                 invalid_oids := invalid_oids; py_err := None;
                 retry_num := 0; sent := sent |}
      | Some ss =>
          sync_loop txt ss retry_nosuch (command pdu) fuel
                    (sync_init pdu invalid_oids sent)
      end
  end.

(** Message tables with every text empty, and simple agents, for concrete
    runs. *)
Definition no_text : errtext :=
  {| snmp_errstring := fun _ => ""; snmp_api_errstring := fun _ => "" |}.

(** A no-such-name response that names the [n]-th of the variables it
    echoes. *)
Definition nosuch_response (n : Z) (vars : list variable) : netsnmp_pdu :=
  {| command := SNMP_MSG_RESPONSE;
     errstat := SNMP_ERR_NOSUCHNAME;
     errindex := n;
     variables := vars |}.

(** The request [snmp_fix_pdu] builds for the variables left. *)
Definition fixed_request (cmd : Z) (vars : list variable) : netsnmp_pdu :=
  {| command := cmd;
     errstat := SNMP_DEFAULT_ERRSTAT;
     errindex := SNMP_DEFAULT_ERRINDEX;
     variables := vars |}.

(** An agent that rejects the [n]-th variable of every request with
    no-such-name and echoes the request's variables. *)
Definition rejecting_agent (n : Z) : netsnmp_session :=
  {| synch_response := fun _ req =>
       (STAT_SUCCESS, Some (nosuch_response n (variables req)));
     sess_error := fun _ => (0, 0, "");
     s_snmp_errno := 0 |}.

(** An agent that rejects the last variable of every request. *)
Definition rejecting_last_agent : netsnmp_session :=
  {| synch_response := fun _ req =>
       (STAT_SUCCESS,
        Some (nosuch_response (Z.of_nat (length (variables req)))
                              (variables req)));
     sess_error := fun _ => (0, 0, "");
     s_snmp_errno := 0 |}.

(** A transport whose every exchange fails with the given status and
    diagnostic text. *)
Definition failing_transport (st : Z) (text : string) : netsnmp_session :=
  {| synch_response := fun _ _ => (st, None);
     sess_error := fun _ => (0, 0, text);
     s_snmp_errno := 0 |}.

Definition null_var (name : list oid) : variable :=
  {| v_name := name; v_type := ASN_NULL; v_val := ValNone |}.

Definition get_request (names : list (list oid)) : netsnmp_pdu :=
  {| command := SNMP_MSG_GET;
     errstat := SNMP_DEFAULT_ERRSTAT;
     errindex := SNMP_DEFAULT_ERRINDEX;
     variables := map null_var names |}.

(** ** Entry points *)

(** A variable of the caller's list, by the attributes the code fetches
    with [py_netsnmp_attr_string]; [None] is a fetch that failed. *)
Record py_varbind : Type :=
  { vb_oid : option string;
    vb_oid_index : option string;
    vb_snmp_type : option string;
    vb_value : option string }.

(** A result record, by the attributes the code sets on it. *)
Record snmp_variable : Type :=
  { root_oid : option string;
    sv_oid : option string;
    sv_oid_index : option string;
    sv_snmp_type : option string;
    sv_value : option string }.

Record session_capsule_ctx : Type :=
  { handle : option netsnmp_session;
    getlabel_flag : Z;
    sprintval_flag : Z;
    best_guess : Z;
    retry_nosuch : Z }.

(** One entry of the arrays of [snmp_op_data]. *)
Record op_entry : Type :=
  { initial_oid_str : option string;
    oid_arr : list oid;
    oid_arr_len : Z }.

(** What an entry point hands back to Python. [PyNull] is a [NULL] return
    with no exception set. *)
Inductive py_result : Type :=
| PyList (l : list snmp_variable)
| PyLong (z : Z)
| PyNone
| PyRaise (e : py_exception)
| PyNull.

(** The outcome of an entry point: its return value, the error details
    written to the session object (if any), and the requests sent. *)
Record call_out : Type :=
  { ret : py_result;
    session_errors : option (string * Z * Z);
    log : list netsnmp_pdu }.

(** The end of one starting path: the results so far and the requests sent,
    or the end of the whole call. *)
Inductive entry_result : Type :=
| EntryDone (results : list snmp_variable) (sent : list netsnmp_pdu)
| Abort (out : call_out).

(** The subtree test of the walk loops: the name is shorter than the
    starting path, or its first [oid_arr_len] sub-identifiers differ from
    it. *)
Definition out_of_scope (e : op_entry) (v : variable) : bool :=
  (Z.of_nat (length (v_name v)) <? oid_arr_len e)
  || negb (bool_decide (take (Z.to_nat (oid_arr_len e)) (oid_arr e)
                        = take (Z.to_nat (oid_arr_len e)) (v_name v))).

(** The record emitted for a no-such-object or no-such-instance marker. *)
Definition placeholder (e : op_entry) (v : variable) : snmp_variable :=
  {| root_oid := initial_oid_str e;
     sv_oid := initial_oid_str e;
     sv_oid_index := None;
     sv_snmp_type := Some (snd (__get_type_str (v_type v)));
     sv_value := None |}.

Definition first_request (cmd : Z) (e : op_entry) : netsnmp_pdu :=
  snmp_add_null_var (snmp_pdu_create cmd) (oid_arr e) (oid_arr_len e).

(** The next request of [netsnmp_walk], from the last variable read. *)
Definition next_getnext (v : variable) : netsnmp_pdu :=
  snmp_add_null_var (snmp_pdu_create SNMP_MSG_GETNEXT) (v_name v)
                    (Z.of_nat (length (v_name v))).

(** A bulk request: [non_repeaters] and [max_repetitions] are the two
    error fields of the PDU. *)
Definition bulk_request (nonrepeaters maxrepetitions : Z) (name : list oid)
    (name_length : Z) : netsnmp_pdu :=
  snmp_add_null_var {| command := SNMP_MSG_GETBULK;
                       errstat := nonrepeaters;
                       errindex := maxrepetitions;
                       variables := [] |} name name_length.

(** The next request of [netsnmp_bulkwalk], from the last variable read. *)
Definition next_getbulk (nonrepeaters maxrepetitions : Z) (v : variable)
  : netsnmp_pdu :=
  bulk_request nonrepeaters maxrepetitions (v_name v)
               (Z.of_nat (length (v_name v))).

Section EntryPoints.

Variable txt : errtext.
Variable m : mib.
Variable junk : nat -> oid.

(** [read_variable(vars, &op_data, getlabel_flag, sprintval_flag)]: the
    record built from a response variable by the formatter; [None] when no
    record could be constructed. *)
Variable read_variable :
  variable -> op_entry -> Z -> Z -> option snmp_variable.

Variable ctx : session_capsule_ctx.

(** The body of the loop of [snmp_op_data_load] for one variable: the oid
    array and its length. *)
Definition load_varbind (vb : py_varbind) : option (list oid * Z) :=
  match vb_oid vb, vb_oid_index vb with
  | Some tag, Some iid =>
      '(_, arr, len, _) ← __tag2oid m junk (Some tag) (Some iid)
                                    (fresh_oid_buf junk) (best_guess ctx);
      Some (arr, len)
  | _, _ => Some (fresh_oid_buf junk, 0)
  end.

(** [snmp_op_data_load]: the exception it set, or the entries loaded. *)
Fixpoint snmp_op_data_load (varlist : list py_varbind)
  : option (py_exception + list op_entry) :=
  match varlist with
  | [] => Some (inr [])
  | vb :: rest =>
      '(arr, len) ← load_varbind vb;
      if len =? 0
      then Some (inl (EasySNMPUnknownObjectIDError (vb_oid vb)))
      else
        r ← snmp_op_data_load rest;
        Some (match r with
              | inl exc => inl exc
              | inr entries =>
                  inr ({| initial_oid_str := vb_oid vb;
                          oid_arr := arr;
                          oid_arr_len := len |} :: entries)
              end)
  end.

(** The loop [while (vars)] of the fetch and walk entry points.  [next]
    builds the request that follows the last variable of a response (the
    walks); it is absent in [netsnmp_get].  The result is [notdone], the
    result list and [op_data.pdu]. *)
Fixpoint inspect_vars (next : option (variable -> netsnmp_pdu))
    (e : op_entry) (vars : list variable) (notdone : bool)
    (results : list snmp_variable) (pdu : option netsnmp_pdu)
  : bool * list snmp_variable * option netsnmp_pdu :=
  match vars with
  | [] => (notdone, results, pdu)
  | v :: rest =>
      if v_type v =? SNMP_ENDOFMIBVIEW then (false, results, pdu)
      else if (v_type v =? SNMP_NOSUCHOBJECT)
              || (v_type v =? SNMP_NOSUCHINSTANCE)
      then (false, (results ++ [placeholder e v])%list, pdu)
      else if out_of_scope e v then (false, results, pdu)
      else
        let results :=
          match read_variable v e (getlabel_flag ctx) (sprintval_flag ctx) with
          | Some varbind => (results ++ [varbind])%list
          | None => results
          end in
        let pdu :=
          match rest, next with
          | [], Some mk => Some (mk v)
          | _, _ => pdu
          end in
        inspect_vars next e rest notdone results pdu
  end.

(** The loop [while (notdone)] for one starting path. *)
Fixpoint request_rounds (fuel : nat) (next : option (variable -> netsnmp_pdu))
    (e : op_entry) (pdu : option netsnmp_pdu) (results : list snmp_variable)
    (sent0 : list netsnmp_pdu) : run entry_result :=
  match fuel with
  | O => NoFuel sent0
  | S fuel' =>
      match __send_sync_pdu txt fuel (handle ctx) pdu (retry_nosuch ctx)
                            None sent0 with
      | Fault s => Fault s
      | NoFuel s => NoFuel s
      | Ret o =>
          match py_err o with
          | Some exc =>
              Ret (Abort {| ret := PyRaise exc; session_errors := None;
                            log := sent o |})
          | None =>
              if negb (status o =? STAT_SUCCESS)
              then Ret (Abort {| ret := PyNull;
                                 session_errors :=
                                   Some (err_str o, err_num o, err_ind o);
                                 log := sent o |})
              else
                match response o with
                | None => Fault (sent o)
                | Some r =>
                    let '(notdone, results, pdu') :=
                      inspect_vars next e (variables r) true results None in
                    let notdone :=
                      match next with
                      | Some _ => notdone
                      | None => false
                      end in
                    if notdone
                    then request_rounds fuel' next e pdu' results
                                        (sent o)
                    else Ret (EntryDone results (sent o))
                end
          end
      end
  end.

(** The loop over the starting paths. *)
Fixpoint request_entries (fuel : nat) (first : op_entry -> netsnmp_pdu)
    (next : option (variable -> netsnmp_pdu)) (entries : list op_entry)
    (results : list snmp_variable) (sent : list netsnmp_pdu) : run call_out :=
  match entries with
  | [] => Ret {| ret := PyList results; session_errors := None; log := sent |}
  | e :: rest =>
      match request_rounds fuel next e (Some (first e)) results sent with
      | Ret (EntryDone results' sent') =>
          request_entries fuel first next rest results' sent'
      | Ret (Abort out) => Ret out
      | Fault s => Fault s
      | NoFuel s => NoFuel s
      end
  end.

(** An entry point, once its arguments are parsed and the session context
    is at hand. *)
Definition fetch (fuel : nat) (first : op_entry -> netsnmp_pdu)
    (next : option (variable -> netsnmp_pdu)) (varlist : list py_varbind)
    (sent : list netsnmp_pdu) : run call_out :=
  match snmp_op_data_load varlist with
  | None => Fault sent
  | Some (inl exc) =>
      Ret {| ret := PyRaise exc; session_errors := None; log := sent |}
  | Some (inr entries) => request_entries fuel first next entries [] sent
  end.

Definition netsnmp_get (fuel : nat) (varlist : list py_varbind)
    (sent : list netsnmp_pdu) : run call_out :=
  fetch fuel (first_request SNMP_MSG_GET) None varlist sent.

Definition netsnmp_walk (fuel : nat) (varlist : list py_varbind)
    (sent : list netsnmp_pdu) : run call_out :=
  fetch fuel (first_request SNMP_MSG_GETNEXT) (Some next_getnext) varlist sent.

Definition netsnmp_bulkwalk (fuel : nat) (varlist : list py_varbind)
    (nonrepeaters maxrepetitions : Z) (sent : list netsnmp_pdu)
  : run call_out :=
  fetch fuel
        (fun e => bulk_request nonrepeaters maxrepetitions
                               (oid_arr e) (oid_arr_len e))
        (Some (next_getbulk nonrepeaters maxrepetitions)) varlist sent.

End EntryPoints.

(** ** Varbind marshaller and the write entry point *)

(** The parsers of libc and net-snmp the marshaller calls, and the
    [snprintf("%d")] of the enumeration value. *)
Record parsers : Type :=
  { strtol : string -> Z;
    inet_addr : string -> Z;
    snmp_parse_oid : string -> option (list oid);
    snprintf_d : Z -> string }.

Definition STR_BUF_SIZE : Z := 32 * MAX_OID_LEN.

(** The first [len] bytes of a buffer. *)
Definition bytes (val : string) (len : Z) : string :=
  substring 0 (Z.to_nat len) val.

(** [__add_var_val_str(pdu, name, name_length, val, len, type)]: the status
    and the PDU with the new variable.  [junk0] is what freshly allocated
    storage holds when nothing is stored in it. *)
Definition __add_var_val_str (ps : parsers) (junk0 : Z) (pdu : netsnmp_pdu)
    (name : list oid) (name_length : Z) (val : option string) (len : Z)
    (type : Z) : Z * netsnmp_pdu :=
  let add ty v :=
    add_var pdu {| v_name := take (Z.to_nat name_length) name;
                   v_type := ty; v_val := v |} in
  let uint ty :=
    match val with
    | Some s => (SUCCESS, add ty (ValInteger (default junk0 (sscanf_lu s))))
    | None => (FAILURE, add ty (ValInteger 0))
    end in
  let oct :=
    match val with
    | Some s =>
        if len =? 0 then (FAILURE, add ASN_OCTET_STR (ValString ""))
        else (SUCCESS, add ASN_OCTET_STR (ValString (bytes s len)))
    | None => (FAILURE, add ASN_OCTET_STR (ValString ""))
    end in
  if (type =? TYPE_INTEGER) || (type =? TYPE_INTEGER32) then
    match val with
    | Some s => (SUCCESS, add ASN_INTEGER (ValInteger (strtol ps s)))
    | None => (FAILURE, add ASN_INTEGER (ValInteger 0))
    end
  else if (type =? TYPE_GAUGE) || (type =? TYPE_UNSIGNED32) then uint ASN_GAUGE
  else if type =? TYPE_COUNTER then uint ASN_COUNTER
  else if type =? TYPE_TIMETICKS then uint ASN_TIMETICKS
  else if type =? TYPE_UINTEGER then uint ASN_UINTEGER
  else if (type =? TYPE_OCTETSTR) || (type =? TYPE_BITSTRING)
          || (type =? TYPE_OPAQUE) then oct
  else if type =? TYPE_IPADDR then
    match val with
    | Some s => (SUCCESS, add ASN_IPADDRESS (ValInteger (inet_addr ps s)))
    | None => (FAILURE, add ASN_IPADDRESS (ValInteger 0))
    end
  else if type =? TYPE_OBJID then
    match val with
    | Some s =>
        match snmp_parse_oid ps s with
        | Some o => (SUCCESS, add ASN_OBJECT_ID (ValObjid o))
        | None => (FAILURE, add ASN_OBJECT_ID ValNone)
        end
    | None => (FAILURE, add ASN_OBJECT_ID ValNone)
    end
  else (FAILURE, add ASN_NULL ValNone).

(** The label search of [netsnmp_set] over [tp->enums]. *)
Fixpoint enum_value (enums : list (string * Z)) (val : string) : option Z :=
  match enums with
  | [] => None
  | (label, value) :: rest =>
      if strcmp label val =? 0 then Some value else enum_value rest val
  end.

(** How the loop of [netsnmp_set] over the variables ends: with the request
    built, with an exception, or at [done] with neither. *)
Inductive set_build : Type :=
| BuildOk (pdu : netsnmp_pdu)
| BuildRaise (exc : py_exception)
| BuildDone.

Section WriteEntryPoint.

Variable txt : errtext.
Variable m : mib.
Variable junk : nat -> oid.
Variable ps : parsers.
Variable use_enums : Z.
Variable ctx : session_capsule_ctx.

(** The type of a variable whose tag gave none: from its [snmp_type]. *)
Definition set_type (vb : py_varbind) (type : Z) : set_build + Z :=
  if type =? TYPE_UNKNOWN then
    match vb_snmp_type vb with
    | None => inl BuildDone
    | Some type_str =>
        let type := __translate_appl_type (Some type_str) in
        if type =? TYPE_UNKNOWN
        then inl (BuildRaise EasySNMPUndeterminedTypeError)
        else inr type
    end
  else inr type.

(** The text handed to the marshaller: the value, or the number of the
    enumeration label it names. *)
Definition set_value (tp : option tree) (type : Z) (val : string) : string :=
  let tmp_val_str := bytes val (Z.min (Z.of_nat (String.length val))
                                      (STR_BUF_SIZE - 1)) in
  match tp with
  | Some t =>
      if (type =? TYPE_INTEGER) && negb (use_enums =? 0)
      then match enum_value (t_enums t) val with
           | Some value => snprintf_d ps value
           | None => tmp_val_str
           end
      else tmp_val_str
  | None => tmp_val_str
  end.

(** The loop of [netsnmp_set] over the variables; [oid_arr] is the one
    array all of them are resolved into. *)
Fixpoint set_varbinds (varlist : list py_varbind) (pdu : netsnmp_pdu)
    (oid_arr : list oid) : option set_build :=
  match varlist with
  | [] => Some (BuildOk pdu)
  | vb :: rest =>
      '(tp, oid_arr, oid_arr_len, type) ←
        match vb_oid vb, vb_oid_index vb with
        | Some tag, Some iid =>
            __tag2oid m junk (Some tag) (Some iid) oid_arr (best_guess ctx)
        | _, _ => Some (None, oid_arr, 0, TYPE_UNKNOWN)
        end;
      if oid_arr_len =? 0
      then Some (BuildRaise (EasySNMPUnknownObjectIDError (vb_oid vb)))
      else
        match set_type vb type with
        | inl stop => Some stop
        | inr type =>
            match vb_value vb with
            | None => Some BuildDone
            | Some val =>
                let tmplen := Z.min (Z.of_nat (String.length val))
                                    (STR_BUF_SIZE - 1) in
                let '(_, pdu) :=
                  __add_var_val_str ps (junk O) pdu oid_arr oid_arr_len
                                    (Some (set_value tp type val)) tmplen
                                    type in
                set_varbinds rest pdu oid_arr
            end
        end
  end.

(** [netsnmp_set], once its arguments are parsed and the session context
    is at hand. *)
Definition netsnmp_set (fuel : nat) (varlist : list py_varbind)
    (sent0 : list netsnmp_pdu) : run call_out :=
  match set_varbinds varlist (snmp_pdu_create SNMP_MSG_SET)
                     (replicate (Z.to_nat MAX_OID_LEN) 0) with
  | None => Fault sent0
  | Some (BuildRaise exc) =>
      Ret {| ret := PyRaise exc; session_errors := None; log := sent0 |}
  | Some BuildDone =>
      Ret {| ret := PyNone; session_errors := None; log := sent0 |}
  | Some (BuildOk pdu) =>
      match __send_sync_pdu txt fuel (handle ctx) (Some pdu) NO_RETRY_NOSUCH
                            None sent0 with
      | Fault s => Fault s
      | NoFuel s => NoFuel s
      | Ret o =>
          Ret {| ret := if negb (status o =? 0)
                        then match py_err o with
                             | Some exc => PyRaise exc
                             | None => PyNull
                             end
                        else PyLong 1;
                 session_errors := Some (err_str o, err_num o, err_ind o);
                 log := sent o |}
      end
  end.

End WriteEntryPoint.

(** What the callers read after a call: the variables of the response left
    in the [response] slot ([vars = op_data.response->variables]). *)
Definition result_entries (o : sync_out) : list variable :=
  match response o with
  | Some r => variables r
  | None => []
  end.

Definition round_mask (r : round) : option bitarray :=
  match r with
  | Retry st => st_invalid_oids st
  | Done o => invalid_oids o
  | Crash _ => None
  end.

(** ** Vocabulary of the statements *)

(** The numbers [sscanf] reads from the tokens of an instance, up to the
    first token it reads no number from. *)
Fixpoint scanned_prefix (toks : list string) : list oid :=
  match toks with
  | [] => []
  | cp :: toks' =>
      match sscanf_lu cp with
      | Some v => v :: scanned_prefix toks'
      | None => []
      end
  end.

(** The state the retry loop is in after [k] rounds. *)
Fixpoint after_rounds (txt : errtext) (ss : netsnmp_session)
    (retry_nosuch c : Z) (k : nat) (st : sync_state) : round :=
  match k with
  | O => Retry st
  | S k' =>
      match sync_round txt ss retry_nosuch c st with
      | Retry st' => after_rounds txt ss retry_nosuch c k' st'
      | r => r
      end
  end.

(** The mask in which the bits [0 .. n-1] were set one after the other. *)
Fixpoint first_marks (n : nat) : bitarray :=
  match n with
  | O => ∅
  | S k => bitarray_set_bit (first_marks k) (Z.of_nat k)
  end.

(** The responses of the agent carry no more variables than the request
    they answer. *)
Definition echoes (ss : netsnmp_session) : Prop :=
  forall log req st r,
    synch_response ss log req = (st, Some r) ->
    (length (variables r) <= length (variables req))%nat.

(** The requests sent by a run, however it ended. *)
Definition sent_by {A : Type} (f : A -> list netsnmp_pdu) (r : run A)
  : list netsnmp_pdu :=
  match r with
  | Ret a => f a
  | Fault s => s
  | NoFuel s => s
  end.

Definition entry_sent (r : entry_result) : list netsnmp_pdu :=
  match r with
  | EntryDone _ s => s
  | Abort out => log out
  end.

Definition round_sent (r : round) : list netsnmp_pdu :=
  match r with
  | Retry st => st_sent st
  | Done o => sent o
  | Crash s => s
  end.

(** The name of the variable has left the subtree of the starting path: it
    is shorter than the path, or its prefix of that length is not the
    path. *)
Definition leaves_subtree (e : op_entry) (v : variable) : Prop :=
  Z.of_nat (length (v_name v)) < oid_arr_len e
  \/ take (Z.to_nat (oid_arr_len e)) (v_name v)
     <> take (Z.to_nat (oid_arr_len e)) (oid_arr e).

(** The variable is neither an end marker nor outside the subtree. *)
Definition in_scope (e : op_entry) (v : variable) : Prop :=
  v_type v <> SNMP_ENDOFMIBVIEW
  /\ v_type v <> SNMP_NOSUCHOBJECT
  /\ v_type v <> SNMP_NOSUCHINSTANCE
  /\ ~ leaves_subtree e v.

(** An agent that answers every request with the same response. *)
Definition answering_agent (r : netsnmp_pdu) : netsnmp_session :=
  {| synch_response := fun _ _ => (STAT_SUCCESS, Some r);
     sess_error := fun _ => (0, 0, "");
     s_snmp_errno := 0 |}.

(** A formatter that constructs no record. *)
Definition no_formatter
  : variable -> op_entry -> Z -> Z -> option snmp_variable :=
  fun _ _ _ _ => None.

(** A formatter that reports the type name only. *)
Definition type_formatter
  : variable -> op_entry -> Z -> Z -> option snmp_variable :=
  fun v e _ _ =>
    Some {| root_oid := initial_oid_str e; sv_oid := None;
            sv_oid_index := None;
            sv_snmp_type := Some (snd (__get_type_str (v_type v)));
            sv_value := None |}.

Definition session_of (ss : netsnmp_session) (best_guess retry_nosuch : Z)
  : session_capsule_ctx :=
  {| handle := Some ss; getlabel_flag := 0; sprintval_flag := 0;
     best_guess := best_guess; retry_nosuch := retry_nosuch |}.

Definition varbind_of (tag iid : string) : py_varbind :=
  {| vb_oid := Some tag; vb_oid_index := Some iid;
     vb_snmp_type := None; vb_value := None |}.

(** An agent for a two-round bulk walk of [.1.3.6.1.2.1.1]: the starting
    path is answered with two variables of the subtree, anything else with
    the end marker. *)
Definition two_round_agent : netsnmp_session :=
  {| synch_response := fun _ req =>
       let answer vars :=
         (STAT_SUCCESS,
          Some {| command := SNMP_MSG_RESPONSE; errstat := SNMP_ERR_NOERROR;
                  errindex := 0; variables := vars |}) in
       if bool_decide (map v_name (variables req) = [[1; 3; 6; 1; 2; 1; 1]])
       then answer [ {| v_name := [1; 3; 6; 1; 2; 1; 1; 1; 0];
                        v_type := ASN_OCTET_STR; v_val := ValString "sw" |};
                     {| v_name := [1; 3; 6; 1; 2; 1; 1; 3; 0];
                        v_type := ASN_TIMETICKS; v_val := ValInteger 42 |} ]
       else answer [ {| v_name := [1; 3; 6; 1; 2; 1; 2; 1; 0];
                        v_type := SNMP_ENDOFMIBVIEW; v_val := ValNone |} ];
     sess_error := fun _ => (0, 0, "");
     s_snmp_errno := 0 |}.

(** Parsers for concrete runs. *)
Definition plain_parsers : parsers :=
  {| strtol := fun s => default 0 (sscanf_lu s);
     inet_addr := fun _ => 0;
     snmp_parse_oid := fun _ => None;
     snprintf_d := fun _ => "" |}.

(** ** The rest of the type translator, the scanners and the fetches *)

(** net-snmp, asn1.h and snmp_impl.h *)
Definition ASN_BIT_STR : Z := 3.
Definition ASN_OPAQUE : Z := 68.
Definition ASN_NSAP : Z := 69.
Definition ASN_COUNTER64 : Z := 70.

(** interface.c *)
Definition USE_NUMERIC_OIDS : Z := 8.
Definition USE_LONG_NAMES : Z := 2.
Definition FAIL_ON_NULL_IID : Z := 1.
Definition NO_FLAGS : Z := 0.
Definition USE_BASIC : Z := 0.
Definition USE_ENUMS : Z := 1.
Definition USE_SPRINT_VALUE : Z := 2.

(** The cases of [__translate_asn_type] that translate, in the order of
    its [switch]. *)
Definition asn_types : list (Z * Z) :=
  [ (ASN_INTEGER, TYPE_INTEGER); (ASN_OCTET_STR, TYPE_OCTETSTR);
    (ASN_OPAQUE, TYPE_OPAQUE); (ASN_OBJECT_ID, TYPE_OBJID);
    (ASN_TIMETICKS, TYPE_TIMETICKS); (ASN_GAUGE, TYPE_GAUGE);
    (ASN_COUNTER, TYPE_COUNTER); (ASN_IPADDRESS, TYPE_IPADDR);
    (ASN_BIT_STR, TYPE_BITSTRING); (ASN_NULL, TYPE_NULL);
    (SNMP_ENDOFMIBVIEW, SNMP_ENDOFMIBVIEW);
    (SNMP_NOSUCHOBJECT, SNMP_NOSUCHOBJECT);
    (SNMP_NOSUCHINSTANCE, SNMP_NOSUCHINSTANCE);
    (ASN_UINTEGER, TYPE_UINTEGER); (ASN_COUNTER64, TYPE_COUNTER64) ].

Fixpoint switch_type (cases : list (Z * Z)) (type : Z) : option Z :=
  match cases with
  | [] => None
  | (k, t) :: rest => if type =? k then Some t else switch_type rest type
  end.

(** [__translate_asn_type(type)]; every value without a case is logged and
    becomes [TYPE_OTHER]. *)
Definition __translate_asn_type (type : Z) : Z :=
  default TYPE_OTHER (switch_type asn_types type).

(** [__is_leaf(tp)]. *)
Definition __is_leaf (tp : option tree) : bool :=
  match tp with
  | None => false
  | Some t =>
      negb (fst (__get_type_str (t_type t)) =? 0)
      || match t_parent t with
         | None => false
         | Some up => negb (fst (__get_type_str (t_type up)) =? 0)
         end
  end.

(** The loop of [__is_numeric_oid] over the characters. *)
Fixpoint no_alpha (oidstr : string) : Z :=
  match oidstr with
  | EmptyString => 1
  | String c rest => if isalpha c then 0 else no_alpha rest
  end.

Definition __is_numeric_oid (oidstr : option string) : Z :=
  match oidstr with
  | None => 0
  | Some s => no_alpha s
  end.

Definition digit_char (d : Z) : ascii := ascii_of_nat (Z.to_nat (48 + d)).

(** The decimal digits of [n], most significant first, in front of
    [acc]. *)
Fixpoint lu_digits (fuel : nat) (n : Z) (acc : string) : string :=
  match fuel with
  | O => acc
  | S fuel' =>
      let acc' := String (digit_char (n mod 10)) acc in
      if n <? 10 then acc' else lu_digits fuel' (n / 10) acc'
  end.

(** What [sprintf(buf, "%lu", n)] writes for an [unsigned long]: at most
    twenty digits. *)
Definition sprintf_lu (n : Z) : string := lu_digits 20 (to_ulong n) "".

(** The loop of [__sprint_num_objid]: a separator and a number for each
    sub-identifier. *)
Fixpoint sprint_components (objid : list oid) : string :=
  match objid with
  | [] => ""
  | x :: rest => String "." (sprintf_lu x ++ sprint_components rest)
  end.

(** [__sprint_num_objid(buf, objid, len)]: the status and the text left in
    [buf], for a [buf] that holds it and a [len] within the array (the
    function checks neither). *)
Definition __sprint_num_objid (objid : list oid) (len : Z) : Z * string :=
  (SUCCESS, sprint_components (take (Z.to_nat len) objid)).

(** The sub-identifiers from the root of the tree down to a node. *)
Fixpoint root_path (tp : tree) : list oid :=
  match tp with
  | mk_tree subid _ _ (Some up) => (root_path up ++ [subid])%list
  | mk_tree subid _ _ None => [subid]
  end.

(** [netsnmp_getnext] and [netsnmp_getbulk]: the loops of [netsnmp_get]
    with another first request; neither builds a next request and both
    leave the loop [while (notdone)] after one round. *)
Definition netsnmp_getnext (txt : errtext) (m : mib) (junk : nat -> oid)
    (read_variable : variable -> op_entry -> Z -> Z -> option snmp_variable)
    (ctx : session_capsule_ctx) (fuel : nat) (varlist : list py_varbind)
    (sent0 : list netsnmp_pdu) : run call_out :=
  fetch txt m junk read_variable ctx fuel (first_request SNMP_MSG_GETNEXT)
        None varlist sent0.

Definition netsnmp_getbulk (txt : errtext) (m : mib) (junk : nat -> oid)
    (read_variable : variable -> op_entry -> Z -> Z -> option snmp_variable)
    (ctx : session_capsule_ctx) (fuel : nat) (varlist : list py_varbind)
    (nonrepeaters maxrepetitions : Z) (sent0 : list netsnmp_pdu)
  : run call_out :=
  fetch txt m junk read_variable ctx fuel
        (fun e => bulk_request nonrepeaters maxrepetitions
                               (oid_arr e) (oid_arr_len e))
        None varlist sent0.

(** The records the formatter builds for the variables of a response, in
    response order. *)
Definition records_of
    (read_variable : variable -> op_entry -> Z -> Z -> option snmp_variable)
    (ctx : session_capsule_ctx) (e : op_entry) (vars : list variable)
  : list snmp_variable :=
  omap (fun v => read_variable v e (getlabel_flag ctx) (sprintval_flag ctx))
       vars.

(** A response without error status that carries the given variables. *)
Definition ok_response (vars : list variable) : netsnmp_pdu :=
  {| command := SNMP_MSG_RESPONSE; errstat := SNMP_ERR_NOERROR;
     errindex := 0; variables := vars |}.

(** The variable ends the reading of a response: an end-of-view marker, a
    no-such marker, or a name outside the subtree. *)
Definition stops_walk (e : op_entry) (v : variable) : Prop :=
  v_type v = SNMP_ENDOFMIBVIEW
  \/ v_type v = SNMP_NOSUCHOBJECT
  \/ v_type v = SNMP_NOSUCHINSTANCE
  \/ leaves_subtree e v.

(** What is emitted for the variable that ends the reading: a placeholder
    for a no-such marker, nothing otherwise. *)
Definition marker_records (e : op_entry) (v : variable) : list snmp_variable :=
  if v_type v =? SNMP_ENDOFMIBVIEW then []
  else if (v_type v =? SNMP_NOSUCHOBJECT) || (v_type v =? SNMP_NOSUCHINSTANCE)
       then [placeholder e v]
       else [].

(** The entry loaded for the tag [.1.3.6.1.2.1.1] with no instance, in
    storage that held zeros. *)
Definition system_entry : op_entry :=
  {| initial_oid_str := Some ".1.3.6.1.2.1.1";
     oid_arr := ([1; 3; 6; 1; 2; 1; 1] ++ replicate 121 0)%list;
     oid_arr_len := 7 |}.

Definition sys_descr : variable :=
  {| v_name := [1; 3; 6; 1; 2; 1; 1; 1; 0];
     v_type := ASN_OCTET_STR; v_val := ValString "sw" |}.

Definition sys_uptime : variable :=
  {| v_name := [1; 3; 6; 1; 2; 1; 1; 3; 0];
     v_type := ASN_TIMETICKS; v_val := ValInteger 42 |}.

Definition if_number : variable :=
  {| v_name := [1; 3; 6; 1; 2; 1; 2; 1; 0];
     v_type := ASN_INTEGER; v_val := ValInteger 2 |}.

(** An agent that answers a walk round by round: the request [p] with
    the first response of [rs], the request built from the last variable
    of a response with the response after it, and the request built from
    the last response of [rs] with [final]. *)
Fixpoint walk_chain (ss : netsnmp_session) (mk : variable -> netsnmp_pdu)
    (p : netsnmp_pdu) (rs : list (list variable)) (final : list variable)
  : Prop :=
  match rs with
  | [] =>
      forall sent1,
        synch_response ss sent1 p = (STAT_SUCCESS, Some (ok_response final))
  | r :: rs' =>
      (forall sent1,
         synch_response ss sent1 p = (STAT_SUCCESS, Some (ok_response r)))
      /\ match last r with
         | Some vN => walk_chain ss mk (mk vN) rs' final
         | None => False
         end
  end.

(** The requests that follow the responses [rs] in a walk. *)
Definition chain_requests (mk : variable -> netsnmp_pdu)
    (rs : list (list variable)) : list netsnmp_pdu :=
  map mk (omap last rs).

(** An agent that answers by the name asked for: [.1.3.6.1.2.1.1] with
    [sys_descr], the name of [sys_descr] with [sys_uptime], anything else
    with [if_number]. *)
Definition system_agent : netsnmp_session :=
  {| synch_response := fun _ req =>
       if bool_decide (map v_name (variables req) = [[1; 3; 6; 1; 2; 1; 1]])
       then (STAT_SUCCESS, Some (ok_response [sys_descr]))
       else if bool_decide (map v_name (variables req) = [v_name sys_descr])
       then (STAT_SUCCESS, Some (ok_response [sys_uptime]))
       else (STAT_SUCCESS, Some (ok_response [if_number]));
     sess_error := fun _ => (0, 0, "");
     s_snmp_errno := 0 |}.

(** A type specifier with its letters in lower case. *)
Fixpoint lowercase (s : string) : string :=
  match s with
  | EmptyString => EmptyString
  | String c s' => String (tolower c) (lowercase s')
  end.

(** A naming tree that knows one label: [find_node] gives the node of
    [sysDescr], four levels down from its root; the searches by path
    fail. *)
Definition sys_descr_node : tree :=
  mk_tree 1 TYPE_OCTETSTR []
    (Some (mk_tree 1 TYPE_OTHER []
       (Some (mk_tree 2 TYPE_OTHER []
          (Some (mk_tree 1 TYPE_OTHER [] None)))))).

Definition one_label_mib : mib :=
  {| get_node := fun _ nn nl => (0, nn, nl);
     get_wild_node := fun _ nn nl => (0, nn, nl);
     read_objid := fun _ nn nl => (0, nn, nl);
     get_tree := fun _ _ => None;
     find_node := fun tag =>
       if String.eqb tag "sysDescr" then Some sys_descr_node else None;
     strdup := Some |}.

(** ** Label and instance of a printed name *)

(** The buffer [name] points into: its characters, the terminator, and
    the byte that follows the terminator in the caller's buffer. *)
Definition name_buf (name : string) (after : ascii) : list ascii :=
  (list_ascii_of_string name ++ [Ascii.zero; after])%list.

(** The character at index [p] of the buffer. *)
Definition deref (buf : list ascii) (p : nat) : ascii :=
  default Ascii.zero (buf !! p).

(** The C string a buffer starts with, and the one at index [p]. *)
Fixpoint c_string (buf : list ascii) : string :=
  match buf with
  | [] => ""
  | c :: rest =>
      if Ascii.eqb c Ascii.zero then "" else String c (c_string rest)
  end.

Definition string_at (buf : list ascii) (p : nat) : string :=
  c_string (drop p buf).

(** [strncmp]: at most [n] characters. *)
Fixpoint strncmp (a b : string) (n : nat) : Z :=
  match n with
  | O => 0
  | S n' =>
      match a, b with
      | String x a', String y b' =>
          if Ascii.eqb x y then strncmp a' b' n' else code x - code y
      | _, _ => code (peek a) - code (peek b)
      end
  end.

(** [flag & bit] as a condition. *)
Definition has_flag (flag bit : Z) : bool := negb (Z.land flag bit =? 0).

(** The backward loop of the numeric branch of [__get_label_iid], from
    index [lcp] down to the start of the name: [lcp] and [icp] when the
    loop is left. *)
Fixpoint numeric_scan (buf : list ascii) (lcp : nat) (icp : option nat)
  : nat * option nat :=
  match lcp with
  | O => (O, icp)
  | S lcp' =>
      if is_dot (deref buf lcp)
      then match icp with
           | None => numeric_scan buf lcp' (Some lcp)
           | Some _ => (lcp, icp)
           end
      else numeric_scan buf lcp' icp
  end.

(** The backward loop of the other branch: [lcp], [icp] and
    [found_label] when the loop is left. *)
Fixpoint label_scan (buf : list ascii) (lcp icp : nat) (found_label : bool)
  : nat * nat * bool :=
  match lcp with
  | O => (O, icp, found_label)
  | S lcp' =>
      if is_dot (deref buf lcp)
      then if found_label then (S lcp, icp, found_label)
           else label_scan buf lcp' lcp
                           (found_label || isalpha (deref buf lcp))
      else label_scan buf lcp' icp (found_label || isalpha (deref buf lcp))
  end.

(** [__get_label_iid(name, &last_label, &iid, flag)]: the status and the
    two strings handed back ([NULL] on failure).  [after] is the byte that
    follows the terminator of [name] in the caller's buffer, which the
    test on [*(icp + 1)] reads when [icp] is at the terminator; [name_p]
    is the index the pointer [name] is at. *)
Definition __get_label_iid (name : string) (after : ascii) (flag : Z)
  : Z * option string * option string :=
  let buf := name_buf name after in
  let len := String.length (c_string buf) in
  if (len =? 0)%nat then (FAILURE, None, None)
  else if has_flag flag USE_NUMERIC_OIDS then
    if __is_numeric_oid (Some (c_string buf)) =? 0
    then (FAILURE, None, None)
    else
      let '(lcp, icp) := numeric_scan buf len None in
      match icp with
      | None => (FAILURE, None, None)
      | Some icp =>
          let lcp := S lcp in
          let buf := <[icp := Ascii.zero]> buf in
          let icp := S icp in
          (SUCCESS,
           Some (string_at buf (if has_flag flag USE_LONG_NAMES
                                then O else lcp)),
           Some (string_at buf icp))
      end
  else
    let '(lcp, icp, found_label) := label_scan buf len len false in
    if negb found_label
       || (negb (is_digit (deref buf (S icp)))
           && has_flag flag FAIL_ON_NULL_IID)
    then (FAILURE, None, None)
    else
      let '(buf, name_p, icp, flag) :=
        if has_flag flag NON_LEAF_NAME then
          let icp := len in
          let flag := Z.lor flag USE_LONG_NAMES in
          let rewritten digit :=
            (<[3%nat := digit]> (<[2%nat := "."%char]> buf), 2%nat, icp,
             flag) in
          if is_dot (deref buf lcp) && (lcp =? 0)%nat then
            if strncmp ".ccitt." (string_at buf lcp) 7 =? 0
            then rewritten "0"%char
            else if strncmp ".iso." (string_at buf lcp) 5 =? 0
            then rewritten "1"%char
            else if strncmp ".joint-iso-ccitt." (string_at buf lcp) 17 =? 0
            then rewritten "2"%char
            else (buf, O, icp, flag)
          else (buf, O, icp, flag)
        else if negb (Ascii.eqb (deref buf icp) Ascii.zero)
        then (<[icp := Ascii.zero]> buf, O, S icp, flag)
        else (buf, O, icp, flag) in
      (SUCCESS,
       Some (string_at buf (if has_flag flag USE_LONG_NAMES
                            then name_p else lcp)),
       Some (string_at buf icp)).

(** The name holds no terminator of its own. *)
Fixpoint no_nul (s : string) : bool :=
  match s with
  | EmptyString => true
  | String c s' => negb (Ascii.eqb c Ascii.zero) && no_nul s'
  end.

(** Whether a letter occurs, and whether a separator occurs. *)
Fixpoint has_alpha (s : string) : bool :=
  match s with
  | EmptyString => false
  | String c s' => isalpha c || has_alpha s'
  end.

(** ** Session context *)

(** net-snmp, default_store.h *)
Definition NETSNMP_OID_OUTPUT_FULL : Z := 3.
Definition NETSNMP_OID_OUTPUT_NUMERIC : Z := 4.

(** The attributes of the Python session object the context is filled
    from. *)
Record session_attrs : Type :=
  { use_long_names : Z;
    use_numeric : Z;
    use_enums : Z;
    use_sprint_value : Z;
    attr_best_guess : Z;
    retry_no_such : Z }.

(** [get_session_context] when the capsule holds a context and the
    attributes can be read: the context as it is left, and the output
    format stored in the library, if one is. *)
Definition get_session_context (h : option netsnmp_session)
    (attrs : session_attrs) : session_capsule_ctx * option Z :=
  let getlabel_flag := NO_FLAGS in
  let sprintval_flag := USE_BASIC in
  let '(getlabel_flag, format) :=
    if negb (use_long_names attrs =? 0)
    then (Z.lor getlabel_flag USE_LONG_NAMES, Some NETSNMP_OID_OUTPUT_FULL)
    else if negb (use_numeric attrs =? 0)
    then (Z.lor (Z.lor getlabel_flag USE_LONG_NAMES) USE_NUMERIC_OIDS,
          Some NETSNMP_OID_OUTPUT_NUMERIC)
    else (getlabel_flag, None) in
  let sprintval_flag :=
    if negb (use_enums attrs =? 0) then USE_ENUMS else sprintval_flag in
  let sprintval_flag :=
    if negb (use_sprint_value attrs =? 0) then USE_SPRINT_VALUE
    else sprintval_flag in
  ({| handle := h;
      getlabel_flag := getlabel_flag;
      sprintval_flag := sprintval_flag;
      best_guess := attr_best_guess attrs;
      retry_nosuch := retry_no_such attrs |},
   format).

(** The flag [read_variable] hands to [__get_label_iid] for a variable
    whose name printed to the node [tp]: [NON_LEAF_NAME] is added unless
    the node is a leaf. *)
Definition label_flag (tp : option tree) (getlabel_flag : Z) : Z :=
  if __is_leaf tp then getlabel_flag
  else Z.lor getlabel_flag NON_LEAF_NAME.

(** * Properties *)

(** ** Type translator *)

Lemma switch_case_sound (P : Z -> string -> Prop) (cases : list (Z * string)) :
  Forall (fun c => P (fst c) (snd c)) cases ->
  forall type name, switch_case cases type = Some name -> P type name.
Proof.
  induction 1 as [|[k n] rest Hk _ IH]; intros type name; simpl.
  - discriminate.
  - destruct (Z.eqb_spec type k) as [->|_].
    + intros [= <-]. exact Hk.
    + apply IH.
Qed.

(** C8: for every type tag for which [__get_type_str] succeeds with a
    non-empty name, [__translate_appl_type] of that name is the tag. *)
Theorem type_name_round_trip (type : Z) (name : string) :
  __get_type_str type = (SUCCESS, name) ->
  name <> "" ->
  __translate_appl_type (Some name) = type.
Proof.
  unfold __get_type_str. intros Hget _.
  destruct (switch_case type_names type) as [n|] eqn:Hcase; [|discriminate].
  injection Hget as <-.
  revert type n Hcase.
  apply (switch_case_sound (fun t n => __translate_appl_type (Some n) = t)).
  unfold type_names. repeat constructor.
Qed.

Lemma type_name_round_trip_witness :
  __get_type_str TYPE_INTEGER32 = (SUCCESS, "INTEGER32")
  /\ __translate_appl_type (Some "INTEGER32") = TYPE_INTEGER32.
Proof.
  split; [reflexivity|].
  apply (type_name_round_trip TYPE_INTEGER32 "INTEGER32");
    [reflexivity | discriminate].
Defined.

(** ** Request / retry orchestrator *)

Section OrchestratorFacts.

Variable txt : errtext.

(** [err_str] is cleared on entry and no round writes it before the
    status is corrected, so a generic transport error is always
    reclassified. *)
Lemma correct_status_cleared :
  correct_status "" STAT_ERROR = STAT_TIMEOUT.
Proof. reflexivity. Qed.

Lemma correct_status_spec (err_str : string) :
  correct_status err_str STAT_ERROR
  = if strcmp err_str "Timeout" =? 0 then STAT_ERROR else STAT_TIMEOUT.
Proof.
  unfold correct_status. destruct (strcmp err_str "Timeout" =? 0); reflexivity.
Qed.

Lemma sync_round_stat_error (ss : netsnmp_session) (retry_nosuch c : Z)
    (pdu : netsnmp_pdu) (mask : option bitarray) (sent0 : list netsnmp_pdu)
    (resp : option netsnmp_pdu) :
  synch_response ss sent0 pdu = (STAT_ERROR, resp) ->
  exists o, sync_round txt ss retry_nosuch c (sync_init pdu mask sent0) = Done o
            /\ status o = STAT_TIMEOUT
            /\ py_err o = Some EasySNMPTimeoutError.
Proof.
  intros Hx. unfold sync_round, sync_init; simpl. rewrite Hx.
  assert (Hst : (if bool_decide (resp = None) && (STAT_ERROR =? STAT_SUCCESS)
                 then STAT_ERROR else STAT_ERROR) = STAT_ERROR)
    by (destruct (bool_decide (resp = None)); reflexivity).
  rewrite Hst, correct_status_cleared. simpl.
  destruct (sess_error ss (sent0 ++ [pdu])) as [[e se] text].
  eexists; split; [reflexivity|]. split; reflexivity.
Qed.

End OrchestratorFacts.

(** C1: the code at a transport status of [STAT_ERROR].  The text
    inspected is the cleared [err_str], and the test reclassifies when it
    differs from "Timeout": whatever the diagnostic text of the session is,
    the call is classified as a timeout and [EasySNMPTimeoutError] is
    raised, never the generic error; had the inspected text been
    "Timeout", the status would have been left as it was. *)
Theorem stat_error_always_timeout (text : string) (pdu : netsnmp_pdu)
    (retry_nosuch : Z) (mask : option bitarray) (sent0 : list netsnmp_pdu)
    (fuel : nat) :
  __send_sync_pdu no_text (S fuel) (Some (failing_transport STAT_ERROR text))
                  (Some pdu) retry_nosuch mask sent0
  = Ret {| status := STAT_TIMEOUT; response := None; err_str := text;
           err_num := 0; err_ind := 0; invalid_oids := mask;
           py_err := Some EasySNMPTimeoutError; retry_num := 0;
           sent := (sent0 ++ [pdu])%list |}
  /\ st_err_str (sync_init pdu mask sent0) = ""
  /\ correct_status "" STAT_ERROR = STAT_TIMEOUT
  /\ correct_status "Timeout" STAT_ERROR = STAT_ERROR.
Proof. repeat split. Qed.

Lemma elem_of_first_marks (n : nat) (x : Z) :
  x ∈ first_marks n <-> 0 <= x < Z.of_nat n.
Proof.
  induction n as [|n IH]; cbn [first_marks].
  - rewrite elem_of_empty. simpl. lia.
  - unfold bitarray_set_bit. rewrite elem_of_union, elem_of_singleton, IH. lia.
Qed.

Lemma size_first_marks (n : nat) : size (first_marks n) = n.
Proof.
  induction n as [|n IH]; cbn [first_marks].
  - apply size_empty.
  - unfold bitarray_set_bit. rewrite size_union.
    + rewrite size_singleton, IH. reflexivity.
    + intros x Hx Hin. apply elem_of_singleton in Hx. subst x.
      apply elem_of_first_marks in Hin. lia.
Qed.

(** C2: a batch of five entries against an agent that reports error index
    1 on every round.  After [k] rounds the mask holds exactly the [k]
    indices [0 .. k-1]; round [k+1] marks bit [k], which no earlier round
    had set; the fifth round leaves nothing to resubmit and the call ends
    with success, the five distinct indices 0..4 marked, after five
    requests of 5, 4, 3, 2 and 1 entries. *)
Theorem elision_ascending_marks_distinct (txt : errtext)
    (v1 v2 v3 v4 v5 : variable) (c e i : Z) (sent0 : list netsnmp_pdu) :
  let pdu := {| command := c; errstat := e; errindex := i;
                variables := [v1; v2; v3; v4; v5] |} in
  let rounds k :=
    after_rounds txt (rejecting_agent 1) 1 c k (sync_init pdu (Some ∅) sent0) in
  (forall k, (k <= 5)%nat ->
     exists ba, round_mask (rounds k) = Some ba
                /\ size ba = k
                /\ forall x, x ∈ ba <-> 0 <= x < Z.of_nat k)
  /\ (forall k ba ba',
        (k < 5)%nat ->
        round_mask (rounds k) = Some ba ->
        round_mask (rounds (S k)) = Some ba' ->
        (Z.of_nat k ∉ ba) /\ ba' = bitarray_set_bit ba (Z.of_nat k))
  /\ __send_sync_pdu txt 5 (Some (rejecting_agent 1)) (Some pdu) 1 (Some ∅)
                     sent0
     = Ret {| status := STAT_SUCCESS;
              response := Some (nosuch_response 1 [v5]);
              err_str := ""; err_num := 0; err_ind := 0;
              invalid_oids := Some (list_to_set [0; 1; 2; 3; 4]);
              py_err := None;
              retry_num := 4;
              sent := (sent0 ++ [pdu; fixed_request c [v2; v3; v4; v5];
                                 fixed_request c [v3; v4; v5];
                                 fixed_request c [v4; v5];
                                 fixed_request c [v5]])%list |}.
Proof.
  intros pdu rounds.
  assert (Hmask : forall k, (k <= 5)%nat ->
                    round_mask (rounds k) = Some (first_marks k)).
  { intros k Hk.
    destruct k as [|[|[|[|[|[|k]]]]]]; [..|lia]; vm_compute; reflexivity. }
  split; [|split].
  - intros k Hk. exists (first_marks k).
    split; [exact (Hmask k Hk)|].
    split; [apply size_first_marks | apply elem_of_first_marks].
  - intros k ba ba' Hk Hba Hba'.
    rewrite Hmask in Hba by lia. rewrite Hmask in Hba' by lia.
    apply (inj Some) in Hba. apply (inj Some) in Hba'. subst ba ba'.
    split; [|reflexivity].
    rewrite elem_of_first_marks. lia.
  - replace (sent0 ++ [pdu; fixed_request c [v2; v3; v4; v5];
                       fixed_request c [v3; v4; v5]; fixed_request c [v4; v5];
                       fixed_request c [v5]])%list
      with (((((sent0 ++ [pdu]) ++ [fixed_request c [v2; v3; v4; v5]])
               ++ [fixed_request c [v3; v4; v5]])
              ++ [fixed_request c [v4; v5]]) ++ [fixed_request c [v5]])%list
      by (rewrite <- !app_assoc; reflexivity).
    vm_compute. reflexivity.
Qed.

(** C3, as stated, fails when the newly reported index equals the last
    one: with last index 1, new index 1 and one entry already eliminated,
    the round records index 1 (offset by the retry count), not index 0. *)
Lemma heuristic_equal_index_counterexample :
  let st := {| st_pdu := fixed_request SNMP_MSG_GET [null_var [1; 3; 2]];
               st_retry_num := 1; st_last_errindex := 1; st_err_str := "";
               st_invalid_oids := Some {[ 0 ]}; st_sent := [] |} in
  let r := nosuch_response 1 [null_var [1; 3; 2]] in
  errindex r <= st_last_errindex st
  /\ round_mask (nosuchname 1 SNMP_MSG_GET st r [])
     = Some (bitarray_set_bit {[ 0 ]} 1)
  /\ round_mask (nosuchname 1 SNMP_MSG_GET st r [])
     <> Some (bitarray_set_bit {[ 0 ]} (errindex r - 1)).
Proof.
  split; [vm_compute; discriminate|].
  split; [vm_compute; reflexivity|].
  vm_compute. discriminate.
Qed.

(** C3, amended: in a retry round after the first (the last reported index
    [L] is not zero), with [E] the newly reported index and [k] the retry
    count, the round records index [E - 1] when [E < L] and index
    [E - 1 + k] when [E >= L]. *)
Theorem error_index_heuristic (retry_nosuch c : Z) (st : sync_state)
    (r : netsnmp_pdu) (sent' : list netsnmp_pdu) (ba : bitarray) :
  retry_nosuch <> 0 ->
  st_invalid_oids st = Some ba ->
  0 < st_last_errindex st ->
  0 < errindex r < 2 ^ 63 ->
  0 <= st_retry_num st ->
  errindex r - 1 + st_retry_num st < 2 ^ 64 ->
  round_mask (nosuchname retry_nosuch c st r sent')
  = Some (bitarray_set_bit ba
            (if errindex r <? st_last_errindex st
             then errindex r - 1
             else errindex r - 1 + st_retry_num st)).
Proof.
  intros Hretry Hba HL HE Hk Hfit.
  unfold nosuchname.
  destruct (Z.eqb_spec retry_nosuch 0) as [?|_]; [contradiction|].
  cbn [negb]. rewrite Hba.
  assert (Hbit : nosuch_bit (st_last_errindex st) (errindex r) (st_retry_num st)
                 = if errindex r <? st_last_errindex st
                   then errindex r - 1
                   else errindex r - 1 + st_retry_num st).
  { unfold nosuch_bit, to_ulong.
    destruct (Z.eqb_spec (st_last_errindex st) 0) as [?|_]; [lia|].
    rewrite (Z.mod_small (errindex r)) by lia.
    destruct (errindex r <? st_last_errindex st); apply Z.mod_small; lia. }
  rewrite Hbit.
  destruct (snmp_fix_pdu r c); reflexivity.
Qed.

Lemma error_index_heuristic_witness :
  let st := {| st_pdu := fixed_request SNMP_MSG_GET [null_var [1; 3; 2]];
               st_retry_num := 2; st_last_errindex := 3; st_err_str := "";
               st_invalid_oids := Some {[ 4 ]}; st_sent := [] |} in
  round_mask (nosuchname 1 SNMP_MSG_GET st
                (nosuch_response 3 [null_var [1; 3; 2]]) [])
  = Some (bitarray_set_bit {[ 4 ]} 4).
Proof.
  intros st.
  apply (error_index_heuristic 1 SNMP_MSG_GET st
           (nosuch_response 3 [null_var [1; 3; 2]]) [] {[ 4 ]});
    first [reflexivity | discriminate | (simpl; lia)].
Defined.

Lemma snmp_fix_pdu_shrinks (r : netsnmp_pdu) (c : Z) (p : netsnmp_pdu) :
  snmp_fix_pdu r c = Some p ->
  (length (variables p) < length (variables r))%nat.
Proof.
  unfold snmp_fix_pdu.
  destruct (negb _ || _ || _ || _) eqn:Hpre; [discriminate|].
  apply orb_false_iff in Hpre as [Hpre Hlo].
  apply orb_false_iff in Hpre as [_ Hhi].
  apply Z.leb_gt in Hlo. apply Z.ltb_ge in Hhi.
  assert (Hlen : length (delete (Z.to_nat (errindex r - 1)) (variables r))
                 = (length (variables r) - 1)%nat).
  { apply length_delete. apply lookup_lt_is_Some. lia. }
  destruct (delete _ _) as [|v vs] eqn:Hdel; [discriminate|].
  intros [= <-]. cbn [variables]. rewrite Hlen. lia.
Qed.

Lemma correct_status_not_success (err_str : string) (status : Z) :
  status <> STAT_SUCCESS -> correct_status err_str status <> STAT_SUCCESS.
Proof.
  unfold correct_status. intros Hst.
  destruct (negb _ && _); [discriminate | exact Hst].
Qed.

Lemma correct_status_success (err_str : string) :
  correct_status err_str STAT_SUCCESS = STAT_SUCCESS.
Proof.
  unfold correct_status. rewrite andb_false_r. reflexivity.
Qed.

Section Termination.

Variable txt : errtext.
Variable ss : netsnmp_session.
Variable retry_nosuch c : Z.
Hypothesis Hecho : echoes ss.

(** One round, with a mask to write to: it ends the call, or it goes
    round again with a strictly smaller request. *)
Lemma sync_round_cases (st : sync_state) (ba : bitarray) :
  st_invalid_oids st = Some ba ->
  (exists o, sync_round txt ss retry_nosuch c st = Done o
             /\ retry_num o = st_retry_num st
             /\ sent o = (st_sent st ++ [st_pdu st])%list)
  \/ (exists st' ba',
        sync_round txt ss retry_nosuch c st = Retry st'
        /\ st_retry_num st' = st_retry_num st + 1
        /\ st_sent st' = (st_sent st ++ [st_pdu st])%list
        /\ st_invalid_oids st' = Some ba'
        /\ (length (variables (st_pdu st'))
            < length (variables (st_pdu st)))%nat).
Proof.
  intros Hba. unfold sync_round.
  destruct (synch_response ss (st_sent st) (st_pdu st))
    as [status0 resp] eqn:Hx.
  destruct resp as [r|].
  - rewrite bool_decide_eq_false_2 by discriminate. cbn [andb].
    destruct (correct_status (st_err_str st) status0 =? STAT_SUCCESS).
    + destruct (to_int (errstat r) =? SNMP_ERR_NOERROR);
        [left; eexists; repeat split; reflexivity|].
      destruct (to_int (errstat r) =? SNMP_ERR_NOSUCHNAME);
        [|left; eexists; repeat split; reflexivity].
      unfold nosuchname. rewrite Hba.
      destruct (negb (retry_nosuch =? 0));
        [|left; eexists; repeat split; reflexivity].
      destruct (snmp_fix_pdu r c) as [p|] eqn:Hfix;
        [|left; eexists; repeat split; reflexivity].
      right. eexists _, _. repeat split. cbn [st_pdu].
      apply snmp_fix_pdu_shrinks in Hfix.
      specialize (Hecho _ _ _ _ Hx). lia.
    + destruct (sess_error ss (st_sent st ++ [st_pdu st])) as [[e se] text].
      destruct (_ =? STAT_TIMEOUT);
        [left; eexists; repeat split; reflexivity|].
      destruct (_ =? STAT_ERROR); left; eexists; repeat split; reflexivity.
  - rewrite bool_decide_eq_true_2 by reflexivity. cbn [andb].
    destruct (Z.eqb_spec
                (correct_status (st_err_str st)
                   (if status0 =? STAT_SUCCESS then STAT_ERROR else status0))
                STAT_SUCCESS) as [Heq|_].
    + exfalso. revert Heq. apply correct_status_not_success.
      destruct (Z.eqb_spec status0 STAT_SUCCESS); [discriminate|assumption].
    + destruct (sess_error ss (st_sent st ++ [st_pdu st])) as [[e se] text].
      destruct (_ =? STAT_TIMEOUT);
        [left; eexists; repeat split; reflexivity|].
      destruct (_ =? STAT_ERROR); left; eexists; repeat split; reflexivity.
Qed.

(** With a request of at most [n] variables at the label [retry], the
    loop is over within [n + 1] rounds, whatever fuel beyond that it is
    given. *)
Lemma sync_loop_terminates (n : nat) :
  forall st ba,
    (length (variables (st_pdu st)) <= n)%nat ->
    st_invalid_oids st = Some ba ->
    exists o,
      (forall fuel, (n < fuel)%nat ->
                    sync_loop txt ss retry_nosuch c fuel st = Ret o)
      /\ st_retry_num st <= retry_num o <= st_retry_num st + Z.of_nat n
      /\ Z.of_nat (length (sent o))
         = Z.of_nat (length (st_sent st))
           + (retry_num o - st_retry_num st) + 1.
Proof.
  induction n as [|n IH]; intros st ba Hlen Hba.
  all: destruct (sync_round_cases st ba Hba)
         as [(o & Hr & Hnum & Hsent)
            |(st' & ba' & Hr & Hnum & Hsent & Hba' & Hlt)].
  - exists o. split; [|split].
    + intros [|fuel] Hf; [lia|]. cbn [sync_loop]. rewrite Hr. reflexivity.
    + lia.
    + rewrite Hsent, length_app, Hnum. simpl. lia.
  - lia.
  - exists o. split; [|split].
    + intros [|fuel] Hf; [lia|]. cbn [sync_loop]. rewrite Hr. reflexivity.
    + lia.
    + rewrite Hsent, length_app, Hnum. simpl. lia.
  - destruct (IH st' ba') as (o & Hrun & Hbound & Hcount);
      [lia | exact Hba' |].
    exists o. split; [|split].
    + intros [|fuel] Hf; [lia|]. cbn [sync_loop]. rewrite Hr.
      apply Hrun. lia.
    + lia.
    + rewrite Hcount, Hsent, length_app, Hnum. simpl. lia.
Qed.

(** The round in which nothing is left to resubmit ends the call with
    success; the response slot keeps the last no-such-name response. *)
Lemma sync_round_exhausted (st : sync_state) (r : netsnmp_pdu)
    (ba : bitarray) :
  retry_nosuch <> 0 ->
  st_invalid_oids st = Some ba ->
  synch_response ss (st_sent st) (st_pdu st) = (STAT_SUCCESS, Some r) ->
  errstat r = SNMP_ERR_NOSUCHNAME ->
  snmp_fix_pdu r c = None ->
  exists o, sync_round txt ss retry_nosuch c st = Done o
            /\ status o = STAT_SUCCESS
            /\ py_err o = None
            /\ response o = Some r.
Proof.
  intros Hretry Hba Hx Herr Hfix. unfold sync_round. rewrite Hx.
  rewrite bool_decide_eq_false_2 by discriminate. cbn [andb].
  rewrite correct_status_success, Herr. cbn -[nosuchname].
  unfold nosuchname. rewrite Hba, Hfix.
  destruct (Z.eqb_spec retry_nosuch 0) as [?|_]; [contradiction|].
  cbn [negb]. eexists. repeat split.
Qed.

End Termination.

(** C4, as stated, fails in its last part: when the last entry of a batch
    is rejected and nothing remains, the call returns success but the
    response it hands back still carries the rejected entry. *)
Lemma elision_exhausted_counterexample :
  exists o,
    __send_sync_pdu no_text 2 (Some (rejecting_agent 1))
                    (Some (get_request [[1; 3; 6; 1; 2; 1; 1; 9; 0]]))
                    1 (Some ∅) [] = Ret o
    /\ status o = STAT_SUCCESS
    /\ py_err o = None
    /\ result_entries o = [null_var [1; 3; 6; 1; 2; 1; 1; 9; 0]]
    /\ result_entries o <> [].
Proof.
  eexists. split; [vm_compute; reflexivity|].
  repeat split. discriminate.
Qed.

(** C4, amended: with retry enabled and an agent whose responses carry no
    more variables than the request, a call on a batch of [N] entries ends
    after at most [N] resubmissions ([retry_num + 1] requests in all), and
    a round whose fixed PDU is [NULL] ends the call with success status
    and no error, the response slot holding that last response. *)
Theorem elision_retry_bounded (txt : errtext) (ss : netsnmp_session)
    (retry_nosuch : Z) (pdu : netsnmp_pdu) (ba : bitarray)
    (sent0 : list netsnmp_pdu) :
  echoes ss ->
  retry_nosuch <> 0 ->
  (exists o,
     (forall fuel, (length (variables pdu) < fuel)%nat ->
        __send_sync_pdu txt fuel (Some ss) (Some pdu) retry_nosuch (Some ba)
                        sent0 = Ret o)
     /\ 0 <= retry_num o <= Z.of_nat (length (variables pdu))
     /\ Z.of_nat (length (sent o))
        = Z.of_nat (length sent0) + retry_num o + 1)
  /\ (forall st r ba',
        st_invalid_oids st = Some ba' ->
        synch_response ss (st_sent st) (st_pdu st) = (STAT_SUCCESS, Some r) ->
        errstat r = SNMP_ERR_NOSUCHNAME ->
        snmp_fix_pdu r (command pdu) = None ->
        exists o, sync_round txt ss retry_nosuch (command pdu) st = Done o
                  /\ status o = STAT_SUCCESS
                  /\ py_err o = None
                  /\ response o = Some r).
Proof.
  intros Hecho Hretry. split.
  - destruct (sync_loop_terminates txt ss retry_nosuch (command pdu) Hecho
                (length (variables pdu)) (sync_init pdu (Some ba) sent0) ba)
      as (o & Hrun & Hbound & Hcount); [reflexivity | reflexivity |].
    exists o. cbn [st_retry_num st_sent sync_init] in *.
    split; [exact Hrun|]. split; lia.
  - intros st r ba' Hba Hx Herr Hfix.
    exact (sync_round_exhausted txt ss retry_nosuch (command pdu) st r ba'
             Hretry Hba Hx Herr Hfix).
Qed.

Lemma elision_retry_bounded_witness :
  exists o,
    __send_sync_pdu no_text 3 (Some (rejecting_agent 1))
                    (Some (get_request [[1; 3; 1]; [1; 3; 2]]))
                    1 (Some ∅) [] = Ret o
    /\ 0 <= retry_num o <= 2.
Proof.
  destruct (elision_retry_bounded no_text (rejecting_agent 1) 1
              (get_request [[1; 3; 1]; [1; 3; 2]]) ∅ [])
    as [(o & Hrun & Hbound & _) _].
  - intros log req st r Hx. injection Hx as _ <-. reflexivity.
  - discriminate.
  - exists o. split; [apply Hrun; simpl; lia | exact Hbound].
Defined.

(** ** OID resolver *)

Lemma store_in_range (arr : list oid) (i : Z) (v : option oid) :
  0 <= i < Z.of_nat (length arr) ->
  exists arr1,
    store arr i v = Some arr1
    /\ length arr1 = length arr
    /\ take (Z.to_nat i) arr1 = take (Z.to_nat i) arr.
Proof.
  intros Hi. unfold store.
  assert (Hin : (0 <=? i) && (i <? Z.of_nat (length arr)) = true)
    by (apply andb_true_iff; split; [apply Z.leb_le|apply Z.ltb_lt]; lia).
  rewrite Hin. eexists. split; [reflexivity|].
  destruct v; [|auto].
  split; [apply length_insert | apply take_insert_ge; lia].
Qed.

(** C5, as stated, fails: an instance with an alphabetic character does
    not make resolution fail in any mode.  For the numeric tag
    [.1.3.6.1.2.1.1.1] and the instance [a] the resolved path has nine
    components, one more than the tag alone, and [snmp_op_data_load]
    raises nothing. *)
Lemma alphabetic_instance_counterexample :
  Forall (fun best_guess =>
            (exists rtp arr type,
               __tag2oid empty_mib zero_junk (Some ".1.3.6.1.2.1.1.1")
                         (Some "a") (fresh_oid_buf zero_junk) best_guess
               = Some (rtp, arr, 9, type))
            /\ (exists rtp arr type,
                  __tag2oid empty_mib zero_junk (Some ".1.3.6.1.2.1.1.1")
                            (Some "") (fresh_oid_buf zero_junk) best_guess
                  = Some (rtp, arr, 8, type))
            /\ exists entry,
                 snmp_op_data_load empty_mib zero_junk
                   {| handle := None; getlabel_flag := 0; sprintval_flag := 0;
                      best_guess := best_guess; retry_nosuch := 0 |}
                   [ {| vb_oid := Some ".1.3.6.1.2.1.1.1";
                        vb_oid_index := Some "a";
                        vb_snmp_type := None; vb_value := None |} ]
                 = Some (inr [entry]) /\ oid_arr_len entry = 9)
         [0; 1; 2].
Proof.
  repeat constructor; try (do 3 eexists; vm_compute; reflexivity).
  all: eexists; split; vm_compute; reflexivity.
Qed.

Lemma tag_stage_early (m : mib) (junk : nat -> oid) (tag : string)
    (buf : list oid) (best_guess : Z) (rtp : option tree) (arr : list oid)
    (len type : Z) :
  tag_stage m junk tag buf best_guess = Some (true, rtp, arr, len, type) ->
  len = 0.
Proof.
  unfold tag_stage. intros H.
  repeat case_match; simplify_option_eq; try reflexivity;
    repeat case_match; simplify_option_eq; reflexivity.
Qed.

(** The loop over the tokens, with room for one slot each: what was in
    the array before the first slot is kept, and the numbers read from
    the leading tokens are in the slots that follow. *)
Lemma concat_tokens_prefix (toks : list string) :
  forall (arr : list oid) (len : Z),
    0 <= len ->
    len + Z.of_nat (length toks) <= Z.of_nat (length arr) ->
    exists arr',
      concat_tokens toks arr len = Some (arr', len + Z.of_nat (length toks))
      /\ length arr' = length arr
      /\ take (Z.to_nat len) arr' = take (Z.to_nat len) arr
      /\ take (length (scanned_prefix toks)) (drop (Z.to_nat len) arr')
         = scanned_prefix toks.
Proof.
  induction toks as [|cp toks IH]; intros arr len Hlen Hfit.
  - exists arr. cbn [concat_tokens length Z.of_nat scanned_prefix take].
    rewrite Z.add_0_r. auto.
  - cbn [length] in Hfit.
    destruct (store_in_range arr len (sscanf_lu cp))
      as (arr1 & Hst & Hlen1 & Htake1); [lia|].
    destruct (IH arr1 (len + 1)) as (arr' & Hrun & Hlen' & Htake' & Hnums);
      [lia | rewrite Hlen1; lia |].
    exists arr'. split; [|split; [|split]].
    + cbn [concat_tokens]. rewrite Hst. cbn [mbind option_bind].
      rewrite Hrun. f_equal. f_equal. cbn [length]. lia.
    + congruence.
    + rewrite <- Htake1.
      replace (Z.to_nat len) with (Z.to_nat len `min` Z.to_nat (len + 1))%nat
        by lia.
      rewrite <- !take_take, Htake'. reflexivity.
    + cbn [scanned_prefix].
      destruct (sscanf_lu cp) as [v|] eqn:Hscan; [|reflexivity].
      cbn [length].
      assert (arr' !! Z.to_nat len = Some v) as Hv.
      { transitivity (arr1 !! Z.to_nat len).
        - rewrite <- (lookup_take_lt arr' (Z.to_nat (len + 1))) by lia.
          rewrite Htake'. apply lookup_take_lt. lia.
        - unfold store in Hst.
          destruct ((0 <=? len) && (len <? Z.of_nat (length arr))) eqn:Hin;
            [|discriminate].
          apply andb_prop in Hin as [_ Hlt]. apply Z.ltb_lt in Hlt.
          injection Hst as <-. apply list_lookup_insert_eq.
          apply Nat2Z.inj_lt. rewrite Z2Nat.id by lia. exact Hlt. }
      unfold oid in *. rewrite (drop_S _ _ _ Hv). cbn [take].
      replace (S (Z.to_nat len)) with (Z.to_nat (len + 1)) by lia.
      rewrite Hnums. reflexivity.
Qed.

(** C5, amended: in every mode, for a tag that resolves on its own to a
    path of [len] components, when [strdup] gives the copy and the array
    has room for one slot per token, an instance string, alphabetic
    characters or not, never makes resolution fail: [__concat_oid_str]
    reports success, the node and the type are those of the tag, the path
    of the tag is kept, and the leading tokens that [sscanf] reads a
    number from are appended after it as those numbers, all of them with
    the length to match when every token is such.  Nothing is said of
    the path from the first token without a number on. *)
Theorem instance_always_appended (m : mib) (junk : nat -> oid)
    (tag : option string) (iid : string) (buf : list oid) (best_guess : Z)
    (rtp : option tree) (arr : list oid) (len type : Z) :
  __tag2oid m junk tag None buf best_guess = Some (rtp, arr, len, type) ->
  0 < len ->
  strdup m (skip_leading_dot iid) = Some (skip_leading_dot iid) ->
  len + Z.of_nat (length (strtok_all (skip_leading_dot iid) []))
  <= Z.of_nat (length arr) ->
  let toks := strtok_all (skip_leading_dot iid) [] in
  exists arr' len',
    __concat_oid_str m arr len (Some iid) = Some (SUCCESS, arr', len')
    /\ __tag2oid m junk tag (Some iid) buf best_guess
       = Some (rtp, arr', len', type)
    /\ len + Z.of_nat (length (scanned_prefix toks)) <= len'
    /\ take (Z.to_nat len) arr' = take (Z.to_nat len) arr
    /\ take (length (scanned_prefix toks)) (drop (Z.to_nat len) arr')
       = scanned_prefix toks
    /\ (length (scanned_prefix toks) = length toks ->
        len' = len + Z.of_nat (length toks)).
Proof.
  unfold __tag2oid.
  destruct (match tag with
            | Some tag0 => tag_stage m junk tag0 buf best_guess
            | None => Some (false, None, buf, 0, TYPE_UNKNOWN)
            end) as [[[[[early rtp0] arr0] len0] type0]|] eqn:Hstage;
    [|discriminate].
  destruct early; cbn [__concat_oid_str mbind option_bind]; cbv zeta;
    intros [= -> -> -> ->] Hlen Hdup Hfit.
  - destruct tag as [tag0|]; [|discriminate].
    apply tag_stage_early in Hstage. lia.
  - destruct iid as [|ch iid'].
    + exists arr, len. cbn. repeat split; auto; lia.
    + unfold __concat_oid_str. rewrite Hdup.
      set (toks := strtok_all (skip_leading_dot (String ch iid')) []) in *.
      destruct (concat_tokens_prefix toks arr len)
        as (arr' & Hrun & _ & Htake & Hnums); [lia | exact Hfit |].
      exists arr', (len + Z.of_nat (length toks)). rewrite Hrun.
      cbn [mbind option_bind].
      repeat split; auto.
      assert (length (scanned_prefix toks) <= length toks)%nat; [|lia].
      clear. induction toks as [|cp toks IH]; cbn [scanned_prefix length];
        [lia|]. destruct (sscanf_lu cp); cbn [length]; lia.
Qed.

Lemma instance_always_appended_witness :
  exists arr' len',
    __concat_oid_str empty_mib
      ([1; 3; 6; 1; 2; 1; 2; 2; 1; 2] ++ replicate 118 0)%list 10
      (Some "7.a.9")
    = Some (SUCCESS, arr', len')
    /\ __tag2oid empty_mib zero_junk (Some ".1.3.6.1.2.1.2.2.1.2")
                 (Some "7.a.9") (fresh_oid_buf zero_junk) 0
       = Some (None, arr', len', TYPE_UNKNOWN)
    /\ 10 + 1 <= len'
    /\ take 10 arr' = [1; 3; 6; 1; 2; 1; 2; 2; 1; 2]
    /\ take 1 (drop 10 arr') = [7].
Proof.
  destruct (instance_always_appended empty_mib zero_junk
              (Some ".1.3.6.1.2.1.2.2.1.2") "7.a.9" (fresh_oid_buf zero_junk)
              0 None
              ([1; 3; 6; 1; 2; 1; 2; 2; 1; 2] ++ replicate 118 0)%list
              10 TYPE_UNKNOWN)
    as (arr' & len' & Hst & Hrun & Hlen & Htake & Hnums & _);
    [vm_compute; reflexivity | lia | reflexivity | vm_compute; discriminate |].
  exists arr', len'. repeat split; assumption.
Defined.

(** X30: a token of the instance that [sscanf] reads no number from still
    takes a slot of the path.  For a tag that resolves on its own to [len]
    components with room for one more, and an instance of that one token,
    the path is one component longer and the array is the one the tag
    alone gives: the new last component is whatever the array held in
    that slot, here what the uninitialised buffer held. *)
Theorem token_without_number_takes_slot (m : mib) (junk : nat -> oid)
    (tag : option string) (iid cp : string) (buf : list oid) (best_guess : Z)
    (rtp : option tree) (arr : list oid) (len type : Z) :
  __tag2oid m junk tag None buf best_guess = Some (rtp, arr, len, type) ->
  0 < len < Z.of_nat (length arr) ->
  strdup m (skip_leading_dot iid) = Some (skip_leading_dot iid) ->
  strtok_all (skip_leading_dot iid) [] = [cp] ->
  sscanf_lu cp = None ->
  __tag2oid m junk tag (Some iid) buf best_guess
  = Some (rtp, arr, len + 1, type).
Proof.
  unfold __tag2oid.
  destruct (match tag with
            | Some tag0 => tag_stage m junk tag0 buf best_guess
            | None => Some (false, None, buf, 0, TYPE_UNKNOWN)
            end) as [[[[[early rtp0] arr0] len0] type0]|] eqn:Hstage;
    [|discriminate].
  destruct early; cbn [__concat_oid_str mbind option_bind];
    intros [= -> -> -> ->] Hlen Hdup Htoks Hscan.
  - destruct tag as [tag0|]; [|discriminate].
    apply tag_stage_early in Hstage. lia.
  - destruct iid as [|ch iid']; [discriminate|].
    unfold __concat_oid_str. rewrite Hdup, Htoks.
    cbn [concat_tokens]. rewrite Hscan. unfold store.
    assert (Hin : (0 <=? len) && (len <? Z.of_nat (length arr)) = true)
      by (apply andb_true_iff; split; [apply Z.leb_le|apply Z.ltb_lt]; lia).
    rewrite Hin. reflexivity.
Qed.

Lemma token_without_number_takes_slot_witness :
  let junk := fun i : nat => 1000 + Z.of_nat i in
  let arr := ([1; 3; 6; 1; 2; 1; 1; 1] ++ map junk (seq 8 120))%list in
  __tag2oid empty_mib junk (Some ".1.3.6.1.2.1.1.1") (Some "a")
            (fresh_oid_buf junk) 0
  = Some (None, arr, 8 + 1, TYPE_UNKNOWN)
  /\ arr !! 8%nat = Some 1008.
Proof.
  intros junk arr. split; [|reflexivity].
  apply (token_without_number_takes_slot empty_mib junk
           (Some ".1.3.6.1.2.1.1.1") "a" "a" (fresh_oid_buf junk) 0 None arr
           8 TYPE_UNKNOWN);
    [vm_compute; reflexivity | vm_compute; split; reflexivity
    | reflexivity | reflexivity | reflexivity].
Defined.

(** ** Resolution failures *)

Section LoadFacts.

Variable m : mib.
Variable junk : nat -> oid.
Variable ctx : session_capsule_ctx.

Lemma snmp_op_data_load_unresolved (pre post : list py_varbind)
    (vb : py_varbind) :
  (exists entries, snmp_op_data_load m junk ctx pre = Some (inr entries)) ->
  (exists arr, load_varbind m junk ctx vb = Some (arr, 0)) ->
  snmp_op_data_load m junk ctx (pre ++ vb :: post)
  = Some (inl (EasySNMPUnknownObjectIDError (vb_oid vb))).
Proof.
  intros Hpre [arr Hvb]. induction pre as [|v pre IH].
  - cbn [app snmp_op_data_load]. rewrite Hvb. reflexivity.
  - destruct Hpre as [entries Hpre]. cbn [app snmp_op_data_load] in *.
    destruct (load_varbind m junk ctx v) as [[a l]|]; [|discriminate].
    cbn [mbind option_bind] in *.
    destruct (l =? 0); [discriminate|].
    destruct (snmp_op_data_load m junk ctx pre) as [[exc|es]|];
      [discriminate| |discriminate].
    rewrite IH by eauto. reflexivity.
Qed.

End LoadFacts.

(** C9: when an entry of the batch resolves to a path of length 0 (the
    entries before it resolve), [netsnmp_get] raises the unknown-object-id
    failure for that entry and the call ends there: no request has been
    sent. *)
Theorem unresolved_entry_is_fatal (txt : errtext) (m : mib)
    (junk : nat -> oid)
    (read_variable : variable -> op_entry -> Z -> Z -> option snmp_variable)
    (ctx : session_capsule_ctx) (pre post : list py_varbind)
    (vb : py_varbind) (fuel : nat) (sent0 : list netsnmp_pdu) :
  (exists entries, snmp_op_data_load m junk ctx pre = Some (inr entries)) ->
  (exists arr, load_varbind m junk ctx vb = Some (arr, 0)) ->
  netsnmp_get txt m junk read_variable ctx fuel (pre ++ vb :: post) sent0
  = Ret {| ret := PyRaise (EasySNMPUnknownObjectIDError (vb_oid vb));
           session_errors := None;
           log := sent0 |}.
Proof.
  intros Hpre Hvb. unfold netsnmp_get, fetch.
  rewrite (snmp_op_data_load_unresolved m junk ctx pre post vb Hpre Hvb).
  reflexivity.
Qed.

(** ** The requests a call sends *)

Section SentFacts.

Variable txt : errtext.

Lemma sync_round_sent (ss : netsnmp_session) (retry c : Z) (st : sync_state) :
  round_sent (sync_round txt ss retry c st) = (st_sent st ++ [st_pdu st])%list.
Proof.
  unfold sync_round, nosuchname.
  destruct (synch_response ss (st_sent st) (st_pdu st)) as [status0 resp].
  destruct (sess_error ss (st_sent st ++ [st_pdu st])) as [[e se] text].
  repeat case_match; reflexivity.
Qed.

Lemma sync_loop_prefix (ss : netsnmp_session) (retry c : Z) (fuel : nat) :
  forall st, exists rest,
    sent_by sent (sync_loop txt ss retry c fuel st) = (st_sent st ++ rest)%list.
Proof.
  induction fuel as [|fuel IH]; intros st.
  - exists []. cbn. rewrite app_nil_r. reflexivity.
  - cbn [sync_loop]. pose proof (sync_round_sent ss retry c st) as Hs.
    destruct (sync_round txt ss retry c st) as [st'|o|s]; cbn in Hs.
    + destruct (IH st') as [rest Hrest]. rewrite Hrest, Hs, <- app_assoc.
      eauto.
    + cbn. rewrite Hs. eauto.
    + cbn. rewrite Hs. eauto.
Qed.

Lemma sync_loop_first (ss : netsnmp_session) (retry c : Z) (fuel : nat)
    (st : sync_state) :
  exists rest,
    sent_by sent (sync_loop txt ss retry c (S fuel) st)
    = (st_sent st ++ st_pdu st :: rest)%list.
Proof.
  cbn [sync_loop]. pose proof (sync_round_sent ss retry c st) as Hs.
  destruct (sync_round txt ss retry c st) as [st'|o|s]; cbn in Hs.
  - destruct (sync_loop_prefix ss retry c fuel st') as [rest Hrest].
    rewrite Hrest, Hs, <- app_assoc. eauto.
  - cbn. rewrite Hs. eauto.
  - cbn. rewrite Hs. eauto.
Qed.

Lemma send_sync_pdu_prefix (fuel : nat) (ss : option netsnmp_session)
    (pdu : option netsnmp_pdu) (retry : Z) (mask : option bitarray)
    (sent0 : list netsnmp_pdu) :
  exists rest,
    sent_by sent (__send_sync_pdu txt fuel ss pdu retry mask sent0)
    = (sent0 ++ rest)%list.
Proof.
  unfold __send_sync_pdu.
  destruct pdu as [p|]; [|exists []; cbn; rewrite app_nil_r; reflexivity].
  destruct ss as [s|]; [|exists []; cbn; rewrite app_nil_r; reflexivity].
  apply (sync_loop_prefix s retry (command p) fuel (sync_init p mask sent0)).
Qed.

Lemma send_sync_pdu_first (fuel : nat) (ss : netsnmp_session)
    (p : netsnmp_pdu) (retry : Z) (mask : option bitarray)
    (sent0 : list netsnmp_pdu) :
  exists rest,
    sent_by sent (__send_sync_pdu txt (S fuel) (Some ss) (Some p) retry mask
                                  sent0)
    = (sent0 ++ p :: rest)%list.
Proof.
  apply (sync_loop_first ss retry (command p) fuel (sync_init p mask sent0)).
Qed.

(** A response without error status ends [__send_sync_pdu] at once. *)
Lemma send_sync_pdu_noerror (fuel : nat) (ss : netsnmp_session)
    (p r : netsnmp_pdu) (retry : Z) (mask : option bitarray)
    (sent0 : list netsnmp_pdu) :
  synch_response ss sent0 p = (STAT_SUCCESS, Some r) ->
  errstat r = SNMP_ERR_NOERROR ->
  __send_sync_pdu txt (S fuel) (Some ss) (Some p) retry mask sent0
  = Ret {| status := SNMP_ERR_NOERROR; response := Some r; err_str := "";
           err_num := 0; err_ind := 0; invalid_oids := mask; py_err := None;
           retry_num := 0; sent := (sent0 ++ [p])%list |}.
Proof.
  intros Hx Herr. unfold __send_sync_pdu, sync_init. cbn [sync_loop].
  unfold sync_round. cbn [st_sent st_pdu st_err_str]. rewrite Hx.
  rewrite bool_decide_eq_false_2 by discriminate. cbn [andb].
  rewrite correct_status_success, Herr. reflexivity.
Qed.

(** A no-such-name response without retry ends it at once as well, with
    the exception set. *)
Lemma send_sync_pdu_nosuchname_no_retry (fuel : nat) (ss : netsnmp_session)
    (p r : netsnmp_pdu) (mask : option bitarray) (sent0 : list netsnmp_pdu) :
  synch_response ss sent0 p = (STAT_SUCCESS, Some r) ->
  errstat r = SNMP_ERR_NOSUCHNAME ->
  __send_sync_pdu txt (S fuel) (Some ss) (Some p) NO_RETRY_NOSUCH mask sent0
  = Ret {| status := SNMP_ERR_NOSUCHNAME; response := Some r; err_str := "";
           err_num := 0; err_ind := 0; invalid_oids := mask;
           py_err := Some EasySNMPNoSuchNameError;
           retry_num := 0; sent := (sent0 ++ [p])%list |}.
Proof.
  intros Hx Herr. unfold __send_sync_pdu, sync_init. cbn [sync_loop].
  unfold sync_round. cbn [st_sent st_pdu st_err_str]. rewrite Hx.
  rewrite bool_decide_eq_false_2 by discriminate. cbn [andb].
  rewrite correct_status_success, Herr. reflexivity.
Qed.

Variable m : mib.
Variable junk : nat -> oid.
Variable read_variable :
  variable -> op_entry -> Z -> Z -> option snmp_variable.
Variable ctx : session_capsule_ctx.

Lemma request_rounds_prefix (next : option (variable -> netsnmp_pdu))
    (e : op_entry) (fuel : nat) :
  forall pdu results sent0, exists rest,
    sent_by entry_sent
      (request_rounds txt read_variable ctx fuel next e pdu results sent0)
    = (sent0 ++ rest)%list.
Proof.
  induction fuel as [|fuel IH]; intros pdu results sent0.
  - exists []. cbn. rewrite app_nil_r. reflexivity.
  - cbn [request_rounds].
    destruct (send_sync_pdu_prefix (S fuel) (handle ctx) pdu (retry_nosuch ctx)
                None sent0) as [rest Hrest].
    destruct (__send_sync_pdu txt (S fuel) (handle ctx) pdu (retry_nosuch ctx)
                None sent0) as [o|s|s]; cbn in Hrest;
      [|exists rest; exact Hrest..].
    destruct (py_err o); [exists rest; exact Hrest|].
    destruct (negb (status o =? STAT_SUCCESS)); [exists rest; exact Hrest|].
    destruct (response o) as [r|]; [|exists rest; exact Hrest].
    destruct (inspect_vars read_variable ctx next e (variables r) true results
                None) as [[notdone results'] pdu'].
    destruct (match next with Some _ => notdone | None => false end);
      [|exists rest; exact Hrest].
    destruct (IH pdu' results' (sent o)) as [rest' Hrest'].
    rewrite Hrest', Hrest, <- app_assoc. eauto.
Qed.

Lemma request_rounds_first (next : option (variable -> netsnmp_pdu))
    (e : op_entry) (fuel : nat) (ss : netsnmp_session) (p : netsnmp_pdu)
    (results : list snmp_variable) (sent0 : list netsnmp_pdu) :
  handle ctx = Some ss ->
  exists rest,
    sent_by entry_sent
      (request_rounds txt read_variable ctx (S fuel) next e (Some p) results
                      sent0)
    = (sent0 ++ p :: rest)%list.
Proof.
  intros Hh. cbn [request_rounds]. rewrite Hh.
  destruct (send_sync_pdu_first fuel ss p (retry_nosuch ctx) None sent0)
    as [rest Hrest].
  destruct (__send_sync_pdu txt (S fuel) (Some ss) (Some p) (retry_nosuch ctx)
              None sent0) as [o|s|s]; cbn in Hrest;
    [|exists rest; exact Hrest..].
  destruct (py_err o); [exists rest; exact Hrest|].
  destruct (negb (status o =? STAT_SUCCESS)); [exists rest; exact Hrest|].
  destruct (response o) as [r|]; [|exists rest; exact Hrest].
  destruct (inspect_vars read_variable ctx next e (variables r) true results
              None) as [[notdone results'] pdu'].
  destruct (match next with Some _ => notdone | None => false end);
    [|exists rest; exact Hrest].
  destruct (request_rounds_prefix next e fuel pdu' results' (sent o))
    as [rest' Hrest'].
  rewrite Hrest', Hrest, <- app_assoc. cbn. eauto.
Qed.

Lemma request_entries_prefix (first : op_entry -> netsnmp_pdu)
    (next : option (variable -> netsnmp_pdu)) (fuel : nat)
    (entries : list op_entry) :
  forall results sent0, exists rest,
    sent_by log
      (request_entries txt read_variable ctx fuel first next entries results
                       sent0)
    = (sent0 ++ rest)%list.
Proof.
  induction entries as [|e entries IH]; intros results sent0.
  - exists []. cbn. rewrite app_nil_r. reflexivity.
  - cbn [request_entries].
    destruct (request_rounds_prefix next e fuel (Some (first e)) results sent0)
      as [rest Hrest].
    destruct (request_rounds txt read_variable ctx fuel next e
                (Some (first e)) results sent0) as [[results' sent'|out]|s|s];
      cbn in Hrest; [|exists rest; exact Hrest..].
    destruct (IH results' sent') as [rest' Hrest'].
    rewrite Hrest', Hrest, <- app_assoc. eauto.
Qed.

(** Whatever follows the rounds of the first starting path only adds to
    the requests they sent. *)
Lemma request_entries_extends (first : op_entry -> netsnmp_pdu)
    (next : option (variable -> netsnmp_pdu)) (fuel : nat) (e : op_entry)
    (entries : list op_entry) (results : list snmp_variable)
    (sent0 : list netsnmp_pdu) :
  exists rest,
    sent_by log
      (request_entries txt read_variable ctx fuel first next (e :: entries)
                       results sent0)
    = (sent_by entry_sent
         (request_rounds txt read_variable ctx fuel next e (Some (first e))
                         results sent0) ++ rest)%list.
Proof.
  cbn [request_entries].
  destruct (request_rounds txt read_variable ctx fuel next e
              (Some (first e)) results sent0) as [[results' sent'|out]|s|s];
    cbn; [|exists []; rewrite app_nil_r; reflexivity..].
  apply request_entries_prefix.
Qed.

(** One round that is answered without error status. *)
Lemma request_rounds_noerror (next : option (variable -> netsnmp_pdu))
    (e : op_entry) (fuel : nat) (ss : netsnmp_session) (p r : netsnmp_pdu)
    (results : list snmp_variable) (sent0 : list netsnmp_pdu) :
  handle ctx = Some ss ->
  synch_response ss sent0 p = (STAT_SUCCESS, Some r) ->
  errstat r = SNMP_ERR_NOERROR ->
  request_rounds txt read_variable ctx (S fuel) next e (Some p) results sent0
  = let '(notdone, results', pdu') :=
      inspect_vars read_variable ctx next e (variables r) true results None in
    if match next with Some _ => notdone | None => false end
    then request_rounds txt read_variable ctx fuel next e pdu' results'
                        (sent0 ++ [p])
    else Ret (EntryDone results' (sent0 ++ [p])).
Proof.
  intros Hh Hx Herr. cbn [request_rounds]. rewrite Hh.
  rewrite (send_sync_pdu_noerror fuel ss p r (retry_nosuch ctx) None sent0 Hx
             Herr).
  reflexivity.
Qed.

End SentFacts.

(** ** Walk iterator *)

Lemma out_of_scope_spec (e : op_entry) (v : variable) :
  out_of_scope e v = true <-> leaves_subtree e v.
Proof.
  unfold out_of_scope, leaves_subtree.
  rewrite orb_true_iff, Z.ltb_lt, negb_true_iff, bool_decide_eq_false.
  split; (intros [H|H]; [left; exact H | right; congruence]).
Qed.

Section WalkFacts.

Variable txt : errtext.
Variable m : mib.
Variable junk : nat -> oid.
Variable read_variable :
  variable -> op_entry -> Z -> Z -> option snmp_variable.
Variable ctx : session_capsule_ctx.

(** A first variable outside the subtree, not a no-such marker, ends the
    inspection with nothing emitted and no further request. *)
Lemma inspect_vars_leaves (next : option (variable -> netsnmp_pdu))
    (e : op_entry) (v : variable) (rest : list variable) (notdone : bool)
    (results : list snmp_variable) (pdu : option netsnmp_pdu) :
  v_type v <> SNMP_NOSUCHOBJECT ->
  v_type v <> SNMP_NOSUCHINSTANCE ->
  leaves_subtree e v ->
  inspect_vars read_variable ctx next e (v :: rest) notdone results pdu
  = (false, results, pdu).
Proof.
  intros Hobj Hinst Hout. cbn [inspect_vars].
  destruct (v_type v =? SNMP_ENDOFMIBVIEW); [reflexivity|].
  destruct (Z.eqb_spec (v_type v) SNMP_NOSUCHOBJECT); [contradiction|].
  destruct (Z.eqb_spec (v_type v) SNMP_NOSUCHINSTANCE); [contradiction|].
  cbn [orb]. apply out_of_scope_spec in Hout. rewrite Hout. reflexivity.
Qed.

(** A response whose variables are all in scope is read to its end, and
    the next request is built from its last variable. *)
Lemma inspect_vars_in_scope (mk : variable -> netsnmp_pdu) (e : op_entry)
    (vN : variable) (vs : list variable) :
  forall notdone results pdu,
    Forall (in_scope e) (vs ++ [vN]) ->
    exists results',
      inspect_vars read_variable ctx (Some mk) e (vs ++ [vN]) notdone results
                   pdu
      = (notdone, results', Some (mk vN)).
Proof.
  assert (Hstep : forall v, in_scope e v ->
            (v_type v =? SNMP_ENDOFMIBVIEW) = false
            /\ (v_type v =? SNMP_NOSUCHOBJECT)
               || (v_type v =? SNMP_NOSUCHINSTANCE) = false
            /\ out_of_scope e v = false).
  { intros v (Hend & Hobj & Hinst & Hin).
    split; [apply Z.eqb_neq; exact Hend|].
    split; [apply orb_false_iff; split; apply Z.eqb_neq; assumption|].
    destruct (out_of_scope e v) eqn:Hout; [|reflexivity].
    apply out_of_scope_spec in Hout. contradiction. }
  induction vs as [|v vs IH]; intros notdone results pdu Hall.
  - apply Forall_inv in Hall. destruct (Hstep vN Hall) as (H1 & H2 & H3).
    cbn [app inspect_vars]. rewrite H1, H2, H3. eauto.
  - pose proof (Forall_inv Hall) as Hv. apply Forall_inv_tail in Hall.
    destruct (Hstep v Hv) as (H1 & H2 & H3).
    cbn [app inspect_vars]. rewrite H1, H2, H3.
    replace (match (vs ++ [vN])%list with
             | [] => Some (mk v)
             | _ :: _ => pdu
             end) with pdu by (destruct vs; reflexivity).
    apply IH. exact Hall.
Qed.

End WalkFacts.

(** C6, as stated, fails for a marker variable: when the first variable of
    a single-step walk lies outside the requested subtree and is typed
    no-such-object, the walk emits one placeholder record. *)
Lemma walk_marker_outside_counterexample :
  let v := {| v_name := [1; 3; 6; 1; 2; 1; 2; 1; 0];
              v_type := SNMP_NOSUCHOBJECT; v_val := ValNone |} in
  let r := {| command := SNMP_MSG_RESPONSE; errstat := SNMP_ERR_NOERROR;
              errindex := 0; variables := [v] |} in
  let e := {| initial_oid_str := Some ".1.3.6.1.2.1.1";
              oid_arr := ([1; 3; 6; 1; 2; 1; 1] ++ replicate 121 0)%list;
              oid_arr_len := 7 |} in
  leaves_subtree e v
  /\ netsnmp_walk no_text empty_mib zero_junk no_formatter
                  (session_of (answering_agent r) 0 0) 1
                  [varbind_of ".1.3.6.1.2.1.1" ""] []
     = Ret {| ret := PyList [placeholder e v];
              session_errors := None;
              log := [first_request SNMP_MSG_GETNEXT e] |}.
Proof.
  split.
  - right. vm_compute. discriminate.
  - vm_compute. reflexivity.
Qed.

(** C6, amended: in a single-step walk on one starting path, when the
    first variable of the first response is not a no-such-object or
    no-such-instance marker and its name is shorter than the starting path
    or does not start with it, the walk ends after that one request with
    zero result records, whatever the value of the variable and whatever
    follows it in the response. *)
Theorem walk_leaving_subtree_emits_nothing (txt : errtext) (m : mib)
    (junk : nat -> oid)
    (read_variable : variable -> op_entry -> Z -> Z -> option snmp_variable)
    (ctx : session_capsule_ctx) (ss : netsnmp_session) (vb : py_varbind)
    (e : op_entry) (r : netsnmp_pdu) (v : variable) (rest : list variable)
    (fuel : nat) (sent0 : list netsnmp_pdu) :
  handle ctx = Some ss ->
  snmp_op_data_load m junk ctx [vb] = Some (inr [e]) ->
  synch_response ss sent0 (first_request SNMP_MSG_GETNEXT e)
  = (STAT_SUCCESS, Some r) ->
  errstat r = SNMP_ERR_NOERROR ->
  variables r = v :: rest ->
  v_type v <> SNMP_NOSUCHOBJECT ->
  v_type v <> SNMP_NOSUCHINSTANCE ->
  leaves_subtree e v ->
  netsnmp_walk txt m junk read_variable ctx (S fuel) [vb] sent0
  = Ret {| ret := PyList [];
           session_errors := None;
           log := (sent0 ++ [first_request SNMP_MSG_GETNEXT e])%list |}.
Proof.
  intros Hh Hload Hx Herr Hvars Hobj Hinst Hout.
  unfold netsnmp_walk, fetch. rewrite Hload. cbn [request_entries].
  rewrite (request_rounds_noerror txt read_variable ctx (Some next_getnext) e
             fuel ss _ r [] sent0 Hh Hx Herr).
  rewrite Hvars.
  rewrite (inspect_vars_leaves read_variable ctx (Some next_getnext) e v rest
             true [] None Hobj Hinst Hout).
  reflexivity.
Qed.

Lemma walk_leaving_subtree_emits_nothing_witness :
  let v := {| v_name := [1; 3; 6; 1; 2; 1; 2; 1; 0];
              v_type := ASN_INTEGER; v_val := ValInteger 2 |} in
  let r := {| command := SNMP_MSG_RESPONSE; errstat := SNMP_ERR_NOERROR;
              errindex := 0; variables := [v] |} in
  let e := {| initial_oid_str := Some ".1.3.6.1.2.1.1";
              oid_arr := ([1; 3; 6; 1; 2; 1; 1] ++ replicate 121 0)%list;
              oid_arr_len := 7 |} in
  netsnmp_walk no_text empty_mib zero_junk type_formatter
               (session_of (answering_agent r) 0 0) 3
               [varbind_of ".1.3.6.1.2.1.1" ""] []
  = Ret {| ret := PyList [];
           session_errors := None;
           log := ([] ++ [first_request SNMP_MSG_GETNEXT e])%list |}.
Proof.
  intros v r e.
  apply (walk_leaving_subtree_emits_nothing no_text empty_mib zero_junk
           type_formatter (session_of (answering_agent r) 0 0)
           (answering_agent r) (varbind_of ".1.3.6.1.2.1.1" "") e r v [] 2 []).
  - reflexivity.
  - vm_compute. reflexivity.
  - reflexivity.
  - reflexivity.
  - reflexivity.
  - vm_compute. discriminate.
  - vm_compute. discriminate.
  - right. vm_compute. discriminate.
Defined.

(** C7: in a bulk walk whose first response, without error status, holds
    the in-scope variables [vs ++ [vN]], the second request sent is the
    bulk request for the name of [vN], the last of them; the first is the
    bulk request for the starting path. *)
Theorem bulkwalk_frontier_chaining (txt : errtext) (m : mib)
    (junk : nat -> oid)
    (read_variable : variable -> op_entry -> Z -> Z -> option snmp_variable)
    (ctx : session_capsule_ctx) (ss : netsnmp_session)
    (varlist : list py_varbind) (e : op_entry) (entries : list op_entry)
    (r : netsnmp_pdu) (vs : list variable) (vN : variable)
    (nonrepeaters maxrepetitions : Z) (fuel : nat)
    (sent0 : list netsnmp_pdu) :
  handle ctx = Some ss ->
  snmp_op_data_load m junk ctx varlist = Some (inr (e :: entries)) ->
  synch_response ss sent0
    (bulk_request nonrepeaters maxrepetitions (oid_arr e) (oid_arr_len e))
  = (STAT_SUCCESS, Some r) ->
  errstat r = SNMP_ERR_NOERROR ->
  variables r = (vs ++ [vN])%list ->
  Forall (in_scope e) (vs ++ [vN]) ->
  exists rest,
    sent_by log
      (netsnmp_bulkwalk txt m junk read_variable ctx (S (S fuel)) varlist
                        nonrepeaters maxrepetitions sent0)
    = (sent0
       ++ [bulk_request nonrepeaters maxrepetitions (oid_arr e)
                        (oid_arr_len e);
           bulk_request nonrepeaters maxrepetitions (v_name vN)
                        (Z.of_nat (length (v_name vN)))]
       ++ rest)%list.
Proof.
  intros Hh Hload Hx Herr Hvars Hall.
  unfold netsnmp_bulkwalk, fetch. rewrite Hload.
  set (first := fun e0 : op_entry =>
                  bulk_request nonrepeaters maxrepetitions (oid_arr e0)
                               (oid_arr_len e0)).
  set (next := next_getbulk nonrepeaters maxrepetitions).
  destruct (request_entries_extends txt read_variable ctx first (Some next)
              (S (S fuel)) e entries [] sent0) as [rest Hrest].
  rewrite Hrest.
  rewrite (request_rounds_noerror txt read_variable ctx (Some next) e
             (S fuel) ss (first e) r [] sent0 Hh Hx Herr).
  rewrite Hvars.
  destruct (inspect_vars_in_scope read_variable ctx next e vN vs true [] None
              Hall) as [results' Hins].
  rewrite Hins.
  destruct (request_rounds_first txt read_variable ctx (Some next) e fuel ss
              (next vN) results' (sent0 ++ [first e]) Hh) as [rest' Hrest'].
  rewrite Hrest'. exists (rest' ++ rest)%list.
  rewrite <- !app_assoc. reflexivity.
Qed.

Lemma bulkwalk_frontier_chaining_witness :
  exists rest,
    sent_by log
      (netsnmp_bulkwalk no_text empty_mib zero_junk type_formatter
                        (session_of two_round_agent 0 0) 2
                        [varbind_of ".1.3.6.1.2.1.1" ""] 0 10 [])
    = ([] ++ [bulk_request 0 10 ([1; 3; 6; 1; 2; 1; 1] ++ replicate 121 0) 7;
              bulk_request 0 10 [1; 3; 6; 1; 2; 1; 1; 3; 0] 9]
          ++ rest)%list.
Proof.
  apply (bulkwalk_frontier_chaining no_text empty_mib zero_junk type_formatter
           (session_of two_round_agent 0 0) two_round_agent
           [varbind_of ".1.3.6.1.2.1.1" ""]
           {| initial_oid_str := Some ".1.3.6.1.2.1.1";
              oid_arr := ([1; 3; 6; 1; 2; 1; 1] ++ replicate 121 0)%list;
              oid_arr_len := 7 |}
           []
           {| command := SNMP_MSG_RESPONSE; errstat := SNMP_ERR_NOERROR;
              errindex := 0;
              variables :=
                [ {| v_name := [1; 3; 6; 1; 2; 1; 1; 1; 0];
                     v_type := ASN_OCTET_STR; v_val := ValString "sw" |};
                  {| v_name := [1; 3; 6; 1; 2; 1; 1; 3; 0];
                     v_type := ASN_TIMETICKS; v_val := ValInteger 42 |} ] |}
           [ {| v_name := [1; 3; 6; 1; 2; 1; 1; 1; 0];
                v_type := ASN_OCTET_STR; v_val := ValString "sw" |} ]
           {| v_name := [1; 3; 6; 1; 2; 1; 1; 3; 0];
              v_type := ASN_TIMETICKS; v_val := ValInteger 42 |}
           0 10 0 []).
  - reflexivity.
  - vm_compute. reflexivity.
  - vm_compute. reflexivity.
  - reflexivity.
  - reflexivity.
  - repeat constructor; try (vm_compute; discriminate);
      (intros [Hshort|Hdiff];
       [vm_compute in Hshort; discriminate | apply Hdiff; vm_compute; reflexivity]).
Defined.

Lemma unresolved_entry_is_fatal_witness :
  netsnmp_get no_text empty_mib zero_junk type_formatter
              (session_of (rejecting_agent 1) 0 0) 1
              ([varbind_of ".1.3.6.1.2.1.1.1" "0"]
               ++ varbind_of "sysDescr" "0" :: [varbind_of ".1.3.6.1" ""])
              []
  = Ret {| ret := PyRaise (EasySNMPUnknownObjectIDError (Some "sysDescr"));
           session_errors := None;
           log := [] |}.
Proof.
  apply (unresolved_entry_is_fatal no_text empty_mib zero_junk type_formatter
           (session_of (rejecting_agent 1) 0 0)
           [varbind_of ".1.3.6.1.2.1.1.1" "0"] [varbind_of ".1.3.6.1" ""]
           (varbind_of "sysDescr" "0") 1 []).
  - eexists. vm_compute. reflexivity.
  - eexists. vm_compute. reflexivity.
Defined.

(** ** Write entry point *)

(** C10: [netsnmp_set] sends its request with retry disabled whatever the
    [retry_nosuch] of the session is: when the request it built is answered
    with no-such-name, the call raises [EasySNMPNoSuchNameError] and that
    one request is the only one sent. *)
Theorem set_never_retries (txt : errtext) (m : mib) (junk : nat -> oid)
    (ps : parsers) (use_enums : Z) (ctx : session_capsule_ctx)
    (ss : netsnmp_session) (varlist : list py_varbind)
    (pdu r : netsnmp_pdu) (fuel : nat) (sent0 : list netsnmp_pdu) :
  handle ctx = Some ss ->
  set_varbinds m junk ps use_enums ctx varlist (snmp_pdu_create SNMP_MSG_SET)
               (replicate (Z.to_nat MAX_OID_LEN) 0)
  = Some (BuildOk pdu) ->
  synch_response ss sent0 pdu = (STAT_SUCCESS, Some r) ->
  errstat r = SNMP_ERR_NOSUCHNAME ->
  netsnmp_set txt m junk ps use_enums ctx (S fuel) varlist sent0
  = Ret {| ret := PyRaise EasySNMPNoSuchNameError;
           session_errors := Some ("", 0, 0);
           log := (sent0 ++ [pdu])%list |}.
Proof.
  intros Hh Hbuild Hx Herr. unfold netsnmp_set. rewrite Hbuild, Hh.
  rewrite (send_sync_pdu_nosuchname_no_retry txt fuel ss pdu r None sent0 Hx
             Herr).
  reflexivity.
Qed.

Lemma set_never_retries_witness :
  let pdu := add_var (snmp_pdu_create SNMP_MSG_SET)
               {| v_name := [1; 3; 6; 1; 2; 1; 1; 5; 0];
                  v_type := ASN_OCTET_STR; v_val := ValString "router" |} in
  netsnmp_set no_text empty_mib zero_junk plain_parsers 0
              (session_of (rejecting_agent 1) 0 1) 1
              [ {| vb_oid := Some ".1.3.6.1.2.1.1.5"; vb_oid_index := Some "0";
                   vb_snmp_type := Some "s"; vb_value := Some "router" |} ]
              []
  = Ret {| ret := PyRaise EasySNMPNoSuchNameError;
           session_errors := Some ("", 0, 0);
           log := ([] ++ [pdu])%list |}.
Proof.
  intros pdu.
  apply (set_never_retries no_text empty_mib zero_junk plain_parsers 0
           (session_of (rejecting_agent 1) 0 1) (rejecting_agent 1)
           [ {| vb_oid := Some ".1.3.6.1.2.1.1.5"; vb_oid_index := Some "0";
                vb_snmp_type := Some "s"; vb_value := Some "router" |} ]
           pdu (nosuch_response 1 (variables pdu)) 0 []).
  - reflexivity.
  - vm_compute. reflexivity.
  - reflexivity.
  - reflexivity.
Defined.

(** ** Concrete runs *)

Example translate_single_letters :
  map (fun c => __translate_appl_type (Some c))
      ["i"; "u"; "s"; "n"; "o"; "t"; "a"; "b"; "x"]
  = [TYPE_INTEGER; TYPE_UNSIGNED32; TYPE_OCTETSTR; TYPE_NULL; TYPE_OBJID;
     TYPE_TIMETICKS; TYPE_IPADDR; TYPE_BITSTRING; TYPE_UNKNOWN].
Proof. reflexivity. Qed.

Example scan_and_tokens :
  sscanf_lu "12ab" = Some 12
  /\ sscanf_lu "a" = None
  /\ strtok_all "1..a.2" [] = ["1"; "a"; "2"].
Proof. repeat split. Qed.

Example unknown_leaf_does_not_resolve :
  __tag2oid empty_mib zero_junk (Some "sysDescr") (Some "0")
            (fresh_oid_buf zero_junk) 0
  = Some (None, fresh_oid_buf zero_junk, 0, TYPE_UNKNOWN).
Proof. vm_compute. reflexivity. Qed.

(** Descending error indices 5, 4, 3, 2, 1: one new entry is excluded per
    round and the call ends with success after four resubmissions. *)
Example elision_descending :
  match __send_sync_pdu no_text 5 (Some rejecting_last_agent)
                        (Some (get_request [[1]; [2]; [3]; [4]; [5]]))
                        1 (Some ∅) [] with
  | Ret o => status o = STAT_SUCCESS
             /\ retry_num o = 4
             /\ invalid_oids o = Some (list_to_set [0; 1; 2; 3; 4])
  | _ => False
  end.
Proof. vm_compute. repeat split. Qed.

(** * Further properties *)

(** ** Request / retry orchestrator *)

Section OrchestratorMore.

Variable txt : errtext.

(** With retry disabled a round always ends the call. *)
Lemma sync_round_retry_off (ss : netsnmp_session) (c : Z) (st : sync_state) :
  exists o,
    sync_round txt ss NO_RETRY_NOSUCH c st = Done o
    /\ sent o = (st_sent st ++ [st_pdu st])%list
    /\ retry_num o = st_retry_num st
    /\ invalid_oids o = st_invalid_oids st
    /\ (status o = STAT_SUCCESS ->
        py_err o = None
        /\ exists r,
             response o = Some r /\ to_int (errstat r) = SNMP_ERR_NOERROR).
Proof.
  unfold sync_round, nosuchname.
  destruct (synch_response ss (st_sent st) (st_pdu st)) as [status0 resp].
  destruct (sess_error ss (st_sent st ++ [st_pdu st])) as [[e se] text].
  set (s1 := correct_status (st_err_str st)
               (if bool_decide (resp = None) && (status0 =? STAT_SUCCESS)
                then STAT_ERROR else status0)).
  destruct (Z.eqb_spec s1 STAT_SUCCESS) as [Hs|Hs].
  - destruct resp as [r|].
    + destruct (Z.eqb_spec (to_int (errstat r)) SNMP_ERR_NOERROR) as [He|He].
      * eexists. repeat split. eauto.
      * destruct (to_int (errstat r) =? SNMP_ERR_NOSUCHNAME);
          cbn [negb Z.eqb NO_RETRY_NOSUCH]; eexists;
          (repeat split; try reflexivity);
          cbn [status py_err response]; intros; try discriminate; contradiction.
    + exfalso. revert Hs. subst s1. apply correct_status_not_success.
      rewrite bool_decide_eq_true_2 by reflexivity. cbn [andb].
      destruct (Z.eqb_spec status0 STAT_SUCCESS); [discriminate|assumption].
  - destruct (Z.eqb_spec s1 STAT_TIMEOUT) as [Ht|Ht];
      [|destruct (Z.eqb_spec s1 STAT_ERROR) as [Hr|Hr]];
      eexists; (repeat split; try reflexivity);
      cbn [status py_err response]; intros; contradiction.
Qed.

End OrchestratorMore.

(** X1: with retry disabled, [__send_sync_pdu] sends its request exactly
    once whatever the agent answers: it returns within one round, nothing
    is resubmitted and the mask is left as it was. *)
Theorem retry_off_single_request (txt : errtext) (ss : netsnmp_session)
    (pdu : netsnmp_pdu) (mask : option bitarray) (sent0 : list netsnmp_pdu)
    (fuel : nat) :
  exists o,
    __send_sync_pdu txt (S fuel) (Some ss) (Some pdu) NO_RETRY_NOSUCH mask
                    sent0 = Ret o
    /\ sent o = (sent0 ++ [pdu])%list
    /\ retry_num o = 0
    /\ invalid_oids o = mask.
Proof.
  unfold __send_sync_pdu. cbn [sync_loop].
  destruct (sync_round_retry_off txt ss (command pdu)
              (sync_init pdu mask sent0)) as (o & Hr & Hs & Hn & Hm & _).
  rewrite Hr. exists o. auto.
Qed.

(** X2: the remote status is classified by its value as an [int], and
    one that is then neither no-error nor no-such-name is never retried,
    retry enabled or not: the call ends after that one request with that
    [int] as its return value and in [err_num], the remote index as an
    [int] in [err_ind], the message of the status in [err_str], and
    [EasySNMPError] raised with that message. *)
Theorem remote_error_not_retried (txt : errtext) (ss : netsnmp_session)
    (pdu r : netsnmp_pdu) (retry_nosuch : Z) (mask : option bitarray)
    (sent0 : list netsnmp_pdu) (fuel : nat) :
  synch_response ss sent0 pdu = (STAT_SUCCESS, Some r) ->
  to_int (errstat r) <> SNMP_ERR_NOERROR ->
  to_int (errstat r) <> SNMP_ERR_NOSUCHNAME ->
  __send_sync_pdu txt (S fuel) (Some ss) (Some pdu) retry_nosuch mask sent0
  = Ret {| status := to_int (errstat r); response := Some r;
           err_str := snmp_errstring txt (to_int (errstat r));
           err_num := to_int (errstat r); err_ind := to_int (errindex r);
           invalid_oids := mask;
           py_err :=
             Some (EasySNMPError (snmp_errstring txt (to_int (errstat r))));
           retry_num := 0; sent := (sent0 ++ [pdu])%list |}.
Proof.
  intros Hx H0 H2. unfold __send_sync_pdu, sync_init. cbn [sync_loop].
  unfold sync_round. cbn [st_sent st_pdu st_err_str]. rewrite Hx.
  rewrite bool_decide_eq_false_2 by discriminate. cbn [andb].
  rewrite correct_status_success. cbn [Z.eqb STAT_SUCCESS].
  destruct (Z.eqb_spec (to_int (errstat r)) SNMP_ERR_NOERROR);
    [contradiction|].
  destruct (Z.eqb_spec (to_int (errstat r)) SNMP_ERR_NOSUCHNAME);
    [contradiction|].
  reflexivity.
Qed.

Lemma remote_error_not_retried_witness :
  let r := {| command := SNMP_MSG_RESPONSE; errstat := 2 ^ 32 + 5;
              errindex := 1; variables := [null_var [1; 3; 6; 1]] |} in
  __send_sync_pdu no_text 1 (Some (answering_agent r))
                  (Some (get_request [[1; 3; 6; 1]])) 1 (Some ∅) []
  = Ret {| status := 5; response := Some r;
           err_str := "";
           err_num := 5; err_ind := 1;
           invalid_oids := Some ∅;
           py_err := Some (EasySNMPError "");
           retry_num := 0;
           sent := ([] ++ [get_request [[1; 3; 6; 1]]])%list |}.
Proof.
  intros r.
  apply (remote_error_not_retried no_text (answering_agent r)
           (get_request [[1; 3; 6; 1]]) r 1 (Some ∅) [] 0);
    [reflexivity | vm_compute; discriminate | vm_compute; discriminate].
Defined.

Section Elision.

Variable txt : errtext.
Variable c : Z.

Lemma sync_round_rejecting (n : Z) (st : sync_state) :
  sync_round txt (rejecting_agent n) 1 c st
  = nosuchname 1 c st (nosuch_response n (variables (st_pdu st)))
               (st_sent st ++ [st_pdu st]).
Proof.
  unfold sync_round. cbn [synch_response rejecting_agent].
  rewrite bool_decide_eq_false_2 by discriminate. cbn [andb].
  rewrite correct_status_success. reflexivity.
Qed.

Lemma sync_round_rejecting_last (st : sync_state) :
  sync_round txt rejecting_last_agent 1 c st
  = nosuchname 1 c st
      (nosuch_response (Z.of_nat (length (variables (st_pdu st))))
                       (variables (st_pdu st)))
      (st_sent st ++ [st_pdu st]).
Proof.
  unfold sync_round. cbn [synch_response rejecting_last_agent].
  rewrite bool_decide_eq_false_2 by discriminate. cbn [andb].
  rewrite correct_status_success. reflexivity.
Qed.

Lemma snmp_fix_pdu_first (v : variable) (vs : list variable) :
  snmp_fix_pdu (nosuch_response 1 (v :: vs)) c
  = match vs with
    | [] => None
    | _ => Some (fixed_request c vs)
    end.
Proof.
  unfold snmp_fix_pdu, nosuch_response.
  cbn [command errstat errindex variables].
  replace (Z.of_nat (length (v :: vs)) <? 1) with false
    by (symmetry; apply Z.ltb_ge; cbn [length]; lia).
  cbn. destruct vs; reflexivity.
Qed.

Lemma snmp_fix_pdu_last (vs : list variable) (v : variable) :
  snmp_fix_pdu (nosuch_response (Z.of_nat (length (vs ++ [v])%list))
                                (vs ++ [v])%list) c
  = match vs with
    | [] => None
    | _ => Some (fixed_request c vs)
    end.
Proof.
  unfold snmp_fix_pdu, nosuch_response.
  cbn [command errstat errindex variables].
  rewrite Z.ltb_irrefl.
  replace (Z.of_nat (length (vs ++ [v])%list) <=? 0) with false
    by (symmetry; apply Z.leb_gt; rewrite length_app; cbn [length]; lia).
  cbn [negb orb Z.eqb SNMP_MSG_RESPONSE SNMP_ERR_NOSUCHNAME SNMP_ERR_NOERROR
       Pos.eqb].
  replace (Z.to_nat (Z.of_nat (length (vs ++ [v])%list) - 1)) with (length vs)
    by (rewrite length_app; cbn [length]; lia).
  replace (delete (length vs) (vs ++ [v])%list) with vs.
  - destruct vs; reflexivity.
  - rewrite delete_middle. rewrite app_nil_r. reflexivity.
Qed.

(** The rounds against an agent that always reports index 1, from any
    point of the loop at which the first [k] bits are marked. *)
Lemma ascending_rounds (vs : list variable) :
  forall (v : variable) (k : nat) (L c0 e i : Z) (s : string)
         (sent1 : list netsnmp_pdu) (fuel : nat),
    (L = 0 /\ k = O) \/ L = 1 ->
    Z.of_nat (k + length vs) < 2 ^ 64 ->
    (length vs < fuel)%nat ->
    exists o,
      sync_loop txt (rejecting_agent 1) 1 c fuel
        {| st_pdu := {| command := c0; errstat := e; errindex := i;
                        variables := v :: vs |};
           st_retry_num := Z.of_nat k; st_last_errindex := L;
           st_err_str := s; st_invalid_oids := Some (first_marks k);
           st_sent := sent1 |} = Ret o
      /\ status o = STAT_SUCCESS
      /\ py_err o = None
      /\ invalid_oids o = Some (first_marks (k + S (length vs)))
      /\ retry_num o = Z.of_nat (k + length vs)
      /\ length (sent o) = (length sent1 + S (length vs))%nat.
Proof.
  induction vs as [|v' vs IH]; intros v k L c0 e i s sent1 fuel HL Hk Hfuel.
  all: destruct fuel as [|fuel]; [cbn [length] in Hfuel; lia|].
  all: cbn [sync_loop]; rewrite sync_round_rejecting; unfold nosuchname.
  all: cbn [negb Z.eqb st_invalid_oids st_pdu variables st_last_errindex
            st_retry_num errindex nosuch_response st_sent st_err_str].
  all: rewrite snmp_fix_pdu_first.
  all: assert (Hbit : nosuch_bit L 1 (Z.of_nat k) = Z.of_nat k)
         by (unfold nosuch_bit, to_ulong; cbn [length] in Hk;
             destruct HL as [[-> ->] | ->]; [reflexivity|];
             cbn [Z.eqb]; rewrite Z.mod_small by lia;
             cbn [Z.ltb Z.compare Pos.compare Pos.compare_cont];
             replace (1 - 1 + Z.of_nat k) with (Z.of_nat k) by lia;
             apply Z.mod_small; lia).
  all: rewrite Hbit.
  - eexists. split; [reflexivity|].
    cbn [status py_err invalid_oids retry_num sent length].
    repeat split.
    + replace (k + 1)%nat with (S k) by lia. reflexivity.
    + f_equal. lia.
    + rewrite length_app. cbn [length]. lia.
  - destruct (IH v' (S k) (to_ulong 1) c SNMP_DEFAULT_ERRSTAT
                SNMP_DEFAULT_ERRINDEX s
                (sent1 ++ [{| command := c0; errstat := e; errindex := i;
                              variables := v :: v' :: vs |}])%list fuel)
      as (o & Hrun & Hst & Herr & Hmask & Hnum & Hsent).
    + right. reflexivity.
    + cbn [length] in Hk. lia.
    + cbn [length] in Hfuel. lia.
    + exists o. split.
      * replace (Z.of_nat k + 1) with (Z.of_nat (S k)) by lia. exact Hrun.
      * cbn [length]. rewrite length_app in Hsent. cbn [length] in Hsent.
        split; [exact Hst|]. split; [exact Herr|].
        split; [rewrite Hmask; do 2 f_equal; lia|].
        split; [rewrite Hnum; f_equal; lia | lia].
Qed.

End Elision.

Section ElisionDescending.

Variable txt : errtext.
Variable c : Z.

(** The rounds against an agent that always rejects the last variable,
    from any point of the loop at which the bits from the number of
    variables left up to [N - 1] are marked. *)
Lemma descending_rounds (vs : list variable) :
  forall (v : variable) (k N : nat) (L c0 e i : Z) (s : string)
         (sent1 : list netsnmp_pdu) (fuel : nat) (ba : bitarray),
    N = (k + S (length vs))%nat ->
    (L = 0 /\ k = O) \/ L = Z.of_nat (S (S (length vs))) ->
    Z.of_nat N < 2 ^ 64 ->
    (forall x, x ∈ ba <-> Z.of_nat (S (length vs)) <= x < Z.of_nat N) ->
    (length vs < fuel)%nat ->
    exists o ba',
      sync_loop txt rejecting_last_agent 1 c fuel
        {| st_pdu := {| command := c0; errstat := e; errindex := i;
                        variables := (vs ++ [v])%list |};
           st_retry_num := Z.of_nat k; st_last_errindex := L;
           st_err_str := s; st_invalid_oids := Some ba;
           st_sent := sent1 |} = Ret o
      /\ status o = STAT_SUCCESS
      /\ py_err o = None
      /\ invalid_oids o = Some ba'
      /\ (forall x, x ∈ ba' <-> 0 <= x < Z.of_nat N)
      /\ retry_num o = Z.of_nat (k + length vs)
      /\ length (sent o) = (length sent1 + S (length vs))%nat.
Proof.
  induction vs as [|v' vs IH] using rev_ind;
    intros v k N L c0 e i s sent1 fuel ba HN HL Hbound Hba Hfuel.
  all: destruct fuel as [|fuel]; [lia|].
  all: cbn [sync_loop]; rewrite sync_round_rejecting_last; unfold nosuchname.
  all: cbn [negb Z.eqb st_invalid_oids st_pdu variables st_last_errindex
            st_retry_num errindex nosuch_response st_sent st_err_str].
  all: rewrite snmp_fix_pdu_last.
  - assert (Hbit : nosuch_bit L (Z.of_nat (length ([] ++ [v]))) (Z.of_nat k)
                   = 0).
    { unfold nosuch_bit, to_ulong. cbn [app length Z.of_nat Pos.of_succ_nat].
      destruct HL as [[-> ->] | ->]; reflexivity. }
    rewrite Hbit. eexists _, _. split; [reflexivity|].
    cbn [status py_err invalid_oids retry_num sent length].
    split; [reflexivity|]. split; [reflexivity|]. split; [reflexivity|].
    split; [|split].
    + intros x. unfold bitarray_set_bit.
      rewrite elem_of_union, elem_of_singleton, Hba. cbn [length]. lia.
    + f_equal. lia.
    + rewrite length_app. cbn [length]. lia.
  - rewrite length_app in HN, HL, Hba, Hfuel.
    cbn [length] in HN, HL, Hba, Hfuel.
    assert (Hbit : nosuch_bit L (Z.of_nat (length ((vs ++ [v']) ++ [v])))
                              (Z.of_nat k)
                   = Z.of_nat (S (length vs))).
    { unfold nosuch_bit, to_ulong. rewrite !length_app. cbn [length].
      destruct HL as [[-> ->] | ->].
      - cbn [Z.eqb]. rewrite Z.mod_small by lia. lia.
      - destruct (Z.eqb_spec (Z.of_nat (S (S (length vs + 1)))) 0); [lia|].
        rewrite (Z.mod_small (Z.of_nat (length vs + 1 + 1))) by lia.
        destruct (Z.ltb_spec (Z.of_nat (length vs + 1 + 1))
                             (Z.of_nat (S (S (length vs + 1))))); [|lia].
        rewrite Z.mod_small by lia. lia. }
    rewrite Hbit.
    destruct (vs ++ [v'])%list as [|w ws] eqn:Hvs;
      [destruct vs; discriminate|]. rewrite <- Hvs.
    destruct (IH v' (S k) N
                (to_ulong (Z.of_nat (length ((vs ++ [v']) ++ [v]))))
                c SNMP_DEFAULT_ERRSTAT SNMP_DEFAULT_ERRINDEX s
                (sent1 ++ [{| command := c0; errstat := e; errindex := i;
                              variables := (vs ++ [v']) ++ [v] |}])%list fuel
                (bitarray_set_bit ba (Z.of_nat (S (length vs)))))
      as (o & ba' & Hrun & Hst & Herr & Hmask & Hmem & Hnum & Hsent).
    + lia.
    + right. unfold to_ulong. rewrite !length_app. cbn [length].
      rewrite Z.mod_small by lia. lia.
    + exact Hbound.
    + intros x. unfold bitarray_set_bit.
      rewrite elem_of_union, elem_of_singleton, Hba. lia.
    + lia.
    + exists o, ba'.
      replace (Z.of_nat k + 1) with (Z.of_nat (S k)) by lia.
      split; [exact Hrun|].
      rewrite length_app in Hsent. cbn [length] in Hsent.
      rewrite !length_app. cbn [length].
      split; [exact Hst|]. split; [exact Herr|]. split; [exact Hmask|].
      split; [exact Hmem|]. split; [rewrite Hnum; f_equal; lia | lia].
Qed.

End ElisionDescending.

(** X3: against an agent that reports error index 1 on every round, a
    batch of any number [N] of entries is eliminated entry by entry: the
    call ends with success after [N] requests and the mask holds exactly
    the [N] original indices 0 .. N-1. *)
Theorem elision_ascending_all (txt : errtext) (pdu : netsnmp_pdu)
    (sent0 : list netsnmp_pdu) (fuel : nat) :
  variables pdu <> [] ->
  Z.of_nat (length (variables pdu)) < 2 ^ 64 ->
  (length (variables pdu) <= fuel)%nat ->
  exists o ba,
    __send_sync_pdu txt fuel (Some (rejecting_agent 1)) (Some pdu) 1 (Some ∅)
                    sent0 = Ret o
    /\ status o = STAT_SUCCESS
    /\ py_err o = None
    /\ invalid_oids o = Some ba
    /\ size ba = length (variables pdu)
    /\ (forall x, x ∈ ba <-> 0 <= x < Z.of_nat (length (variables pdu)))
    /\ retry_num o = Z.of_nat (length (variables pdu)) - 1
    /\ length (sent o) = (length sent0 + length (variables pdu))%nat.
Proof.
  destruct pdu as [c0 e i [|v vs]]; cbn [variables]; [congruence|].
  intros _ Hbound Hfuel. cbn [length] in *.
  destruct (ascending_rounds txt c0 vs v O 0 c0 e i "" sent0 fuel)
    as (o & Hrun & Hst & Herr & Hmask & Hnum & Hsent);
    [left; auto | lia | lia |].
  exists o, (first_marks (S (length vs))).
  split; [exact Hrun|]. split; [exact Hst|]. split; [exact Herr|].
  split; [exact Hmask|]. split; [apply size_first_marks|].
  split; [intros x; apply elem_of_first_marks|].
  split; [rewrite Hnum; lia | exact Hsent].
Qed.

Lemma elision_ascending_all_witness :
  exists o ba,
    __send_sync_pdu no_text 3 (Some (rejecting_agent 1))
                    (Some (get_request [[1; 3; 1]; [1; 3; 2]; [1; 3; 3]]))
                    1 (Some ∅) [] = Ret o
    /\ invalid_oids o = Some ba
    /\ size ba = 3%nat.
Proof.
  destruct (elision_ascending_all no_text
              (get_request [[1; 3; 1]; [1; 3; 2]; [1; 3; 3]]) [] 3)
    as (o & ba & Hrun & _ & _ & Hmask & Hsize & _).
  - discriminate.
  - reflexivity.
  - simpl. lia.
  - exists o, ba. auto.
Defined.

(** X4: against an agent that rejects the last entry of every request
    (error indices N, N-1, .., 1), a batch of any number [N] of entries is
    eliminated as well: success after [N] requests, the mask holding
    exactly the indices 0 .. N-1. *)
Theorem elision_descending_all (txt : errtext) (pdu : netsnmp_pdu)
    (sent0 : list netsnmp_pdu) (fuel : nat) :
  variables pdu <> [] ->
  Z.of_nat (length (variables pdu)) < 2 ^ 64 ->
  (length (variables pdu) <= fuel)%nat ->
  exists o ba,
    __send_sync_pdu txt fuel (Some rejecting_last_agent) (Some pdu) 1 (Some ∅)
                    sent0 = Ret o
    /\ status o = STAT_SUCCESS
    /\ py_err o = None
    /\ invalid_oids o = Some ba
    /\ size ba = length (variables pdu)
    /\ (forall x, x ∈ ba <-> 0 <= x < Z.of_nat (length (variables pdu)))
    /\ retry_num o = Z.of_nat (length (variables pdu)) - 1
    /\ length (sent o) = (length sent0 + length (variables pdu))%nat.
Proof.
  destruct pdu as [c0 e i vars]; cbn [variables].
  destruct vars as [|v vs _] using rev_ind; [congruence|].
  intros _ Hbound Hfuel. rewrite length_app in *. cbn [length] in *.
  destruct (descending_rounds txt c0 vs v O (S (length vs)) 0 c0 e i ""
              sent0 fuel ∅)
    as (o & ba & Hrun & Hst & Herr & Hmask & Hmem & Hnum & Hsent).
  - reflexivity.
  - left. auto.
  - lia.
  - intros x. rewrite elem_of_empty. lia.
  - lia.
  - exists o, ba.
    split; [exact Hrun|]. split; [exact Hst|]. split; [exact Herr|].
    split; [exact Hmask|].
    assert (Heq : ba = first_marks (S (length vs))).
    { apply set_eq. intros x. rewrite Hmem, elem_of_first_marks. lia. }
    split; [rewrite Heq, size_first_marks; lia|].
    split; [intros x; rewrite Hmem; lia|].
    split; [rewrite Hnum; lia | lia].
Qed.

Lemma elision_descending_all_witness :
  exists o ba,
    __send_sync_pdu no_text 3 (Some rejecting_last_agent)
                    (Some (get_request [[1; 3; 1]; [1; 3; 2]; [1; 3; 3]]))
                    1 (Some ∅) [] = Ret o
    /\ invalid_oids o = Some ba
    /\ size ba = 3%nat.
Proof.
  destruct (elision_descending_all no_text
              (get_request [[1; 3; 1]; [1; 3; 2]; [1; 3; 3]]) [] 3)
    as (o & ba & Hrun & _ & _ & Hmask & Hsize & _).
  - discriminate.
  - reflexivity.
  - simpl. lia.
  - exists o, ba. auto.
Defined.

(** ** Fetches and walks *)

Section FetchFacts.

Variable txt : errtext.
Variable m : mib.
Variable junk : nat -> oid.
Variable read_variable :
  variable -> op_entry -> Z -> Z -> option snmp_variable.
Variable ctx : session_capsule_ctx.

Lemma in_scope_tests (e : op_entry) (v : variable) :
  in_scope e v ->
  (v_type v =? SNMP_ENDOFMIBVIEW) = false
  /\ (v_type v =? SNMP_NOSUCHOBJECT) || (v_type v =? SNMP_NOSUCHINSTANCE)
     = false
  /\ out_of_scope e v = false.
Proof.
  intros (Hend & Hobj & Hinst & Hin).
  split; [apply Z.eqb_neq; exact Hend|].
  split; [apply orb_false_iff; split; apply Z.eqb_neq; assumption|].
  destruct (out_of_scope e v) eqn:Hout; [|reflexivity].
  apply out_of_scope_spec in Hout. contradiction.
Qed.

Lemma records_of_app (e : op_entry) (l1 l2 : list variable) :
  records_of read_variable ctx e (l1 ++ l2)
  = (records_of read_variable ctx e l1
     ++ records_of read_variable ctx e l2)%list.
Proof. apply omap_app. Qed.

(** In-scope variables in front of a variable that ends the reading: one
    record each, in order, then what the ending variable emits; the request
    in preparation is left as it was. *)
Lemma inspect_vars_stops (next : option (variable -> netsnmp_pdu))
    (e : op_entry) (v : variable) (rest : list variable)
    (vs : list variable) :
  forall notdone results pdu,
    Forall (in_scope e) vs ->
    stops_walk e v ->
    inspect_vars read_variable ctx next e (vs ++ v :: rest) notdone results pdu
    = (false,
       (results ++ records_of read_variable ctx e vs
        ++ marker_records e v)%list,
       pdu).
Proof.
  induction vs as [|w vs IH]; intros notdone results pdu Hall Hstop.
  - cbn [app inspect_vars records_of omap list_omap]. unfold marker_records.
    destruct (Z.eqb_spec (v_type v) SNMP_ENDOFMIBVIEW) as [_|Hend];
      [rewrite app_nil_r; reflexivity|].
    destruct ((v_type v =? SNMP_NOSUCHOBJECT)
              || (v_type v =? SNMP_NOSUCHINSTANCE)) eqn:Hns; [reflexivity|].
    apply orb_false_iff in Hns as [Ho Hi].
    apply Z.eqb_neq in Ho. apply Z.eqb_neq in Hi.
    destruct Hstop as [?|[?|[?|Hout]]]; try contradiction.
    apply out_of_scope_spec in Hout. rewrite Hout, app_nil_r. reflexivity.
  - pose proof (Forall_inv Hall) as Hw. apply Forall_inv_tail in Hall.
    destruct (in_scope_tests e w Hw) as (H1 & H2 & H3).
    cbn [app inspect_vars]. rewrite H1, H2, H3.
    replace (match (vs ++ v :: rest)%list, next with
             | [], Some mk => Some (mk w)
             | _, _ => pdu
             end) with pdu by (destruct vs; reflexivity).
    rewrite IH by assumption.
    unfold records_of. cbn [omap list_omap].
    destruct (read_variable w e (getlabel_flag ctx) (sprintval_flag ctx));
      cbn [app]; rewrite <- ?app_assoc; reflexivity.
Qed.

(** A response whose variables are all in scope: one record each, in
    order; a walk prepares the request for the name of the last one. *)
Lemma inspect_vars_records (next : option (variable -> netsnmp_pdu))
    (e : op_entry) (vs : list variable) :
  forall notdone results pdu,
    Forall (in_scope e) vs ->
    inspect_vars read_variable ctx next e vs notdone results pdu
    = (notdone,
       (results ++ records_of read_variable ctx e vs)%list,
       match last vs, next with
       | Some vN, Some mk => Some (mk vN)
       | _, _ => pdu
       end).
Proof.
  induction vs as [|w vs IH]; intros notdone results pdu Hall.
  - cbn. rewrite app_nil_r. reflexivity.
  - pose proof (Forall_inv Hall) as Hw. apply Forall_inv_tail in Hall.
    destruct (in_scope_tests e w Hw) as (H1 & H2 & H3).
    cbn [inspect_vars]. rewrite H1, H2, H3. rewrite IH by assumption.
    unfold records_of. cbn [omap list_omap].
    f_equal; [f_equal|].
    + destruct (read_variable w e (getlabel_flag ctx) (sprintval_flag ctx));
        cbn [app]; rewrite <- ?app_assoc; reflexivity.
    + destruct vs as [|w' vs']; [destruct next; reflexivity|].
      cbn [last]. destruct (last (w' :: vs')) eqn:Hl; [reflexivity|].
      apply last_None in Hl. discriminate.
Qed.

End FetchFacts.

Section FetchRuns.

Variable txt : errtext.
Variable m : mib.
Variable junk : nat -> oid.
Variable read_variable :
  variable -> op_entry -> Z -> Z -> option snmp_variable.
Variable ctx : session_capsule_ctx.

(** Without a session handle nothing is sent and the first starting path
    ends the call. *)
Lemma fetch_null_session (first : op_entry -> netsnmp_pdu)
    (next : option (variable -> netsnmp_pdu)) (varlist : list py_varbind)
    (e : op_entry) (entries : list op_entry) (fuel : nat)
    (sent0 : list netsnmp_pdu) :
  handle ctx = None ->
  snmp_op_data_load m junk ctx varlist = Some (inr (e :: entries)) ->
  fetch txt m junk read_variable ctx (S fuel) first next varlist sent0
  = Ret {| ret := PyNull;
           session_errors :=
             Some (snmp_api_errstring txt SNMPERR_BAD_SESSION, 0,
                   SNMPERR_BAD_SESSION);
           log := sent0 |}.
Proof.
  intros Hh Hload. unfold fetch. rewrite Hload.
  cbn [request_entries request_rounds]. rewrite Hh. reflexivity.
Qed.

(** A fetch that builds no next request, with retry disabled: one round
    per starting path, which sends one request. *)
Lemma request_rounds_single (e : op_entry) (p : netsnmp_pdu)
    (ss : netsnmp_session) (results : list snmp_variable)
    (sent0 : list netsnmp_pdu) (fuel : nat) :
  handle ctx = Some ss ->
  retry_nosuch ctx = NO_RETRY_NOSUCH ->
  exists r,
    request_rounds txt read_variable ctx (S fuel) None e (Some p) results sent0
    = Ret r
    /\ entry_sent r = (sent0 ++ [p])%list.
Proof.
  intros Hh Hretry. cbn [request_rounds]. rewrite Hh, Hretry.
  destruct (sync_round_retry_off txt ss (command p) (sync_init p None sent0))
    as (o & Hr & Hs & _ & _ & Hok).
  unfold __send_sync_pdu. cbn [sync_loop]. rewrite Hr.
  cbn [st_sent st_pdu sync_init] in Hs.
  destruct (py_err o) as [exc|] eqn:Hexc;
    [eexists; split; [reflexivity | exact Hs]|].
  destruct (Z.eqb_spec (status o) STAT_SUCCESS) as [Hst|Hst]; cbn [negb];
    [|eexists; split; [reflexivity | exact Hs]].
  destruct (Hok Hst) as (_ & r & Hresp & _). rewrite Hresp.
  destruct (inspect_vars read_variable ctx None e (variables r) true results
              None) as [[notdone results'] pdu'].
  eexists. split; [reflexivity | exact Hs].
Qed.

Lemma request_entries_single (first : op_entry -> netsnmp_pdu)
    (ss : netsnmp_session) (fuel : nat) (entries : list op_entry) :
  handle ctx = Some ss ->
  retry_nosuch ctx = NO_RETRY_NOSUCH ->
  forall results sent0,
  exists out k,
    request_entries txt read_variable ctx (S fuel) first None entries results
                    sent0 = Ret out
    /\ (k <= length entries)%nat
    /\ log out = (sent0 ++ map first (take k entries))%list
    /\ (forall l, ret out = PyList l -> k = length entries).
Proof.
  intros Hh Hretry.
  induction entries as [|e entries IH]; intros results sent0.
  - exists {| ret := PyList results; session_errors := None; log := sent0 |}, O.
    cbn. rewrite app_nil_r. auto.
  - cbn [request_entries].
    destruct (request_rounds_single e (first e) ss results sent0 fuel Hh Hretry)
      as (r & Hr & Hs).
    rewrite Hr. destruct r as [results' sent'|out]; cbn [entry_sent] in Hs.
    + destruct (IH results' sent') as (out & k & Hrun & Hk & Hlog & Hall).
      exists out, (S k). rewrite Hrun. split; [reflexivity|].
      cbn [length take map]. split; [lia|].
      split; [rewrite Hlog, Hs, <- app_assoc; reflexivity|].
      intros l Hl. f_equal. exact (Hall l Hl).
    + exists out, 1%nat. split; [reflexivity|]. cbn [length take map].
      split; [lia|]. split; [rewrite take_0; exact Hs|].
      intros l Hl. exfalso. clear IH. revert Hr Hl.
      cbn [request_rounds]. rewrite Hh, Hretry.
      destruct (__send_sync_pdu txt (S fuel) (Some ss) (Some (first e))
                  NO_RETRY_NOSUCH None sent0) as [o|s|s]; try discriminate.
      destruct (py_err o); [intros [= <-]; discriminate|].
      destruct (negb (status o =? STAT_SUCCESS));
        [intros [= <-]; discriminate|].
      destruct (response o); [|discriminate].
      destruct (inspect_vars read_variable ctx None e (variables n) true
                  results None) as [[nd rs] pd]. discriminate.
Qed.

(** A response without error status whose variables are all in scope, for
    every starting path: the records of all of them, path after path. *)
Lemma request_entries_records (first : op_entry -> netsnmp_pdu)
    (ss : netsnmp_session) (answers : op_entry -> list variable)
    (fuel : nat) (entries : list op_entry) :
  handle ctx = Some ss ->
  Forall (fun e =>
            (forall sent1, synch_response ss sent1 (first e)
                           = (STAT_SUCCESS, Some (ok_response (answers e))))
            /\ Forall (in_scope e) (answers e)) entries ->
  forall results sent0,
    request_entries txt read_variable ctx (S fuel) first None entries results
                    sent0
    = Ret {| ret := PyList
                      (results
                       ++ flat_map (fun e => records_of read_variable ctx e
                                                        (answers e)) entries);
             session_errors := None;
             log := (sent0 ++ map first entries)%list |}.
Proof.
  intros Hh Hall.
  induction entries as [|e entries IH]; intros results sent0.
  - cbn. rewrite !app_nil_r. reflexivity.
  - pose proof (Forall_inv Hall) as [Hx Hin]. apply Forall_inv_tail in Hall.
    cbn [request_entries].
    rewrite (request_rounds_noerror txt read_variable ctx None e fuel ss
               (first e) (ok_response (answers e)) results sent0 Hh
               (Hx sent0) eq_refl).
    cbn [variables ok_response].
    rewrite (inspect_vars_records read_variable ctx None e (answers e) true
               results None Hin).
    rewrite (IH Hall). cbn [flat_map map].
    rewrite <- !app_assoc. reflexivity.
Qed.

End FetchRuns.

(** X5: [netsnmp_get], [netsnmp_getnext] and [netsnmp_getbulk] with retry
    disabled never loop: for a batch that loads, each returns, and the
    requests it sent are the first requests of a prefix of the starting
    paths, one each and in order, of all of them when a list is
    returned. *)
Theorem fetch_one_request_per_path (txt : errtext) (m : mib)
    (junk : nat -> oid)
    (read_variable : variable -> op_entry -> Z -> Z -> option snmp_variable)
    (ctx : session_capsule_ctx) (ss : netsnmp_session)
    (varlist : list py_varbind) (entries : list op_entry)
    (nonrepeaters maxrepetitions : Z) (fuel : nat)
    (sent0 : list netsnmp_pdu) :
  handle ctx = Some ss ->
  retry_nosuch ctx = NO_RETRY_NOSUCH ->
  snmp_op_data_load m junk ctx varlist = Some (inr entries) ->
  let sends (run : run call_out) (first : op_entry -> netsnmp_pdu) :=
    exists out k,
      run = Ret out
      /\ (k <= length entries)%nat
      /\ log out = (sent0 ++ map first (take k entries))%list
      /\ (forall l, ret out = PyList l -> k = length entries) in
  sends (netsnmp_get txt m junk read_variable ctx (S fuel) varlist sent0)
        (first_request SNMP_MSG_GET)
  /\ sends (netsnmp_getnext txt m junk read_variable ctx (S fuel) varlist
                            sent0)
           (first_request SNMP_MSG_GETNEXT)
  /\ sends (netsnmp_getbulk txt m junk read_variable ctx (S fuel) varlist
                            nonrepeaters maxrepetitions sent0)
           (fun e => bulk_request nonrepeaters maxrepetitions (oid_arr e)
                                  (oid_arr_len e)).
Proof.
  intros Hh Hretry Hload sends.
  unfold sends, netsnmp_get, netsnmp_getnext, netsnmp_getbulk, fetch.
  rewrite Hload.
  split; [|split];
    apply (request_entries_single txt read_variable ctx _ ss fuel entries Hh
             Hretry [] sent0).
Qed.

Lemma fetch_one_request_per_path_witness :
  exists out k,
    netsnmp_get no_text empty_mib zero_junk type_formatter
                (session_of (answering_agent (ok_response [sys_descr])) 0 0) 1
                [varbind_of ".1.3.6.1.2.1.1" ""; varbind_of ".1.3.6.1.2.1.1" ""]
                [] = Ret out
    /\ (k <= 2)%nat
    /\ log out = ([] ++ map (first_request SNMP_MSG_GET)
                            (take k [system_entry; system_entry]))%list.
Proof.
  destruct (fetch_one_request_per_path no_text empty_mib zero_junk
              type_formatter
              (session_of (answering_agent (ok_response [sys_descr])) 0 0)
              (answering_agent (ok_response [sys_descr]))
              [varbind_of ".1.3.6.1.2.1.1" ""; varbind_of ".1.3.6.1.2.1.1" ""]
              [system_entry; system_entry] 0 0 0 [])
    as [(out & k & Hrun & Hk & Hlog & _) _].
  - reflexivity.
  - reflexivity.
  - vm_compute. reflexivity.
  - exists out, k. auto.
Defined.

(** X6: a bulk fetch in which every starting path is answered, without
    error status, by variables in its scope returns one record per
    variable, in response order within a path and in batch order across
    paths, after one request per path. *)
Theorem getbulk_records_in_order (txt : errtext) (m : mib)
    (junk : nat -> oid)
    (read_variable : variable -> op_entry -> Z -> Z -> option snmp_variable)
    (ctx : session_capsule_ctx) (ss : netsnmp_session)
    (varlist : list py_varbind) (entries : list op_entry)
    (answers : op_entry -> list variable)
    (nonrepeaters maxrepetitions : Z) (fuel : nat)
    (sent0 : list netsnmp_pdu) :
  handle ctx = Some ss ->
  snmp_op_data_load m junk ctx varlist = Some (inr entries) ->
  Forall (fun e =>
            (forall sent1,
               synch_response ss sent1
                 (bulk_request nonrepeaters maxrepetitions (oid_arr e)
                               (oid_arr_len e))
               = (STAT_SUCCESS, Some (ok_response (answers e))))
            /\ Forall (in_scope e) (answers e)) entries ->
  netsnmp_getbulk txt m junk read_variable ctx (S fuel) varlist nonrepeaters
                  maxrepetitions sent0
  = Ret {| ret := PyList
                    (flat_map (fun e => records_of read_variable ctx e
                                                   (answers e)) entries);
           session_errors := None;
           log := (sent0
                   ++ map (fun e => bulk_request nonrepeaters maxrepetitions
                                                 (oid_arr e) (oid_arr_len e))
                          entries)%list |}.
Proof.
  intros Hh Hload Hall. unfold netsnmp_getbulk, fetch. rewrite Hload.
  apply (request_entries_records txt read_variable ctx _ ss answers fuel
           entries Hh Hall [] sent0).
Qed.

Lemma getbulk_records_in_order_witness :
  netsnmp_getbulk no_text empty_mib zero_junk type_formatter
                  (session_of
                     (answering_agent (ok_response [sys_descr; sys_uptime]))
                     0 0)
                  1 [varbind_of ".1.3.6.1.2.1.1" ""] 0 10 []
  = Ret {| ret := PyList
                    (flat_map (fun e => records_of type_formatter
                                          (session_of
                                             (answering_agent
                                                (ok_response
                                                   [sys_descr; sys_uptime]))
                                             0 0)
                                          e [sys_descr; sys_uptime])
                              [system_entry]);
           session_errors := None;
           log := ([] ++ map (fun e => bulk_request 0 10 (oid_arr e)
                                                    (oid_arr_len e))
                             [system_entry])%list |}.
Proof.
  apply (getbulk_records_in_order no_text empty_mib zero_junk type_formatter
           (session_of (answering_agent (ok_response [sys_descr; sys_uptime]))
                       0 0)
           (answering_agent (ok_response [sys_descr; sys_uptime]))
           [varbind_of ".1.3.6.1.2.1.1" ""] [system_entry]
           (fun _ => [sys_descr; sys_uptime]) 0 10 0 []).
  - reflexivity.
  - vm_compute. reflexivity.
  - repeat constructor; try (vm_compute; discriminate);
      (intros [Hshort|Hdiff];
       [vm_compute in Hshort; discriminate
       |apply Hdiff; vm_compute; reflexivity]).
Defined.

(** X7: without a session handle every fetch and walk on a batch that
    loads returns [NULL] at once with no exception set: nothing is sent,
    and the bad-session message and code are what is written to the
    session object. *)
Theorem null_session_sends_nothing (txt : errtext) (m : mib)
    (junk : nat -> oid)
    (read_variable : variable -> op_entry -> Z -> Z -> option snmp_variable)
    (ctx : session_capsule_ctx) (varlist : list py_varbind) (e : op_entry)
    (entries : list op_entry) (nonrepeaters maxrepetitions : Z) (fuel : nat)
    (sent0 : list netsnmp_pdu) :
  handle ctx = None ->
  snmp_op_data_load m junk ctx varlist = Some (inr (e :: entries)) ->
  let refused :=
    Ret {| ret := PyNull;
           session_errors :=
             Some (snmp_api_errstring txt SNMPERR_BAD_SESSION, 0,
                   SNMPERR_BAD_SESSION);
           log := sent0 |} in
  netsnmp_get txt m junk read_variable ctx (S fuel) varlist sent0 = refused
  /\ netsnmp_getnext txt m junk read_variable ctx (S fuel) varlist sent0
     = refused
  /\ netsnmp_getbulk txt m junk read_variable ctx (S fuel) varlist
                     nonrepeaters maxrepetitions sent0 = refused
  /\ netsnmp_walk txt m junk read_variable ctx (S fuel) varlist sent0
     = refused
  /\ netsnmp_bulkwalk txt m junk read_variable ctx (S fuel) varlist
                      nonrepeaters maxrepetitions sent0 = refused.
Proof.
  intros Hh Hload refused.
  repeat split;
    apply (fetch_null_session txt m junk read_variable ctx _ _ varlist e
             entries fuel sent0 Hh Hload).
Qed.

Lemma null_session_sends_nothing_witness :
  netsnmp_walk no_text empty_mib zero_junk type_formatter
               {| handle := None; getlabel_flag := 0; sprintval_flag := 0;
                  best_guess := 0; retry_nosuch := 0 |}
               1 [varbind_of ".1.3.6.1.2.1.1" ""] []
  = Ret {| ret := PyNull;
           session_errors := Some ("", 0, SNMPERR_BAD_SESSION);
           log := [] |}.
Proof.
  apply (null_session_sends_nothing no_text empty_mib zero_junk type_formatter
           {| handle := None; getlabel_flag := 0; sprintval_flag := 0;
              best_guess := 0; retry_nosuch := 0 |}
           [varbind_of ".1.3.6.1.2.1.1" ""] system_entry [] 0 0 0 []).
  - reflexivity.
  - vm_compute. reflexivity.
Defined.

(** X8: in a bulk walk, the reading of a response stops at the first
    variable that is an end-of-view marker, a no-such marker or outside
    the subtree: the variables before it give one record each, a no-such
    marker gives one placeholder, whatever follows is discarded, and the
    starting path is finished after that one request. *)
Theorem bulkwalk_stops_at_first_boundary (txt : errtext) (m : mib)
    (junk : nat -> oid)
    (read_variable : variable -> op_entry -> Z -> Z -> option snmp_variable)
    (ctx : session_capsule_ctx) (ss : netsnmp_session) (vb : py_varbind)
    (e : op_entry) (r : netsnmp_pdu) (vs : list variable) (v : variable)
    (rest : list variable) (nonrepeaters maxrepetitions : Z) (fuel : nat)
    (sent0 : list netsnmp_pdu) :
  handle ctx = Some ss ->
  snmp_op_data_load m junk ctx [vb] = Some (inr [e]) ->
  synch_response ss sent0
    (bulk_request nonrepeaters maxrepetitions (oid_arr e) (oid_arr_len e))
  = (STAT_SUCCESS, Some r) ->
  errstat r = SNMP_ERR_NOERROR ->
  variables r = (vs ++ v :: rest)%list ->
  Forall (in_scope e) vs ->
  stops_walk e v ->
  netsnmp_bulkwalk txt m junk read_variable ctx (S fuel) [vb] nonrepeaters
                   maxrepetitions sent0
  = Ret {| ret := PyList (records_of read_variable ctx e vs
                          ++ marker_records e v);
           session_errors := None;
           log := (sent0
                   ++ [bulk_request nonrepeaters maxrepetitions (oid_arr e)
                                    (oid_arr_len e)])%list |}.
Proof.
  intros Hh Hload Hx Herr Hvars Hall Hstop.
  unfold netsnmp_bulkwalk, fetch. rewrite Hload. cbn [request_entries].
  rewrite (request_rounds_noerror txt read_variable ctx _ e fuel ss _ r []
             sent0 Hh Hx Herr).
  rewrite Hvars.
  rewrite (inspect_vars_stops read_variable ctx _ e v rest vs true [] None
             Hall Hstop).
  reflexivity.
Qed.

Lemma bulkwalk_stops_at_first_boundary_witness :
  netsnmp_bulkwalk no_text empty_mib zero_junk type_formatter
                   (session_of
                      (answering_agent
                         (ok_response [sys_descr; if_number; sys_uptime]))
                      0 0)
                   1 [varbind_of ".1.3.6.1.2.1.1" ""] 0 10 []
  = Ret {| ret := PyList
                    (records_of type_formatter
                       (session_of
                          (answering_agent
                             (ok_response [sys_descr; if_number; sys_uptime]))
                          0 0)
                       system_entry [sys_descr]
                     ++ marker_records system_entry if_number);
           session_errors := None;
           log := ([] ++ [bulk_request 0 10 (oid_arr system_entry)
                                       (oid_arr_len system_entry)])%list |}.
Proof.
  apply (bulkwalk_stops_at_first_boundary no_text empty_mib zero_junk
           type_formatter
           (session_of
              (answering_agent (ok_response [sys_descr; if_number; sys_uptime]))
              0 0)
           (answering_agent (ok_response [sys_descr; if_number; sys_uptime]))
           (varbind_of ".1.3.6.1.2.1.1" "") system_entry
           (ok_response [sys_descr; if_number; sys_uptime])
           [sys_descr] if_number [sys_uptime] 0 10 0 []).
  - reflexivity.
  - vm_compute. reflexivity.
  - reflexivity.
  - reflexivity.
  - reflexivity.
  - repeat constructor; try (vm_compute; discriminate);
      (intros [Hshort|Hdiff];
       [vm_compute in Hshort; discriminate
       |apply Hdiff; vm_compute; reflexivity]).
  - right. right. right. right. vm_compute. discriminate.
Defined.

Section WalkRuns.

Variable txt : errtext.
Variable read_variable :
  variable -> op_entry -> Z -> Z -> option snmp_variable.
Variable ctx : session_capsule_ctx.
Variable ss : netsnmp_session.
Variable mk : variable -> netsnmp_pdu.
Variable e : op_entry.
Variable final_vs : list variable.
Variable stop : variable.
Variable rest : list variable.

Hypothesis Hhandle : handle ctx = Some ss.
Hypothesis Hfinal : Forall (in_scope e) final_vs.
Hypothesis Hstop : stops_walk e stop.

(** The loop over the rounds of one starting path, against an agent that
    answers round by round. *)
Lemma request_rounds_chain (rs : list (list variable)) :
  forall p results sent0 fuel,
    (length rs < fuel)%nat ->
    Forall (Forall (in_scope e)) rs ->
    walk_chain ss mk p rs (final_vs ++ stop :: rest) ->
    request_rounds txt read_variable ctx fuel (Some mk) e (Some p) results
                   sent0
    = Ret (EntryDone
             (results ++ records_of read_variable ctx e (concat rs)
              ++ records_of read_variable ctx e final_vs
              ++ marker_records e stop)
             (sent0 ++ p :: chain_requests mk rs)).
Proof.
  induction rs as [|r rs IH]; intros p results sent0 fuel Hfuel Hall Hchain;
    (destruct fuel as [|fuel]; [cbn in Hfuel; lia|]).
  - cbn [walk_chain] in Hchain.
    rewrite (request_rounds_noerror txt read_variable ctx (Some mk) e fuel ss p
               (ok_response (final_vs ++ stop :: rest)) results sent0 Hhandle
               (Hchain sent0) eq_refl).
    cbn [variables ok_response].
    rewrite (inspect_vars_stops read_variable ctx (Some mk) e stop rest
               final_vs true results None Hfinal Hstop).
    reflexivity.
  - cbn [walk_chain] in Hchain. destruct Hchain as [Hx Hnext].
    pose proof (Forall_inv Hall) as Hr. apply Forall_inv_tail in Hall.
    rewrite (request_rounds_noerror txt read_variable ctx (Some mk) e fuel ss p
               (ok_response r) results sent0 Hhandle (Hx sent0) eq_refl).
    cbn [variables ok_response].
    rewrite (inspect_vars_records read_variable ctx (Some mk) e r true results
               None Hr).
    destruct (last r) as [vN|] eqn:Hlast; [|contradiction].
    rewrite (IH (mk vN) _ (sent0 ++ [p])%list fuel)
      by (cbn in Hfuel; auto; lia).
    unfold chain_requests, records_of. cbn [concat omap list_omap].
    rewrite Hlast. cbn [map]. rewrite omap_app, <- !app_assoc.
    reflexivity.
Qed.

End WalkRuns.

(** X9: a single-step walk of one starting path against an agent that
    answers round by round with variables of the subtree and then with a
    response holding a boundary variable runs to its end: one request per
    response, each named by the last variable of the response before it,
    and one record per variable read before the boundary, in order. *)
Theorem walk_follows_chain (txt : errtext) (m : mib) (junk : nat -> oid)
    (read_variable : variable -> op_entry -> Z -> Z -> option snmp_variable)
    (ctx : session_capsule_ctx) (ss : netsnmp_session) (vb : py_varbind)
    (e : op_entry) (rs : list (list variable)) (final_vs : list variable)
    (stop : variable) (rest : list variable) (fuel : nat)
    (sent0 : list netsnmp_pdu) :
  handle ctx = Some ss ->
  snmp_op_data_load m junk ctx [vb] = Some (inr [e]) ->
  Forall (Forall (in_scope e)) rs ->
  Forall (in_scope e) final_vs ->
  stops_walk e stop ->
  walk_chain ss next_getnext (first_request SNMP_MSG_GETNEXT e) rs
             (final_vs ++ stop :: rest) ->
  (length rs < fuel)%nat ->
  netsnmp_walk txt m junk read_variable ctx fuel [vb] sent0
  = Ret {| ret := PyList (records_of read_variable ctx e (concat rs)
                          ++ records_of read_variable ctx e final_vs
                          ++ marker_records e stop);
           session_errors := None;
           log := (sent0 ++ first_request SNMP_MSG_GETNEXT e
                         :: chain_requests next_getnext rs)%list |}.
Proof.
  intros Hh Hload Hall Hfinal Hstop Hchain Hfuel.
  unfold netsnmp_walk, fetch. rewrite Hload. cbn [request_entries].
  rewrite (request_rounds_chain txt read_variable ctx ss next_getnext e
             final_vs stop rest Hh Hfinal Hstop rs _ [] sent0 fuel Hfuel Hall
             Hchain).
  reflexivity.
Qed.

Lemma walk_follows_chain_witness :
  netsnmp_walk no_text empty_mib zero_junk type_formatter
               (session_of system_agent 0 0) 3
               [varbind_of ".1.3.6.1.2.1.1" ""] []
  = Ret {| ret := PyList
                    (records_of type_formatter (session_of system_agent 0 0)
                                system_entry
                                (concat [[sys_descr]; [sys_uptime]])
                     ++ records_of type_formatter
                                   (session_of system_agent 0 0)
                                   system_entry []
                     ++ marker_records system_entry if_number);
           session_errors := None;
           log := ([] ++ first_request SNMP_MSG_GETNEXT system_entry
                      :: chain_requests next_getnext
                                        [[sys_descr]; [sys_uptime]])%list |}.
Proof.
  apply (walk_follows_chain no_text empty_mib zero_junk type_formatter
           (session_of system_agent 0 0) system_agent
           (varbind_of ".1.3.6.1.2.1.1" "") system_entry
           [[sys_descr]; [sys_uptime]] [] if_number [] 3 []).
  - reflexivity.
  - vm_compute. reflexivity.
  - repeat constructor; try (vm_compute; discriminate);
      (intros [Hshort|Hdiff];
       [vm_compute in Hshort; discriminate
       |apply Hdiff; vm_compute; reflexivity]).
  - constructor.
  - right. right. right. right. vm_compute. discriminate.
  - simpl. repeat split; intros; reflexivity.
  - simpl. lia.
Defined.

(** X10: a bulk walk of one starting path against an agent that answers
    round by round runs to its end in the same way: each bulk request
    after the first is named by the last variable of the response before
    it and carries the caller's non-repeaters and max-repetitions, and the
    records are those of all the variables read before the boundary. *)
Theorem bulkwalk_follows_chain (txt : errtext) (m : mib) (junk : nat -> oid)
    (read_variable : variable -> op_entry -> Z -> Z -> option snmp_variable)
    (ctx : session_capsule_ctx) (ss : netsnmp_session) (vb : py_varbind)
    (e : op_entry) (rs : list (list variable)) (final_vs : list variable)
    (stop : variable) (rest : list variable)
    (nonrepeaters maxrepetitions : Z) (fuel : nat)
    (sent0 : list netsnmp_pdu) :
  handle ctx = Some ss ->
  snmp_op_data_load m junk ctx [vb] = Some (inr [e]) ->
  Forall (Forall (in_scope e)) rs ->
  Forall (in_scope e) final_vs ->
  stops_walk e stop ->
  walk_chain ss (next_getbulk nonrepeaters maxrepetitions)
             (bulk_request nonrepeaters maxrepetitions (oid_arr e)
                           (oid_arr_len e))
             rs (final_vs ++ stop :: rest) ->
  (length rs < fuel)%nat ->
  netsnmp_bulkwalk txt m junk read_variable ctx fuel [vb] nonrepeaters
                   maxrepetitions sent0
  = Ret {| ret := PyList (records_of read_variable ctx e (concat rs)
                          ++ records_of read_variable ctx e final_vs
                          ++ marker_records e stop);
           session_errors := None;
           log := (sent0
                   ++ bulk_request nonrepeaters maxrepetitions (oid_arr e)
                                   (oid_arr_len e)
                   :: chain_requests
                        (next_getbulk nonrepeaters maxrepetitions) rs)%list |}.
Proof.
  intros Hh Hload Hall Hfinal Hstop Hchain Hfuel.
  unfold netsnmp_bulkwalk, fetch. rewrite Hload. cbn [request_entries].
  rewrite (request_rounds_chain txt read_variable ctx ss
             (next_getbulk nonrepeaters maxrepetitions) e final_vs stop rest
             Hh Hfinal Hstop rs _ [] sent0 fuel Hfuel Hall Hchain).
  reflexivity.
Qed.

Lemma bulkwalk_follows_chain_witness :
  netsnmp_bulkwalk no_text empty_mib zero_junk type_formatter
                   (session_of system_agent 0 0) 3
                   [varbind_of ".1.3.6.1.2.1.1" ""] 0 10 []
  = Ret {| ret := PyList
                    (records_of type_formatter (session_of system_agent 0 0)
                                system_entry
                                (concat [[sys_descr]; [sys_uptime]])
                     ++ records_of type_formatter
                                   (session_of system_agent 0 0)
                                   system_entry []
                     ++ marker_records system_entry if_number);
           session_errors := None;
           log := ([] ++ bulk_request 0 10 (oid_arr system_entry)
                                      (oid_arr_len system_entry)
                      :: chain_requests (next_getbulk 0 10)
                                        [[sys_descr]; [sys_uptime]])%list |}.
Proof.
  apply (bulkwalk_follows_chain no_text empty_mib zero_junk type_formatter
           (session_of system_agent 0 0) system_agent
           (varbind_of ".1.3.6.1.2.1.1" "") system_entry
           [[sys_descr]; [sys_uptime]] [] if_number [] 0 10 3 []).
  - reflexivity.
  - vm_compute. reflexivity.
  - repeat constructor; try (vm_compute; discriminate);
      (intros [Hshort|Hdiff];
       [vm_compute in Hshort; discriminate
       |apply Hdiff; vm_compute; reflexivity]).
  - constructor.
  - right. right. right. right. vm_compute. discriminate.
  - simpl. repeat split; intros; reflexivity.
  - simpl. lia.
Defined.

(** ** More on the type translator *)

Lemma switch_type_in (cases : list (Z * Z)) (type t : Z) :
  switch_type cases type = Some t -> In t (map snd cases).
Proof.
  induction cases as [|[k u] rest IH]; simpl.
  - discriminate.
  - destruct (type =? k).
    + intros [= <-]. left. reflexivity.
    + intros H. right. exact (IH H).
Qed.

(** X11: every code [__translate_asn_type] produces is either
    [TYPE_OTHER], for which [__get_type_str] fails and leaves an empty
    name, or a code with a display name that [__translate_appl_type]
    reads back as that same code. *)
Theorem asn_type_named_or_other (type : Z) :
  let t := __translate_asn_type type in
  (t = TYPE_OTHER /\ __get_type_str t = (FAILURE, ""))
  \/ (exists name,
        __get_type_str t = (SUCCESS, name)
        /\ __translate_appl_type (Some name) = t).
Proof.
  unfold __translate_asn_type.
  destruct (switch_type asn_types type) as [t|] eqn:Hcase; cbn [default].
  - right. apply switch_type_in in Hcase. simpl in Hcase.
    repeat (destruct Hcase as [<-|Hcase];
            [eexists; split; [reflexivity | vm_compute; reflexivity]|]).
    contradiction.
  - left. split; reflexivity.
Qed.

Lemma tolower_idem (c : ascii) : tolower (tolower c) = tolower c.
Proof.
  destruct c as [[] [] [] [] [] [] [] []]; reflexivity.
Qed.

Lemma peek_lowercase (s : string) : peek (lowercase s) = tolower (peek s).
Proof.
  destruct s; reflexivity.
Qed.

Lemma strncasecmp_lowercase (n : nat) :
  forall s t, strncasecmp (lowercase s) t n = strncasecmp s t n.
Proof.
  induction n as [|n IH]; intros s t; [destruct s; reflexivity|].
  destruct s as [|x s], t as [|y t]; cbn [strncasecmp lowercase peek];
    rewrite ?tolower_idem; try reflexivity.
  rewrite IH. reflexivity.
Qed.

Lemma length_lowercase (s : string) :
  String.length (lowercase s) = String.length s.
Proof.
  induction s as [|c s IH]; cbn; [reflexivity|]. rewrite IH. reflexivity.
Qed.

Lemma strcasecmp_lowercase (s t : string) :
  strcasecmp (lowercase s) t = strcasecmp s t.
Proof.
  unfold strcasecmp. rewrite length_lowercase. apply strncasecmp_lowercase.
Qed.

(** X12: a type specifier of two or more characters is read without
    regard to the case of its letters, while a single capital letter is
    never a type. *)
Theorem type_specifier_case (s : string) (c : ascii) :
  (2 <= String.length s)%nat ->
  __translate_appl_type (Some (lowercase s)) = __translate_appl_type (Some s)
  /\ (is_upper c = true ->
      __translate_appl_type (Some (String c "")) = TYPE_UNKNOWN).
Proof.
  intros Hlen. split.
  - destruct s as [|a [|b r]]; [cbn in Hlen; lia | cbn in Hlen; lia |].
    unfold __translate_appl_type. cbn [lowercase]. cbv beta iota.
    change (String (tolower a) (String (tolower b) (lowercase r)))
      with (lowercase (String a (String b r))).
    rewrite !strncasecmp_lowercase, strcasecmp_lowercase. reflexivity.
  - destruct c as [[] [] [] [] [] [] [] []]; intros Hup;
      try discriminate Hup; reflexivity.
Qed.

Lemma type_specifier_case_witness :
  __translate_appl_type (Some (lowercase "Gauge32"))
  = __translate_appl_type (Some "Gauge32")
  /\ (is_upper "I" = true -> __translate_appl_type (Some "I") = TYPE_UNKNOWN).
Proof.
  apply (type_specifier_case "Gauge32" "I"). simpl. lia.
Defined.

Lemma strncasecmp_mismatch (x y : ascii) (a b : string) (n : nat) :
  Ascii.eqb (tolower x) (tolower y) = false ->
  is_zero (strncasecmp (String x a) (String y b) (S n)) = false.
Proof.
  intros Hne. cbn [strncasecmp]. rewrite Hne. unfold is_zero, code.
  apply Z.eqb_neq. intros Heq.
  assert (nat_of_ascii (tolower x) = nat_of_ascii (tolower y)) as Hn by lia.
  apply (f_equal ascii_of_nat) in Hn. rewrite !ascii_nat_embedding in Hn.
  rewrite Hn, Ascii.eqb_refl in Hne. discriminate.
Qed.

Lemma strncasecmp_head (x y : ascii) (a b : string) (n : nat) :
  strncasecmp (String x a) (String y b) (S n) = 0 ->
  tolower x = tolower y.
Proof.
  intros H. destruct (Ascii.eqb (tolower x) (tolower y)) eqn:Heq.
  - apply Ascii.eqb_eq. exact Heq.
  - pose proof (strncasecmp_mismatch x y a b n Heq) as Hz.
    unfold is_zero in Hz. rewrite H in Hz. discriminate.
Qed.

(** X13: every specifier that starts with the letters [COU], in either
    case, is read as [TYPE_COUNTER64] unless it is the word [COUNTER]
    itself: the test for [COUNTER] compares whole strings and the test for
    [COUNTER64] three characters. *)
Theorem counter_prefix_is_counter64 (s : string) :
  strncasecmp s "COUNTER64" 3 = 0 ->
  strcasecmp s "COUNTER" <> 0 ->
  __translate_appl_type (Some s) = TYPE_COUNTER64.
Proof.
  intros Hcou Hword.
  destruct s as [|a [|b r]].
  - vm_compute in Hcou. discriminate.
  - pose proof (strncasecmp_head _ _ _ _ _ Hcou) as Ha.
    cbn [strncasecmp] in Hcou. rewrite Ha, Ascii.eqb_refl in Hcou.
    vm_compute in Hcou. discriminate.
  - pose proof (strncasecmp_head _ _ _ _ _ Hcou) as Ha.
    unfold __translate_appl_type. cbv beta iota.
    rewrite !strncasecmp_mismatch by (rewrite Ha; reflexivity).
    assert (is_zero (strcasecmp (String a (String b r)) "COUNTER") = false)
      as -> by (apply Z.eqb_neq; exact Hword).
    rewrite Hcou. reflexivity.
Qed.

Lemma counter_prefix_is_counter64_witness :
  __translate_appl_type (Some "Counter32") = TYPE_COUNTER64.
Proof.
  apply (counter_prefix_is_counter64 "Counter32").
  - reflexivity.
  - vm_compute. discriminate.
Defined.

(** ** Printing and scanning numeric object identifiers *)

Lemma digit_char_facts (d : Z) :
  0 <= d < 10 ->
  is_digit (digit_char d) = true
  /\ code (digit_char d) = 48 + d
  /\ is_dot (digit_char d) = false
  /\ isalpha (digit_char d) = false.
Proof.
  intros Hd.
  assert (d = 0 \/ d = 1 \/ d = 2 \/ d = 3 \/ d = 4 \/ d = 5 \/ d = 6
          \/ d = 7 \/ d = 8 \/ d = 9) as Hcases by lia.
  repeat (destruct Hcases as [->|Hcases]; [vm_compute; auto|]).
  subst d. vm_compute. auto.
Qed.

Lemma lu_digits_app (fuel : nat) :
  forall n acc1 acc2,
    (lu_digits fuel n acc1 ++ acc2)%string = lu_digits fuel n (acc1 ++ acc2).
Proof.
  induction fuel as [|fuel IH]; intros n acc1 acc2; cbn [lu_digits].
  - reflexivity.
  - destruct (n <? 10); [reflexivity|]. rewrite IH. reflexivity.
Qed.

Lemma digits_digit (d : Z) (s : string) (a : Z) :
  0 <= d < 10 ->
  digits (String (digit_char d) s) (Some a) = digits s (Some (10 * a + d)).
Proof.
  intros Hd. destruct (digit_char_facts d Hd) as (Hdig & Hcode & _).
  cbn [digits]. rewrite Hdig, Hcode. cbv [default from_option id].
  f_equal. f_equal. lia.
Qed.

Lemma digits_lu_digits (fuel : nat) :
  forall n acc,
    0 <= n < 10 ^ Z.of_nat (S fuel) ->
    digits (lu_digits (S fuel) n acc) None = digits acc (Some n).
Proof.
  induction fuel as [|fuel IH]; intros n acc Hn.
  - change (10 ^ Z.of_nat 1) with 10 in Hn.
    cbn [lu_digits]. assert (n mod 10 = n) as Hmod by (apply Z.mod_small; lia).
    destruct (digit_char_facts n ltac:(lia)) as (Hdig & Hcode & _).
    rewrite Hmod.
    destruct (n <? 10); cbn [digits]; rewrite Hdig, Hcode;
      cbv [default from_option id]; f_equal; f_equal; lia.
  - remember (S fuel) as f eqn:Hf. cbn [lu_digits].
    pose proof (Z.mod_pos_bound n 10 ltac:(lia)) as Hmod.
    destruct (Z.ltb_spec n 10) as [Hlt|Hge].
    + destruct (digit_char_facts (n mod 10) Hmod) as (Hdig & Hcode & _).
      cbn [digits]. rewrite Hdig, Hcode. cbv [default from_option id].
      rewrite Z.mod_small by lia. f_equal. f_equal. lia.
    + subst f. rewrite IH.
      * rewrite digits_digit by exact Hmod. f_equal. f_equal.
        pose proof (Z.div_mod n 10 ltac:(lia)). lia.
      * replace (Z.of_nat (S (S fuel))) with (Z.succ (Z.of_nat (S fuel)))
          in Hn by lia.
        rewrite Z.pow_succ_r in Hn by lia.
        split; [apply Z.div_pos; lia|].
        apply Z.div_lt_upper_bound; lia.
Qed.

Lemma lu_digits_head (fuel : nat) :
  forall n acc,
    exists c r, lu_digits (S fuel) n acc = String c r /\ is_digit c = true.
Proof.
  induction fuel as [|fuel IH]; intros n acc.
  - pose proof (Z.mod_pos_bound n 10 ltac:(lia)) as Hmod.
    destruct (digit_char_facts (n mod 10) Hmod) as (Hdig & _).
    cbn [lu_digits]. destruct (n <? 10); eauto.
  - pose proof (Z.mod_pos_bound n 10 ltac:(lia)) as Hmod.
    destruct (digit_char_facts (n mod 10) Hmod) as (Hdig & _).
    remember (S fuel) as f eqn:Hf. cbn [lu_digits].
    destruct (n <? 10); [eauto|]. subst f. apply IH.
Qed.

Lemma sscanf_lu_digit_head (c : ascii) (r : string) :
  is_digit c = true ->
  sscanf_lu (String c r)
  = match digits (String c r) None with
    | None => None
    | Some v => if ULONG_MAX <? v then Some ULONG_MAX else Some v
    end.
Proof.
  destruct c as [[] [] [] [] [] [] [] []]; intros Hdig;
    try discriminate Hdig; reflexivity.
Qed.

Lemma sscanf_lu_sprintf (x : Z) (tail : string) :
  digits tail (Some (to_ulong x)) = Some (to_ulong x) ->
  sscanf_lu (lu_digits 20 (to_ulong x) tail) = Some (to_ulong x).
Proof.
  intros Htail.
  assert (0 <= to_ulong x < 2 ^ 64) as Hx
    by (unfold to_ulong; apply Z.mod_pos_bound; lia).
  destruct (lu_digits_head 19 (to_ulong x) tail) as (c & r & Heq & Hdig).
  rewrite Heq, (sscanf_lu_digit_head c r Hdig), <- Heq.
  rewrite digits_lu_digits, Htail.
  - destruct (Z.ltb_spec ULONG_MAX (to_ulong x)) as [Hbig|_];
      [unfold ULONG_MAX in Hbig; lia | reflexivity].
  - change (10 ^ Z.of_nat 20) with 100000000000000000000.
    change (2 ^ 64) with 18446744073709551616 in Hx. lia.
Qed.

Lemma scan_lu_digits (fuel : nat) :
  forall n acc cp objid len,
    isalpha (peek acc) = false ->
    scan_components (lu_digits fuel n acc) cp objid len
    = scan_components acc cp objid len.
Proof.
  induction fuel as [|fuel IH]; intros n acc cp objid len Hacc;
    cbn [lu_digits]; [reflexivity|].
  pose proof (Z.mod_pos_bound n 10 ltac:(lia)) as Hmod.
  destruct (digit_char_facts (n mod 10) Hmod) as (_ & _ & Hdot & Halpha).
  assert (scan_components (String (digit_char (n mod 10)) acc) cp objid len
          = scan_components acc cp objid len) as Hstep
    by (cbn [scan_components]; rewrite Hdot, Hacc; reflexivity).
  destruct (n <? 10); [exact Hstep|].
  rewrite IH by exact Halpha. exact Hstep.
Qed.

Lemma take_S_insert {A : Type} (l : list A) (i : nat) (x : A) :
  (i < length l)%nat ->
  take (S i) (<[i:=x]> l) = (take i l ++ [x])%list.
Proof.
  intros Hi.
  rewrite (take_S_r _ _ x) by (apply list_lookup_insert_eq; exact Hi).
  rewrite take_insert_ge by lia. reflexivity.
Qed.

(** The scanner on the text of [x :: xs], from slot [k] on. *)
Lemma scan_sprint (xs : list oid) :
  forall x objid k,
    (k + S (length xs) <= length objid)%nat ->
    scan_components (lu_digits 20 (to_ulong x) (sprint_components xs))
                    (lu_digits 20 (to_ulong x) (sprint_components xs))
                    objid (Z.of_nat k)
    = Some (SUCCESS,
            (take k objid ++ map to_ulong (x :: xs)
             ++ drop (k + S (length xs)) objid)%list,
            Z.of_nat (k + S (length xs))).
Proof.
  induction xs as [|y ys IH]; intros x objid k Hk.
  - cbn [sprint_components length] in *.
    rewrite scan_lu_digits by reflexivity. cbn [scan_components].
    rewrite sscanf_lu_sprintf by reflexivity.
    unfold store.
    destruct (Z.leb_spec 0 (Z.of_nat k)); [|lia].
    destruct (Z.ltb_spec (Z.of_nat k) (Z.of_nat (length objid))); [|lia].
    cbn [andb mbind option_bind]. rewrite Nat2Z.id.
    rewrite insert_take_drop by lia. cbn [map app].
    replace (k + 1)%nat with (S k) by lia.
    replace (Z.of_nat k + 1) with (Z.of_nat (S k)) by lia. reflexivity.
  - cbn [sprint_components length] in *.
    unfold sprintf_lu. rewrite lu_digits_app. cbn [String.append].
    set (t := lu_digits 20 (to_ulong y) (sprint_components ys)) in *.
    rewrite scan_lu_digits by reflexivity.
    cbn [scan_components]. change (is_dot ".") with true. cbv beta iota.
    rewrite sscanf_lu_sprintf by reflexivity.
    unfold store at 1.
    destruct (Z.leb_spec 0 (Z.of_nat k)); [|lia].
    destruct (Z.ltb_spec (Z.of_nat k) (Z.of_nat (length objid))); [|lia].
    cbn [andb mbind option_bind]. rewrite Nat2Z.id.
    replace (Z.of_nat k + 1) with (Z.of_nat (S k)) by lia.
    subst t. rewrite IH by (rewrite length_insert; lia).
    rewrite take_S_insert by lia.
    rewrite drop_insert_lt by lia.
    cbn [map]. rewrite <- !app_assoc. cbn [app].
    replace (S k + S (length ys))%nat with (k + S (S (length ys)))%nat by lia.
    reflexivity.
Qed.

(** X14: what [__sprint_num_objid] prints, [__scan_num_objid] reads back:
    for an identifier of at least one sub-identifier that fits the buffer
    the scan succeeds, reports the same length and leaves the
    sub-identifiers, as unsigned long values, at the front of the buffer
    and the rest of the buffer as it was. *)
Theorem sprint_scan_round_trip (objid buf : list oid) (len : Z) :
  0 < len <= Z.of_nat (length objid) ->
  len <= Z.of_nat (length buf) ->
  __scan_num_objid (snd (__sprint_num_objid objid len)) buf
  = Some (SUCCESS,
          (map to_ulong (take (Z.to_nat len) objid)
           ++ drop (Z.to_nat len) buf)%list,
          len).
Proof.
  intros Hlen Hbuf. unfold __sprint_num_objid, __scan_num_objid. cbn [snd].
  assert (length (take (Z.to_nat len) objid) = Z.to_nat len) as Htake
    by (rewrite length_take; lia).
  destruct (take (Z.to_nat len) objid) as [|x xs] eqn:Hxs;
    [cbn in Htake; lia|].
  cbn [sprint_components skip_leading_dot]. change (is_dot ".") with true.
  cbv beta iota. unfold sprintf_lu. rewrite lu_digits_app.
  change ("" +:+ sprint_components xs) with (sprint_components xs).
  cbn [length] in *. change 0 with (Z.of_nat 0).
  rewrite scan_sprint by (cbn; lia).
  cbn [take app Nat.add]. rewrite <- Htake.
  repeat f_equal. lia.
Qed.

Lemma sprint_scan_round_trip_witness :
  __scan_num_objid (snd (__sprint_num_objid [1; 3; 6; 1; 4; 1; 8072] 7))
                   (replicate 128 0)
  = Some (SUCCESS,
          (map to_ulong (take (Z.to_nat 7) [1; 3; 6; 1; 4; 1; 8072])
           ++ drop (Z.to_nat 7) (replicate 128 0))%list,
          7).
Proof.
  apply (sprint_scan_round_trip [1; 3; 6; 1; 4; 1; 8072] (replicate 128 0) 7).
  - simpl. lia.
  - simpl. lia.
Defined.

Lemma no_alpha_cons (c : ascii) (s : string) :
  no_alpha (String c s) = 1 -> isalpha c = false /\ no_alpha s = 1.
Proof.
  cbn [no_alpha]. destruct (isalpha c); [discriminate|auto].
Qed.

Lemma no_alpha_peek (s : string) : no_alpha s = 1 -> isalpha (peek s) = false.
Proof.
  destruct s as [|c s]; [reflexivity|].
  intros H. apply no_alpha_cons in H. exact (proj1 H).
Qed.

Lemma scan_components_no_alpha (buf : string) :
  forall cp objid len arr l,
    no_alpha buf = 1 ->
    scan_components buf cp objid len <> Some (FAILURE, arr, l).
Proof.
  induction buf as [|c rest IH]; intros cp objid len arr l Hnum;
    cbn [scan_components].
  - destruct (store objid len (sscanf_lu cp)); cbn; discriminate.
  - apply no_alpha_cons in Hnum. destruct Hnum as [_ Hrest].
    destruct (is_dot c).
    + destruct (store objid len (sscanf_lu cp)); cbn;
        [apply IH; exact Hrest | discriminate].
    + rewrite (no_alpha_peek rest Hrest). apply IH. exact Hrest.
Qed.

(** X15: [__scan_num_objid] never reports failure on a text that
    [__is_numeric_oid] accepts, and it still does not when any character,
    a letter included, is put in front of such a text: the scanner looks
    for a letter only at the character that follows the one it is at. *)
Theorem scan_accepts_numeric (s : string) (c : ascii) (buf : list oid)
    (arr : list oid) (l : Z) :
  __is_numeric_oid (Some s) = 1 ->
  __scan_num_objid s buf <> Some (FAILURE, arr, l)
  /\ __scan_num_objid (String c s) buf <> Some (FAILURE, arr, l).
Proof.
  cbn [__is_numeric_oid]. intros Hnum. unfold __scan_num_objid. split.
  - apply scan_components_no_alpha.
    destruct s as [|d s]; [reflexivity|]. cbn [skip_leading_dot].
    destruct (is_dot d); [|exact Hnum].
    apply no_alpha_cons in Hnum. exact (proj2 Hnum).
  - cbn [skip_leading_dot]. destruct (is_dot c) eqn:Hdot.
    + apply scan_components_no_alpha. exact Hnum.
    + cbn [scan_components]. rewrite Hdot, (no_alpha_peek s Hnum).
      apply scan_components_no_alpha. exact Hnum.
Qed.

Lemma scan_accepts_numeric_witness :
  __scan_num_objid "1.3.6" (replicate 128 0)
  <> Some (FAILURE, replicate 128 0, 0)
  /\ __scan_num_objid "x1.3.6" (replicate 128 0)
     <> Some (FAILURE, replicate 128 0, 0).
Proof.
  apply (scan_accepts_numeric "1.3.6" "x" (replicate 128 0)
           (replicate 128 0) 0).
  reflexivity.
Defined.

(** ** More on the resolver *)

Lemma strchr_sprint (x : oid) (xs : list oid) :
  strchr (sprint_components (x :: xs)) "." = true.
Proof.
  reflexivity.
Qed.

Lemma length_fresh_oid_buf (junk : nat -> oid) :
  Z.of_nat (length (fresh_oid_buf junk)) = 128.
Proof.
  unfold fresh_oid_buf. rewrite length_map, length_seq. reflexivity.
Qed.

(** X16: a tag printed by [__sprint_num_objid] resolves to the numbers it
    was printed from in every mode: the searches by name are not
    consulted, only [get_tree] is, for the node and the type, and with no
    instance the path and its length are those of the printed
    identifier. *)
Theorem printed_tag_resolves_literally (m : mib) (junk : nat -> oid)
    (objid oid_arr : list oid) (len best_guess : Z) (iid : option string) :
  0 < len <= Z.of_nat (length objid) ->
  len <= MAX_OID_LEN ->
  len <= Z.of_nat (length oid_arr) ->
  iid = None \/ iid = Some "" ->
  let name := map to_ulong (take (Z.to_nat len) objid) in
  let newname := (name ++ drop (Z.to_nat len) (fresh_oid_buf junk))%list in
  __tag2oid m junk (Some (snd (__sprint_num_objid objid len))) iid oid_arr
            best_guess
  = Some (get_tree m newname len,
          (name ++ drop (Z.to_nat len) oid_arr)%list,
          len,
          type_of (get_tree m newname len)).
Proof.
  intros Hlen Hmax Harr Hiid name newname.
  pose proof (length_fresh_oid_buf junk) as Hfresh. unfold oid in *.
  assert (__scan_num_objid (snd (__sprint_num_objid objid len))
                           (fresh_oid_buf junk)
          = Some (SUCCESS, newname, len)) as Hscan
    by (apply sprint_scan_round_trip;
        [exact Hlen | unfold oid, MAX_OID_LEN in *; lia]).
  assert (strchr (snd (__sprint_num_objid objid len)) "." = true) as Hdot.
  { unfold __sprint_num_objid. cbn [snd]. unfold oid.
    destruct (take (Z.to_nat len) objid) as [|x xs] eqn:Hxs;
      [|apply strchr_sprint].
    apply (f_equal length) in Hxs. rewrite length_take in Hxs.
    cbn in Hxs. lia. }
  assert (length name = Z.to_nat len) as Hname
    by (unfold name; rewrite length_map, length_take; lia).
  assert (memcpy oid_arr newname len
          = Some (name ++ drop (Z.to_nat len) oid_arr)%list) as Hcpy.
  { unfold memcpy. unfold oid.
    unfold MAX_OID_LEN in Hmax.
    assert (Z.of_nat (length newname) = 128) as Hnew
      by (unfold newname; rewrite length_app, length_drop, Hname;
          rewrite Nat2Z.inj_add, Nat2Z.inj_sub, Hfresh by lia; lia).
    rewrite Hnew.
    destruct (Z.leb_spec 0 len); [|lia].
    destruct (Z.leb_spec len 128); [|lia].
    destruct (Z.leb_spec len (Z.of_nat (length oid_arr))); [|lia].
    cbn [andb]. unfold newname.
    rewrite take_app_length' by (symmetry; exact Hname). reflexivity. }
  unfold __tag2oid, tag_stage. rewrite Hscan, Hdot.
  cbn [mbind option_bind orb]. change (SUCCESS =? 0) with false.
  cbv beta iota. rewrite Hcpy. cbn [mbind option_bind].
  destruct ((best_guess =? 1) || (best_guess =? 2));
    destruct Hiid as [-> | ->]; reflexivity.
Qed.

Lemma printed_tag_resolves_literally_witness :
  let name := map to_ulong (take (Z.to_nat 4) [1; 3; 6; 1]) in
  let newname := (name ++ drop (Z.to_nat 4) (fresh_oid_buf zero_junk))%list in
  __tag2oid empty_mib zero_junk (Some (snd (__sprint_num_objid [1; 3; 6; 1] 4)))
            (Some "") (replicate 128 0) 2
  = Some (get_tree empty_mib newname 4,
          (name ++ drop (Z.to_nat 4) (replicate 128 0))%list,
          4,
          type_of (get_tree empty_mib newname 4)).
Proof.
  apply (printed_tag_resolves_literally empty_mib zero_junk [1; 3; 6; 1]
           (replicate 128 0) 4 2 (Some "")).
  - simpl. lia.
  - unfold MAX_OID_LEN. lia.
  - simpl. lia.
  - right. reflexivity.
Defined.

(** X17: with best-guess off, a tag without a dot or a colon that
    [find_node] does not know never resolves, whatever instance comes
    with it: [__tag2oid] returns before the instance is looked at, with
    length 0 and the array untouched, and loading a batch that starts with
    such an entry raises [EasySNMPUnknownObjectIDError]. *)
Theorem unknown_label_never_resolves (m : mib) (junk : nat -> oid)
    (ctx : session_capsule_ctx) (vb : py_varbind) (rest : list py_varbind)
    (tag : string) :
  best_guess ctx <> 1 ->
  best_guess ctx <> 2 ->
  strchr tag "." = false ->
  strchr tag ":" = false ->
  find_node m tag = None ->
  vb_oid vb = Some tag ->
  (forall iid oid_arr,
     __tag2oid m junk (Some tag) iid oid_arr (best_guess ctx)
     = Some (None, oid_arr, 0, TYPE_UNKNOWN))
  /\ snmp_op_data_load m junk ctx (vb :: rest)
     = Some (inl (EasySNMPUnknownObjectIDError (Some tag))).
Proof.
  intros H1 H2 Hdot Hcolon Hfind Htag.
  assert (forall iid oid_arr,
            __tag2oid m junk (Some tag) iid oid_arr (best_guess ctx)
            = Some (None, oid_arr, 0, TYPE_UNKNOWN)) as Hres.
  { intros iid oid_arr. unfold __tag2oid, tag_stage.
    destruct (Z.eqb_spec (best_guess ctx) 1) as [|_]; [contradiction|].
    destruct (Z.eqb_spec (best_guess ctx) 2) as [|_]; [contradiction|].
    cbn [orb]. rewrite Hdot, Hcolon, Hfind. reflexivity. }
  split; [exact Hres|].
  cbn [snmp_op_data_load]. unfold load_varbind. rewrite Htag.
  destruct (vb_oid_index vb) as [iid|].
  - rewrite Hres. reflexivity.
  - reflexivity.
Qed.

Lemma unknown_label_never_resolves_witness :
  (forall iid oid_arr,
     __tag2oid empty_mib zero_junk (Some "sysDescr") iid oid_arr 0
     = Some (None, oid_arr, 0, TYPE_UNKNOWN))
  /\ snmp_op_data_load empty_mib zero_junk
                       (session_of (answering_agent (ok_response [])) 0 0)
                       [varbind_of "sysDescr" "0"]
     = Some (inl (EasySNMPUnknownObjectIDError (Some "sysDescr"))).
Proof.
  apply (unknown_label_never_resolves empty_mib zero_junk
           (session_of (answering_agent (ok_response [])) 0 0)
           (varbind_of "sysDescr" "0") [] "sysDescr").
  - simpl. lia.
  - simpl. lia.
  - reflexivity.
  - reflexivity.
  - reflexivity.
  - reflexivity.
Defined.

Lemma tree_parent_ind (P : tree -> Prop) :
  (forall subid type enums, P (mk_tree subid type enums None)) ->
  (forall subid type enums up,
     P up -> P (mk_tree subid type enums (Some up))) ->
  forall tp, P tp.
Proof.
  intros Hroot Hstep. fix IH 1. intros [subid type enums [up|]].
  - apply Hstep, IH.
  - apply Hroot.
Qed.

Lemma length_root_path_pos (tp : tree) : (1 <= length (root_path tp))%nat.
Proof.
  destruct tp as [subid type enums [up|]]; cbn [root_path].
  - rewrite length_app. cbn. lia.
  - cbn. lia.
Qed.

(** The loop towards the root writes the path of the node below slot
    [k], ending in that slot, and stops at the slot of the root. *)
Lemma fill_to_root_spec (tp : tree) :
  forall (newname : list oid) (k : nat),
    (k < length newname)%nat ->
    (length (root_path tp) <= S k)%nat ->
    fill_to_root tp newname (Z.of_nat k)
    = ((take (S k - length (root_path tp)) newname ++ root_path tp
        ++ drop (S k) newname)%list,
       Z.of_nat (S k - length (root_path tp))).
Proof.
  induction tp as [subid type enums|subid type enums up IH]
    using tree_parent_ind; intros newname k Hk Hd.
  - cbn [fill_to_root root_path length t_subid].
    destruct (Z.ltb_spec (Z.of_nat k) 0); [lia|].
    rewrite Nat2Z.id, insert_take_drop by exact Hk.
    replace (S k - 1)%nat with k by lia. reflexivity.
  - pose proof (length_root_path_pos up) as Hup.
    cbn [root_path] in Hd. rewrite length_app in Hd. cbn [length] in Hd.
    cbn [fill_to_root root_path t_subid].
    destruct (Z.ltb_spec (Z.of_nat k) 0); [lia|].
    rewrite Nat2Z.id.
    replace (Z.of_nat k - 1) with (Z.of_nat (k - 1)) by lia.
    rewrite IH by (rewrite ?length_insert; lia).
    rewrite length_app. cbn [length].
    replace (S (k - 1)) with k by lia. unfold oid in *.
    rewrite take_insert_ge by lia.
    rewrite (insert_take_drop newname k subid Hk).
    rewrite (drop_app_length' (take k newname)) by (rewrite length_take; lia).
    rewrite <- !app_assoc. cbn [app].
    f_equal; [f_equal; f_equal; lia | f_equal; lia].
Qed.

(** X18: with best-guess off, a tag without a dot or a colon that
    [find_node] knows resolves to the path from the root of the tree down
    to that node, written at the front of the array, with the type of the
    node; the rest of the array is left as it was. *)
Theorem label_resolves_to_root_path (m : mib) (junk : nat -> oid)
    (tag : string) (tp : tree) (oid_arr : list oid) (best_guess : Z)
    (iid : option string) :
  best_guess <> 1 ->
  best_guess <> 2 ->
  strchr tag "." = false ->
  strchr tag ":" = false ->
  find_node m tag = Some tp ->
  (length (root_path tp) <= 128)%nat ->
  (length (root_path tp) <= length oid_arr)%nat ->
  iid = None \/ iid = Some "" ->
  __tag2oid m junk (Some tag) iid oid_arr best_guess
  = Some (Some tp,
          (root_path tp ++ drop (length (root_path tp)) oid_arr)%list,
          Z.of_nat (length (root_path tp)),
          t_type tp).
Proof.
  intros H1 H2 Hdot Hcolon Hfind Hdepth Harr Hiid.
  pose proof (length_fresh_oid_buf junk) as Hfresh.
  pose proof (length_root_path_pos tp) as Hpos.
  unfold __tag2oid, tag_stage.
  destruct (Z.eqb_spec best_guess 1) as [|_]; [contradiction|].
  destruct (Z.eqb_spec best_guess 2) as [|_]; [contradiction|].
  cbn [orb]. rewrite Hdot, Hcolon, Hfind.
  change (MAX_OID_LEN - 1) with (Z.of_nat 127).
  assert (127 < length (fresh_oid_buf junk))%nat as Hlt
    by (apply Nat2Z.inj_lt; rewrite Hfresh; reflexivity).
  rewrite fill_to_root_spec by assumption.
  set (d := length (root_path tp)) in *.
  rewrite Nat2Z.id.
  assert (drop 128 (fresh_oid_buf junk) = []) as ->
    by (apply drop_ge; lia).
  rewrite app_nil_r.
  rewrite drop_app_length' by (rewrite length_take; lia).
  replace (MAX_OID_LEN - Z.of_nat (128 - d)) with (Z.of_nat d)
    by (unfold MAX_OID_LEN; lia).
  unfold memcpy.
  destruct (Z.leb_spec 0 (Z.of_nat d)); [|lia].
  destruct (Z.leb_spec (Z.of_nat d) (Z.of_nat (length (root_path tp))));
    [|lia].
  destruct (Z.leb_spec (Z.of_nat d) (Z.of_nat (length oid_arr))); [|lia].
  cbn [andb mbind option_bind]. rewrite Nat2Z.id.
  destruct (Z.ltb_spec (Z.of_nat (128 - d)) 0); [lia|].
  rewrite take_ge by lia.
  destruct Hiid as [-> | ->]; reflexivity.
Qed.

Lemma label_resolves_to_root_path_witness :
  __tag2oid one_label_mib zero_junk (Some "sysDescr") (Some "")
            (replicate 128 0) 0
  = Some (Some sys_descr_node,
          (root_path sys_descr_node
           ++ drop (length (root_path sys_descr_node)) (replicate 128 0))%list,
          Z.of_nat (length (root_path sys_descr_node)),
          t_type sys_descr_node).
Proof.
  apply (label_resolves_to_root_path one_label_mib zero_junk "sysDescr"
           sys_descr_node (replicate 128 0) 0 (Some "")).
  - lia.
  - lia.
  - reflexivity.
  - reflexivity.
  - reflexivity.
  - simpl. lia.
  - simpl. lia.
  - right. reflexivity.
Defined.

(** ** More on the marshaller and the write entry point *)

Lemma add_var_val_str_adds (ps : parsers) (junk0 : Z) (pdu : netsnmp_pdu)
    (name : list oid) (name_length : Z) (val : option string) (len type : Z) :
  exists v,
    snd (__add_var_val_str ps junk0 pdu name name_length val len type)
    = add_var pdu v
    /\ v_name v = take (Z.to_nat name_length) name.
Proof.
  unfold __add_var_val_str.
  repeat case_match; cbn [snd]; eexists; split; reflexivity.
Qed.

(** X19: [__add_var_val_str] appends exactly one variable to the request
    in every case, named by the first [name_length] sub-identifiers of
    [name], also when it reports failure; and it reports failure whenever
    the value is absent. *)
Theorem marshaller_appends_one (ps : parsers) (junk0 : Z) (pdu : netsnmp_pdu)
    (name : list oid) (name_length : Z) (val : option string) (len type : Z) :
  exists v,
    snd (__add_var_val_str ps junk0 pdu name name_length val len type)
    = add_var pdu v
    /\ v_name v = take (Z.to_nat name_length) name
    /\ match val with
       | None =>
           fst (__add_var_val_str ps junk0 pdu name name_length val len type)
           = FAILURE
       | Some _ => True
       end.
Proof.
  destruct (add_var_val_str_adds ps junk0 pdu name name_length val len type)
    as (v & Hv & Hname).
  exists v. split; [exact Hv|]. split; [exact Hname|].
  destruct val as [s|]; [exact I|].
  unfold __add_var_val_str. repeat case_match; reflexivity.
Qed.

(** X20: for the eight types that have an ASN type of their own, the
    type the marshaller writes on the variable is read back by
    [__translate_asn_type] as the type asked for. *)
Theorem marshalled_type_reads_back (ps : parsers) (junk0 : Z)
    (pdu : netsnmp_pdu) (name : list oid) (name_length : Z)
    (val : option string) (len type : Z) (v : variable) :
  In type [TYPE_INTEGER; TYPE_GAUGE; TYPE_COUNTER; TYPE_TIMETICKS;
           TYPE_UINTEGER; TYPE_OCTETSTR; TYPE_IPADDR; TYPE_OBJID] ->
  last (variables
          (snd (__add_var_val_str ps junk0 pdu name name_length val len type)))
  = Some v ->
  __translate_asn_type (v_type v) = type.
Proof.
  intros Hin. simpl in Hin.
  repeat (destruct Hin as [<-|Hin];
          [unfold __add_var_val_str;
           repeat match goal with
                  | |- context [?a =? ?b] =>
                      destruct (Z.eqb_spec a b) as [Heq|Hne];
                        [try (exfalso; vm_compute in Heq; discriminate Heq);
                         clear Heq
                        |try (exfalso; apply Hne; reflexivity); clear Hne]
                  end;
           cbn [orb]; repeat case_match; cbn [snd add_var variables];
           rewrite last_snoc; intros [= <-]; reflexivity|]).
  contradiction.
Qed.

Lemma marshalled_type_reads_back_witness :
  __translate_asn_type
    (v_type {| v_name := [1; 3; 6; 1; 2; 1; 1; 5; 0];
               v_type := ASN_OCTET_STR; v_val := ValString "router" |})
  = TYPE_OCTETSTR.
Proof.
  apply (marshalled_type_reads_back plain_parsers 0
           (snmp_pdu_create SNMP_MSG_SET) [1; 3; 6; 1; 2; 1; 1; 5; 0] 9
           (Some "router") 6 TYPE_OCTETSTR).
  - simpl. auto 10.
  - reflexivity.
Defined.

(** X21: a type without a case in the marshaller (counter64, null and
    network address among them) is not refused: the variable is appended
    all the same, typed [ASN_NULL] and without a value, and the status is
    failure. *)
Theorem unhandled_type_marshalled_as_null (ps : parsers) (junk0 : Z)
    (pdu : netsnmp_pdu) (name : list oid) (name_length : Z)
    (val : option string) (len type : Z) :
  ~ In type [TYPE_INTEGER; TYPE_INTEGER32; TYPE_GAUGE; TYPE_UNSIGNED32;
             TYPE_COUNTER; TYPE_TIMETICKS; TYPE_UINTEGER; TYPE_OCTETSTR;
             TYPE_BITSTRING; TYPE_OPAQUE; TYPE_IPADDR; TYPE_OBJID] ->
  __add_var_val_str ps junk0 pdu name name_length val len type
  = (FAILURE,
     add_var pdu {| v_name := take (Z.to_nat name_length) name;
                    v_type := ASN_NULL; v_val := ValNone |}).
Proof.
  intros Hout. unfold __add_var_val_str.
  repeat match goal with
         | |- context [?a =? ?b] =>
             destruct (Z.eqb_spec a b) as [Heq|_];
               [exfalso; apply Hout; rewrite Heq; simpl; auto 20|]
         end.
  reflexivity.
Qed.

Lemma unhandled_type_marshalled_as_null_witness :
  __add_var_val_str plain_parsers 0 (snmp_pdu_create SNMP_MSG_SET)
                    [1; 3; 6; 1] 4 (Some "7") 1 TYPE_COUNTER64
  = (FAILURE,
     add_var (snmp_pdu_create SNMP_MSG_SET)
             {| v_name := take (Z.to_nat 4) [1; 3; 6; 1];
                v_type := ASN_NULL; v_val := ValNone |}).
Proof.
  apply (unhandled_type_marshalled_as_null plain_parsers 0
           (snmp_pdu_create SNMP_MSG_SET) [1; 3; 6; 1] 4 (Some "7") 1
           TYPE_COUNTER64).
  simpl. intros H. repeat (destruct H as [H|H]; [discriminate H|]).
  exact H.
Defined.

Section WriteFacts.

Variable m : mib.
Variable junk : nat -> oid.
Variable ps : parsers.
Variable use_enums : Z.
Variable ctx : session_capsule_ctx.

(** The loop of [netsnmp_set] that ends with a request has added one
    variable for each varbind. *)
Lemma set_varbinds_count (varlist : list py_varbind) :
  forall pdu oid_arr pdu',
    set_varbinds m junk ps use_enums ctx varlist pdu oid_arr
    = Some (BuildOk pdu') ->
    command pdu' = command pdu
    /\ exists vs,
         variables pdu' = (variables pdu ++ vs)%list
         /\ length vs = length varlist.
Proof.
  induction varlist as [|vb rest IH]; intros pdu oid_arr pdu' Hbuild.
  - cbn in Hbuild. injection Hbuild as <-. split; [reflexivity|].
    exists []. rewrite app_nil_r. split; reflexivity.
  - cbn [set_varbinds] in Hbuild.
    destruct (match vb_oid vb, vb_oid_index vb with
              | Some tag, Some iid =>
                  __tag2oid m junk (Some tag) (Some iid) oid_arr
                            (best_guess ctx)
              | _, _ => Some (None, oid_arr, 0, TYPE_UNKNOWN)
              end) as [[[[tp arr] len] type]|]; [|discriminate].
    cbn [mbind option_bind] in Hbuild.
    destruct (len =? 0); [discriminate|].
    destruct (set_type vb type) as [stop|ty] eqn:Hty.
    { injection Hbuild as ->.
      unfold set_type in Hty. repeat case_match; congruence. }
    destruct (vb_value vb) as [val|]; [|discriminate].
    destruct (add_var_val_str_adds ps (junk O) pdu arr len
                (Some (set_value ps use_enums tp ty val))
                (Z.min (Z.of_nat (String.length val)) (STR_BUF_SIZE - 1)) ty)
      as (v & Hv & _).
    destruct (__add_var_val_str ps (junk O) pdu arr len
                (Some (set_value ps use_enums tp ty val))
                (Z.min (Z.of_nat (String.length val)) (STR_BUF_SIZE - 1)) ty)
      as [st pdu1].
    cbn [snd] in Hv. subst pdu1.
    destruct (IH _ _ _ Hbuild) as (Hcmd & vs & Hvars & Hlen).
    split; [exact Hcmd|].
    exists (v :: vs). cbn [add_var variables] in Hvars.
    rewrite Hvars, <- app_assoc. cbn [length]. rewrite Hlen.
    split; reflexivity.
Qed.

End WriteFacts.

(** X22: when the request of [netsnmp_set] is built and answered without
    error status, the call returns 1 after that one request, which is a
    set request holding exactly one variable for each varbind of the
    batch. *)
Theorem set_sends_one_variable_per_varbind (txt : errtext) (m : mib)
    (junk : nat -> oid) (ps : parsers) (use_enums : Z)
    (ctx : session_capsule_ctx) (ss : netsnmp_session)
    (varlist : list py_varbind) (pdu r : netsnmp_pdu) (fuel : nat)
    (sent0 : list netsnmp_pdu) :
  handle ctx = Some ss ->
  set_varbinds m junk ps use_enums ctx varlist (snmp_pdu_create SNMP_MSG_SET)
               (replicate (Z.to_nat MAX_OID_LEN) 0)
  = Some (BuildOk pdu) ->
  synch_response ss sent0 pdu = (STAT_SUCCESS, Some r) ->
  errstat r = SNMP_ERR_NOERROR ->
  netsnmp_set txt m junk ps use_enums ctx (S fuel) varlist sent0
  = Ret {| ret := PyLong 1;
           session_errors := Some ("", 0, 0);
           log := (sent0 ++ [pdu])%list |}
  /\ command pdu = SNMP_MSG_SET
  /\ length (variables pdu) = length varlist.
Proof.
  intros Hh Hbuild Hx Herr. split.
  - unfold netsnmp_set. rewrite Hbuild, Hh.
    rewrite (send_sync_pdu_noerror txt fuel ss pdu r NO_RETRY_NOSUCH None sent0
               Hx Herr).
    reflexivity.
  - destruct (set_varbinds_count m junk ps use_enums ctx varlist _ _ _ Hbuild)
      as (Hcmd & vs & Hvars & Hlen).
    split; [exact Hcmd|]. rewrite Hvars. exact Hlen.
Qed.

Lemma set_sends_one_variable_per_varbind_witness :
  let pdu := add_var (snmp_pdu_create SNMP_MSG_SET)
               {| v_name := [1; 3; 6; 1; 2; 1; 1; 5; 0];
                  v_type := ASN_OCTET_STR; v_val := ValString "router" |} in
  let varlist :=
    [ {| vb_oid := Some ".1.3.6.1.2.1.1.5"; vb_oid_index := Some "0";
         vb_snmp_type := Some "s"; vb_value := Some "router" |} ] in
  netsnmp_set no_text empty_mib zero_junk plain_parsers 0
              (session_of (answering_agent (ok_response [])) 0 1) 1 varlist []
  = Ret {| ret := PyLong 1;
           session_errors := Some ("", 0, 0);
           log := ([] ++ [pdu])%list |}
  /\ command pdu = SNMP_MSG_SET
  /\ length (variables pdu) = length varlist.
Proof.
  intros pdu varlist.
  apply (set_sends_one_variable_per_varbind no_text empty_mib zero_junk
           plain_parsers 0
           (session_of (answering_agent (ok_response [])) 0 1)
           (answering_agent (ok_response [])) varlist pdu (ok_response []) 0
           []).
  - reflexivity.
  - vm_compute. reflexivity.
  - reflexivity.
  - reflexivity.
Defined.

(** X23: a batch that [snmp_op_data_load] loads gives one entry for each
    varbind, in order: each entry keeps the tag of its varbind as its
    initial name and has a path of length other than 0. *)
Theorem loaded_entries_match_varbinds (m : mib) (junk : nat -> oid)
    (ctx : session_capsule_ctx) (varlist : list py_varbind)
    (entries : list op_entry) :
  snmp_op_data_load m junk ctx varlist = Some (inr entries) ->
  length entries = length varlist
  /\ map initial_oid_str entries = map vb_oid varlist
  /\ Forall (fun e => oid_arr_len e <> 0) entries.
Proof.
  revert entries. induction varlist as [|vb rest IH]; intros entries Hload.
  - cbn in Hload. injection Hload as <-. auto.
  - cbn [snmp_op_data_load] in Hload.
    destruct (load_varbind m junk ctx vb) as [[arr len]|]; [|discriminate].
    cbn [mbind option_bind] in Hload.
    destruct (Z.eqb_spec len 0) as [|Hlen]; [discriminate|].
    destruct (snmp_op_data_load m junk ctx rest) as [[exc|es]|];
      [discriminate | | discriminate].
    cbn [mbind option_bind] in Hload. injection Hload as <-.
    destruct (IH es eq_refl) as (H1 & H2 & H3).
    cbn [length map initial_oid_str]. rewrite H1, H2.
    repeat split. constructor; [exact Hlen | exact H3].
Qed.

Lemma loaded_entries_match_varbinds_witness :
  length [system_entry] = length [varbind_of ".1.3.6.1.2.1.1" ""]
  /\ map initial_oid_str [system_entry]
     = map vb_oid [varbind_of ".1.3.6.1.2.1.1" ""]
  /\ Forall (fun e => oid_arr_len e <> 0) [system_entry].
Proof.
  apply (loaded_entries_match_varbinds empty_mib zero_junk
           (session_of (answering_agent (ok_response [])) 0 0)
           [varbind_of ".1.3.6.1.2.1.1" ""] [system_entry]).
  vm_compute. reflexivity.
Defined.

(** ** Label and instance *)

Lemma no_alpha_has_alpha (s : string) :
  no_alpha s = if has_alpha s then 0 else 1.
Proof.
  induction s as [|c s IH]; cbn [no_alpha has_alpha]; [reflexivity|].
  destruct (isalpha c); [reflexivity | exact IH].
Qed.

Lemma list_ascii_of_string_app (s t : string) :
  list_ascii_of_string (s +:+ t)
  = (list_ascii_of_string s ++ list_ascii_of_string t)%list.
Proof.
  induction s as [|c s IH]; [reflexivity|].
  change (String c s +:+ t) with (String c (s +:+ t)).
  cbn [list_ascii_of_string app]. rewrite IH. reflexivity.
Qed.

Lemma length_list_ascii (s : string) :
  length (list_ascii_of_string s) = String.length s.
Proof.
  induction s as [|c s IH]; cbn; [reflexivity|]. rewrite IH. reflexivity.
Qed.

Lemma c_string_app (s : string) (rest : list ascii) :
  no_nul s = true ->
  c_string (list_ascii_of_string s ++ Ascii.zero :: rest) = s.
Proof.
  induction s as [|c s IH]; cbn [no_nul list_ascii_of_string app c_string].
  - reflexivity.
  - intros H. apply andb_prop in H. destruct H as [Hc Hs].
    apply negb_true_iff in Hc. rewrite Hc, (IH Hs). reflexivity.
Qed.

Lemma c_string_name_buf (name : string) (after : ascii) :
  no_nul name = true -> c_string (name_buf name after) = name.
Proof.
  intros H. unfold name_buf. apply c_string_app. exact H.
Qed.

Lemma deref_cons (c : ascii) (buf : list ascii) (i : nat) :
  deref (c :: buf) (S i) = deref buf i.
Proof.
  reflexivity.
Qed.

(** A character inside the middle one of three segments. *)
Lemma deref_in_segment (P : ascii -> Prop) (l1 l2 l3 : list ascii) (i : nat) :
  Forall P l2 ->
  (length l1 <= i < length l1 + length l2)%nat ->
  P (deref (l1 ++ l2 ++ l3) i).
Proof.
  intros Hall Hi. unfold deref.
  rewrite lookup_app_r by lia. rewrite lookup_app_l by lia.
  destruct (l2 !! (i - length l1)%nat) as [c|] eqn:Hc.
  - cbn. exact (proj1 (Forall_lookup P l2) Hall _ _ Hc).
  - apply lookup_ge_None in Hc. lia.
Qed.

(** A character of a name or its terminator. *)
Lemma deref_name_chars (P : ascii -> Prop) (s : string) (after : ascii)
    (i : nat) :
  Forall P (list_ascii_of_string s) ->
  P Ascii.zero ->
  (i <= String.length s)%nat ->
  P (deref (list_ascii_of_string s ++ [Ascii.zero; after]) i).
Proof.
  intros Hall Hzero Hi.
  replace (list_ascii_of_string s ++ [Ascii.zero; after])%list
    with ([] ++ (list_ascii_of_string s ++ [Ascii.zero]) ++ [after])%list
    by (cbn [app]; rewrite <- app_assoc; reflexivity).
  apply deref_in_segment.
  - apply Forall_app. split; [exact Hall|]. constructor; [exact Hzero|].
    constructor.
  - rewrite length_app, length_list_ascii. cbn [length]. lia.
Qed.

Lemma deref_middle (l1 l2 : list ascii) (c : ascii) :
  deref (l1 ++ c :: l2) (length l1) = c.
Proof.
  unfold deref. rewrite list_lookup_middle by reflexivity. reflexivity.
Qed.

Lemma Forall_not_alpha (s : string) :
  has_alpha s = false ->
  Forall (fun c => isalpha c = false) (list_ascii_of_string s).
Proof.
  induction s as [|c s IH]; cbn [has_alpha list_ascii_of_string];
    [constructor|].
  intros H. apply orb_false_elim in H. destruct H as [Hc Hs].
  constructor; [exact Hc | exact (IH Hs)].
Qed.

Lemma Forall_not_dot (s : string) :
  strchr s "." = false ->
  Forall (fun c => is_dot c = false) (list_ascii_of_string s).
Proof.
  induction s as [|c s IH]; cbn [strchr list_ascii_of_string];
    [constructor|].
  intros H. apply orb_false_elim in H. destruct H as [Hc Hs].
  constructor; [exact Hc | exact (IH Hs)].
Qed.

(** The loop of the symbolic branch over characters that are not
    letters: no label is found. *)
Lemma label_scan_no_alpha (buf : list ascii) (k : nat) :
  forall j icp,
    (forall i, (k < i <= k + j)%nat -> isalpha (deref buf i) = false) ->
    exists icp',
      label_scan buf (k + j) icp false = label_scan buf k icp' false.
Proof.
  induction j as [|j IH]; intros icp Hno.
  - exists icp. rewrite Nat.add_0_r. reflexivity.
  - replace (k + S j)%nat with (S (k + j)) by lia. cbn [label_scan orb].
    rewrite (Hno (S (k + j))) by lia.
    destruct (is_dot (deref buf (S (k + j)))); apply IH; intros i Hi;
      apply Hno; lia.
Qed.

Lemma label_scan_zero (buf : list ascii) (icp : nat) (found : bool) :
  label_scan buf 0 icp found = (O, icp, found).
Proof.
  reflexivity.
Qed.

(** X24: the two branches of [__get_label_iid] refuse each other's
    names: with the numeric flag a name that holds a letter fails, and
    without it a name with no letter after its first character fails; in
    both cases neither string is handed back. *)
Theorem label_modes_disjoint (c : ascii) (rest : string) (after : ascii)
    (flag : Z) :
  no_nul (String c rest) = true ->
  (if has_flag flag USE_NUMERIC_OIDS
   then has_alpha (String c rest)
   else negb (has_alpha rest)) = true ->
  __get_label_iid (String c rest) after flag = (FAILURE, None, None).
Proof.
  intros Hnul Hmode. unfold __get_label_iid.
  rewrite (c_string_name_buf _ after Hnul).
  cbn [String.length Nat.eqb].
  destruct (has_flag flag USE_NUMERIC_OIDS).
  - cbn [__is_numeric_oid]. rewrite no_alpha_has_alpha, Hmode. reflexivity.
  - apply negb_true_iff in Hmode.
    destruct (label_scan_no_alpha (name_buf (String c rest) after) 0
                (S (String.length rest)) (S (String.length rest)))
      as [icp' Hscan].
    { intros i Hi. destruct i as [|i]; [lia|].
      unfold name_buf. cbn [list_ascii_of_string app]. rewrite deref_cons.
      apply (deref_name_chars (fun c => isalpha c = false));
        [apply Forall_not_alpha; exact Hmode | reflexivity | lia]. }
    cbn [Nat.add] in Hscan. rewrite Hscan, label_scan_zero. reflexivity.
Qed.

Lemma label_modes_disjoint_witness :
  __get_label_iid ".1.3.6.1.2.1.1.1.0" "000" 0 = (FAILURE, None, None).
Proof.
  apply (label_modes_disjoint "." "1.3.6.1.2.1.1.1.0" "000" 0);
    reflexivity.
Defined.

Lemma no_nul_app (s t : string) :
  no_nul (s +:+ t) = no_nul s && no_nul t.
Proof.
  induction s as [|c s IH]; [reflexivity|].
  change (String c s +:+ t) with (String c (s +:+ t)).
  cbn [no_nul]. rewrite IH, andb_assoc. reflexivity.
Qed.

Lemma length_string_app (s t : string) :
  String.length (s +:+ t) = (String.length s + String.length t)%nat.
Proof.
  induction s as [|c s IH]; [reflexivity|].
  change (String c s +:+ t) with (String c (s +:+ t)).
  cbn [String.length]. rewrite IH. reflexivity.
Qed.

(** The loop of the numeric branch over characters that are not
    separators. *)
Lemma numeric_scan_no_dot (buf : list ascii) (k : nat) :
  forall j icp,
    (forall i, (k < i <= k + j)%nat -> is_dot (deref buf i) = false) ->
    numeric_scan buf (k + j) icp = numeric_scan buf k icp.
Proof.
  induction j as [|j IH]; intros icp Hno.
  - rewrite Nat.add_0_r. reflexivity.
  - replace (k + S j)%nat with (S (k + j)) by lia. cbn [numeric_scan].
    rewrite (Hno (S (k + j))) by lia.
    apply IH. intros i Hi. apply Hno. lia.
Qed.

Lemma numeric_scan_at_dot (buf : list ascii) (k icp : nat) :
  (k = O \/ is_dot (deref buf k) = true) ->
  numeric_scan buf k (Some icp) = (k, Some icp).
Proof.
  destruct k as [|k]; [reflexivity|].
  intros [Hk|Hdot]; [discriminate|]. cbn [numeric_scan]. rewrite Hdot.
  reflexivity.
Qed.

Section SplitName.

Variables pre a b : string.
Variable after : ascii.

Local Abbreviation lp := (list_ascii_of_string pre).
Local Abbreviation la := (list_ascii_of_string a).
Local Abbreviation lb := (list_ascii_of_string b).

(** The buffer of [pre.a.b], segment by segment. *)
Lemma name_buf_split :
  name_buf (pre +:+ "." +:+ a +:+ "." +:+ b) after
  = (lp ++ "."%char :: la ++ "."%char :: lb ++ [Ascii.zero; after])%list.
Proof.
  unfold name_buf.
  rewrite !list_ascii_of_string_app. cbn [list_ascii_of_string].
  rewrite <- !app_assoc. reflexivity.
Qed.

Lemma length_split :
  String.length (pre +:+ "." +:+ a +:+ "." +:+ b)
  = (length lp + S (length la + S (length lb)))%nat.
Proof.
  rewrite !length_string_app, !length_list_ascii.
  cbn [String.length]. lia.
Qed.

Lemma no_nul_split :
  no_nul (pre +:+ "." +:+ a +:+ "." +:+ b) = true ->
  no_nul pre = true /\ no_nul a = true /\ no_nul b = true.
Proof.
  rewrite !no_nul_app. cbn [no_nul]. intros H.
  repeat (apply andb_prop in H; destruct H as [? H]). auto.
Qed.

(** The characters after the second separator, terminator included. *)
Lemma deref_tail (P : ascii -> Prop) (i : nat) :
  Forall P lb ->
  P Ascii.zero ->
  (length lp + S (length la) < i
   <= length lp + S (length la + S (length lb)))%nat ->
  P (deref (lp ++ "."%char :: la ++ "."%char :: lb
             ++ [Ascii.zero; after])%list i).
Proof.
  intros Hall Hzero Hi.
  replace (lp ++ "."%char :: la ++ "."%char :: lb ++ [Ascii.zero; after])%list
    with ((lp ++ "."%char :: la ++ ["."%char]) ++ (lb ++ [Ascii.zero])
          ++ [after])%list
    by (rewrite <- !app_assoc; cbn [app]; rewrite <- !app_assoc; reflexivity).
  apply deref_in_segment.
  - apply Forall_app. split; [exact Hall|]. constructor; [exact Hzero|].
    constructor.
  - rewrite !length_app. cbn [length]. rewrite !length_app. cbn [length]. lia.
Qed.

(** The characters between the two separators. *)
Lemma deref_label (P : ascii -> Prop) (i : nat) :
  Forall P la ->
  (length lp < i <= length lp + length la)%nat ->
  P (deref (lp ++ "."%char :: la ++ "."%char :: lb
             ++ [Ascii.zero; after])%list i).
Proof.
  intros Hall Hi.
  replace (lp ++ "."%char :: la ++ "."%char :: lb ++ [Ascii.zero; after])%list
    with ((lp ++ ["."%char]) ++ la
          ++ ("."%char :: lb ++ [Ascii.zero; after]))%list
    by (rewrite <- !app_assoc; reflexivity).
  apply deref_in_segment; [exact Hall|].
  rewrite !length_app. cbn [length]. lia.
Qed.

Lemma deref_second_dot :
  deref (lp ++ "."%char :: la ++ "."%char :: lb ++ [Ascii.zero; after])%list
        (length lp + S (length la))
  = "."%char.
Proof.
  replace (lp ++ "."%char :: la ++ "."%char :: lb ++ [Ascii.zero; after])%list
    with ((lp ++ "."%char :: la) ++ "."%char :: lb ++ [Ascii.zero; after])%list
    by (rewrite <- !app_assoc; reflexivity).
  replace (length lp + S (length la))%nat
    with (length (lp ++ "."%char :: la))
    by (rewrite length_app; reflexivity).
  apply deref_middle.
Qed.

Lemma deref_first_dot :
  deref (lp ++ "."%char :: la ++ "."%char :: lb ++ [Ascii.zero; after])%list
        (length lp)
  = "."%char.
Proof.
  apply deref_middle.
Qed.

(** The buffer once the second separator is overwritten with the
    terminator, and the strings read from it. *)
Lemma cut_at_second_dot :
  <[(length lp + S (length la))%nat := Ascii.zero]>
    (lp ++ "."%char :: la ++ "."%char :: lb ++ [Ascii.zero; after])%list
  = (lp ++ "."%char :: la ++ Ascii.zero :: lb ++ [Ascii.zero; after])%list.
Proof.
  replace (lp ++ "."%char :: la ++ "."%char :: lb ++ [Ascii.zero; after])%list
    with ((lp ++ "."%char :: la) ++ "."%char :: lb ++ [Ascii.zero; after])%list
    by (rewrite <- !app_assoc; reflexivity).
  replace (length lp + S (length la))%nat
    with (length (lp ++ "."%char :: la))
    by (rewrite length_app; reflexivity).
  rewrite insert_app_r_alt by lia. rewrite Nat.sub_diag.
  rewrite <- !app_assoc. reflexivity.
Qed.

Lemma string_at_whole :
  no_nul pre = true -> no_nul a = true ->
  string_at (lp ++ "."%char :: la ++ Ascii.zero :: lb
             ++ [Ascii.zero; after])%list 0
  = pre +:+ "." +:+ a.
Proof.
  intros Hp Ha. unfold string_at. rewrite drop_0.
  replace (lp ++ "."%char :: la ++ Ascii.zero :: lb ++ [Ascii.zero; after])%list
    with (list_ascii_of_string (pre +:+ "." +:+ a)
          ++ Ascii.zero :: lb ++ [Ascii.zero; after])%list
    by (rewrite !list_ascii_of_string_app; cbn [list_ascii_of_string];
        rewrite <- !app_assoc; reflexivity).
  apply c_string_app. rewrite !no_nul_app, Hp, Ha. reflexivity.
Qed.

Lemma string_at_label :
  no_nul a = true ->
  string_at (lp ++ "."%char :: la ++ Ascii.zero :: lb
             ++ [Ascii.zero; after])%list
            (S (length lp))
  = a.
Proof.
  intros Ha. unfold string_at.
  replace (lp ++ "."%char :: la ++ Ascii.zero :: lb ++ [Ascii.zero; after])%list
    with ((lp ++ ["."%char]) ++ la ++ Ascii.zero :: lb
          ++ [Ascii.zero; after])%list
    by (rewrite <- !app_assoc; reflexivity).
  rewrite drop_app_length' by (rewrite length_app; cbn; lia).
  apply c_string_app. exact Ha.
Qed.

Lemma string_at_instance :
  no_nul b = true ->
  string_at (lp ++ "."%char :: la ++ Ascii.zero :: lb
             ++ [Ascii.zero; after])%list
            (S (length lp + S (length la)))
  = b.
Proof.
  intros Hb. unfold string_at.
  replace (lp ++ "."%char :: la ++ Ascii.zero :: lb ++ [Ascii.zero; after])%list
    with ((lp ++ "."%char :: la ++ [Ascii.zero]) ++ lb
          ++ [Ascii.zero; after])%list
    by (rewrite <- !app_assoc; cbn [app]; rewrite <- !app_assoc; reflexivity).
  rewrite drop_app_length'
    by (rewrite !length_app; cbn [length]; rewrite length_app; cbn; lia).
  apply c_string_app. exact Hb.
Qed.

End SplitName.

(** X25: with the numeric flag, a name [pre.a.b] without letters, in
    which [a] and [b] hold no separator, is cut at its last separator:
    the instance is [b], and the label is [a], or everything before the
    last separator when long names are asked for. *)
Theorem numeric_label_split (pre a b : string) (after : ascii) (flag : Z) :
  has_flag flag USE_NUMERIC_OIDS = true ->
  no_nul (pre +:+ "." +:+ a +:+ "." +:+ b) = true ->
  has_alpha (pre +:+ "." +:+ a +:+ "." +:+ b) = false ->
  strchr a "." = false ->
  strchr b "." = false ->
  __get_label_iid (pre +:+ "." +:+ a +:+ "." +:+ b) after flag
  = (SUCCESS,
     Some (if has_flag flag USE_LONG_NAMES then pre +:+ "." +:+ a else a),
     Some b).
Proof.
  intros Hnum Hnul Halpha Ha Hb.
  destruct (no_nul_split pre a b Hnul) as (Hnp & Hna & Hnb).
  unfold __get_label_iid.
  rewrite (c_string_name_buf _ after Hnul), Hnum.
  rewrite length_split, name_buf_split.
  set (np := length (list_ascii_of_string pre)).
  set (na := length (list_ascii_of_string a)).
  set (nb := length (list_ascii_of_string b)).
  replace (np + S (na + S nb) =? 0)%nat with false
    by (symmetry; apply Nat.eqb_neq; lia).
  cbn [__is_numeric_oid]. rewrite no_alpha_has_alpha, Halpha.
  change (1 =? 0) with false. cbv beta iota.
  replace (np + S (na + S nb))%nat with ((np + S na) + S nb)%nat by lia.
  rewrite numeric_scan_no_dot
    by (intros i Hi;
        apply (deref_tail pre a b after (fun c => is_dot c = false));
        [apply Forall_not_dot; exact Hb | reflexivity
        |unfold np, na, nb in *; lia]).
  replace (np + S na)%nat with (S (np + na)) by lia.
  cbn [numeric_scan].
  replace (S (np + na)) with (np + S na)%nat by lia.
  unfold np, na. rewrite (deref_second_dot pre a b after). fold np na.
  change (is_dot ".") with true. cbv beta iota.
  rewrite numeric_scan_no_dot
    by (intros i Hi;
        apply (deref_label pre a b after (fun c => is_dot c = false));
        [apply Forall_not_dot; exact Ha | unfold np, na, nb in *; lia]).
  rewrite numeric_scan_at_dot.
  - unfold np, na. rewrite (cut_at_second_dot pre a b after).
    rewrite (string_at_instance pre a b after Hnb).
    destruct (has_flag flag USE_LONG_NAMES).
    + rewrite (string_at_whole pre a b after Hnp Hna). reflexivity.
    + rewrite (string_at_label pre a b after Hna). reflexivity.
  - destruct np as [|p] eqn:Hp; [left; reflexivity|].
    right. rewrite <- Hp. unfold np.
    rewrite (deref_first_dot pre a b after). reflexivity.
Qed.

Lemma numeric_label_split_witness :
  __get_label_iid (".1.3.6.1.2.1.1" +:+ "." +:+ "1" +:+ "." +:+ "0") "000" 10
  = (SUCCESS,
     Some (if has_flag 10 USE_LONG_NAMES
           then ".1.3.6.1.2.1.1" +:+ "." +:+ "1" else "1"),
     Some "0").
Proof.
  apply (numeric_label_split ".1.3.6.1.2.1.1" "1" "0" "000" 10);
    reflexivity.
Defined.

(** The loop of the symbolic branch once a label is found, over
    characters that are not separators. *)
Lemma label_scan_found (buf : list ascii) (k : nat) :
  forall j icp,
    (forall i, (k < i <= k + j)%nat -> is_dot (deref buf i) = false) ->
    label_scan buf (k + j) icp true = label_scan buf k icp true.
Proof.
  induction j as [|j IH]; intros icp Hno.
  - rewrite Nat.add_0_r. reflexivity.
  - replace (k + S j)%nat with (S (k + j)) by lia. cbn [label_scan orb].
    rewrite (Hno (S (k + j))) by lia.
    apply IH. intros i Hi. apply Hno. lia.
Qed.

(** The same loop over a label: characters that are not separators, a
    letter among them. *)
Lemma label_scan_label (buf : list ascii) (k : nat) :
  forall j icp found,
    (forall i, (k < i <= k + j)%nat -> is_dot (deref buf i) = false) ->
    (exists i, (k < i <= k + j)%nat /\ isalpha (deref buf i) = true) ->
    label_scan buf (k + j) icp found = label_scan buf k icp true.
Proof.
  induction j as [|j IH]; intros icp found Hno (i0 & Hi0 & Halpha).
  - lia.
  - destruct found; [apply label_scan_found; exact Hno|].
    replace (k + S j)%nat with (S (k + j)) by lia. cbn [label_scan orb].
    rewrite (Hno (S (k + j))) by lia.
    destruct (isalpha (deref buf (S (k + j)))) eqn:Htop.
    + apply label_scan_found. intros i Hi. apply Hno. lia.
    + apply IH; [intros i Hi; apply Hno; lia|].
      exists i0. split; [|exact Halpha].
      destruct (Nat.eq_dec i0 (S (k + j))) as [->|Hne]; [|lia].
      rewrite Halpha in Htop. discriminate.
Qed.

Lemma has_alpha_index (s : string) :
  has_alpha s = true ->
  exists i, (i < String.length s)%nat
            /\ isalpha (deref (list_ascii_of_string s) i) = true.
Proof.
  induction s as [|c s IH]; cbn [has_alpha]; [discriminate|].
  intros H. destruct (isalpha c) eqn:Hc.
  - exists O. cbn. split; [lia | exact Hc].
  - destruct (IH H) as (i & Hi & Halpha). exists (S i).
    cbn [String.length list_ascii_of_string]. rewrite deref_cons.
    split; [lia | exact Halpha].
Qed.

Lemma deref_app_r (l1 l2 : list ascii) (i : nat) :
  deref (l1 ++ l2) (length l1 + i) = deref l2 i.
Proof.
  unfold deref. rewrite lookup_app_r by lia.
  replace (length l1 + i - length l1)%nat with i by lia. reflexivity.
Qed.

Lemma deref_app_l (l1 l2 : list ascii) (i : nat) :
  (i < length l1)%nat -> deref (l1 ++ l2) i = deref l1 i.
Proof.
  intros Hi. unfold deref. rewrite lookup_app_l by exact Hi. reflexivity.
Qed.

(** The loop of the symbolic branch over a name that ends in a label
    [a] and an instance [b] without letters: it comes to the character
    before the label with the label found and [icp] at the separator
    after it.  [l0] is what precedes the label. *)
Lemma label_scan_last_label (l0 : list ascii) (a b : string) (after : ascii) :
  let la := list_ascii_of_string a in
  let lb := list_ascii_of_string b in
  let buf := (l0 ++ la ++ "."%char :: lb ++ [Ascii.zero; after])%list in
  l0 <> [] ->
  strchr a "." = false ->
  has_alpha a = true ->
  has_alpha b = false ->
  label_scan buf (length l0 + length la + S (length lb))
             (length l0 + length la + S (length lb)) false
  = label_scan buf (length l0 - 1) (length l0 + length la) true.
Proof.
  intros la lb buf Hl0 Hdot Halpha Hnum.
  assert (1 <= length l0)%nat as Hpos
    by (destruct l0; [contradiction | cbn; lia]).
  destruct (label_scan_no_alpha buf (length l0 + length la) (S (length lb))
              (length l0 + length la + S (length lb))) as [icp' Hscan].
  { intros i Hi. unfold buf.
    replace i
      with (length l0 + (length la + S (i - S (length l0 + length la))))%nat
      by lia.
    rewrite deref_app_r, deref_app_r, deref_cons.
    apply (deref_name_chars (fun c => isalpha c = false));
      [apply Forall_not_alpha; exact Hnum | reflexivity|].
    unfold lb in Hi. rewrite length_list_ascii in Hi. lia. }
  rewrite Hscan.
  assert (deref buf (length l0 + length la) = "."%char) as Hsep.
  { unfold buf. rewrite deref_app_r.
    replace (length la) with (length la + 0)%nat by lia.
    rewrite deref_app_r. reflexivity. }
  destruct (length l0 + length la)%nat as [|n] eqn:Hn; [lia|].
  cbn [label_scan]. rewrite Hsep. change (is_dot ".") with true.
  change (isalpha ".") with false. cbn [orb]. cbv beta iota.
  replace n with ((length l0 - 1) + length la)%nat by lia.
  replace (S (length l0 - 1 + length la)) with (length l0 + length la)%nat
    by lia.
  apply label_scan_label.
  - intros i Hi. unfold buf.
    replace i with (length l0 + (i - length l0))%nat by lia.
    rewrite deref_app_r, deref_app_l by lia.
    assert (Forall (fun c => is_dot c = false) la) as Hall
      by (apply Forall_not_dot; exact Hdot).
    unfold deref.
    destruct (la !! (i - length l0)%nat) as [c|] eqn:Hc.
    + exact (proj1 (Forall_lookup _ la) Hall _ _ Hc).
    + apply lookup_ge_None in Hc. lia.
  - destruct (has_alpha_index a Halpha) as (i & Hi & Hal).
    exists (length l0 + i)%nat. unfold buf.
    rewrite deref_app_r, deref_app_l
      by (unfold la; rewrite length_list_ascii; exact Hi).
    unfold la. rewrite length_list_ascii. split; [lia | exact Hal].
Qed.

(** X26: a name [pre.a.b] with [pre] not empty, a label [a] that holds a
    letter and no separator, and an instance [b] without letters is cut
    by the symbolic branch around its last label: the instance is [b],
    and the label is [a], or the name up to the end of [a] when long
    names are asked for. *)
Theorem symbolic_label_split (pre a b : string) (after : ascii) (flag : Z) :
  has_flag flag USE_NUMERIC_OIDS = false ->
  has_flag flag NON_LEAF_NAME = false ->
  has_flag flag FAIL_ON_NULL_IID = false ->
  pre <> "" ->
  no_nul (pre +:+ "." +:+ a +:+ "." +:+ b) = true ->
  strchr a "." = false ->
  has_alpha a = true ->
  has_alpha b = false ->
  __get_label_iid (pre +:+ "." +:+ a +:+ "." +:+ b) after flag
  = (SUCCESS,
     Some (if has_flag flag USE_LONG_NAMES then pre +:+ "." +:+ a else a),
     Some b).
Proof.
  intros Hnum Hleaf Hfail Hpre Hnul Hdot Halpha Hinst.
  destruct (no_nul_split pre a b Hnul) as (Hnp & Hna & Hnb).
  unfold __get_label_iid.
  rewrite (c_string_name_buf _ after Hnul), Hnum, Hleaf, Hfail.
  rewrite length_split, name_buf_split.
  set (lp := list_ascii_of_string pre). set (la := list_ascii_of_string a).
  set (lb := list_ascii_of_string b).
  assert (1 <= length lp)%nat as Hp.
  { unfold lp. rewrite length_list_ascii.
    destruct pre; [contradiction | cbn; lia]. }
  replace (length lp + S (length la + S (length lb)) =? 0)%nat with false
    by (symmetry; apply Nat.eqb_neq; lia).
  pose proof (label_scan_last_label (lp ++ ["."%char]) a b after) as Hscan.
  cbv zeta in Hscan. fold la lb in Hscan.
  rewrite length_app in Hscan. cbn [length] in Hscan.
  rewrite <- app_assoc in Hscan. cbn [app] in Hscan.
  replace (length lp + 1 + length la + S (length lb))%nat
    with (length lp + S (length la + S (length lb)))%nat in Hscan by lia.
  rewrite Hscan;
    [|destruct lp; discriminate | exact Hdot | exact Halpha | exact Hinst].
  replace (length lp + 1 - 1)%nat with (length lp) by lia.
  replace (length lp + 1 + length la)%nat with (length lp + S (length la))%nat
    by lia.
  destruct (length lp) as [|p] eqn:Hlp; [lia|].
  cbn [label_scan]. rewrite <- Hlp.
  subst lp la lb.
  rewrite (deref_first_dot pre a b after). change (is_dot ".") with true.
  cbv beta iota. rewrite (deref_second_dot pre a b after).
  cbn [negb orb andb]. rewrite andb_false_r.
  change (Ascii.eqb "." Ascii.zero) with false. cbn [negb].
  rewrite (cut_at_second_dot pre a b after).
  rewrite (string_at_instance pre a b after Hnb).
  destruct (has_flag flag USE_LONG_NAMES).
  - rewrite (string_at_whole pre a b after Hnp Hna). reflexivity.
  - rewrite (string_at_label pre a b after Hna). reflexivity.
Qed.

Lemma symbolic_label_split_witness :
  __get_label_iid (".iso.org.dod.internet.mgmt.mib-2.system" +:+ "."
                   +:+ "sysDescr" +:+ "." +:+ "0") "000" 0
  = (SUCCESS,
     Some (if has_flag 0 USE_LONG_NAMES
           then ".iso.org.dod.internet.mgmt.mib-2.system" +:+ "."
                +:+ "sysDescr"
           else "sysDescr"),
     Some "0").
Proof.
  apply (symbolic_label_split ".iso.org.dod.internet.mgmt.mib-2.system"
           "sysDescr" "0" "000" 0);
    try reflexivity.
  discriminate.
Defined.

Lemma has_flag_lor (flag bit : Z) :
  bit <> 0 -> has_flag (Z.lor flag bit) bit = true.
Proof.
  intros Hbit. unfold has_flag.
  assert (Z.land (Z.lor flag bit) bit = bit) as ->.
  { apply Z.bits_inj'. intros n _.
    rewrite Z.land_spec, Z.lor_spec.
    destruct (Z.testbit flag n), (Z.testbit bit n); reflexivity. }
  apply negb_true_iff, Z.eqb_neq. exact Hbit.
Qed.

(** The symbolic branch for a name that is not a leaf and whose only
    label with a letter is its first one: the loop runs down to the start
    of the name, and the label is the whole name, after the rewriting of
    a root alias if there is one. *)
Lemma non_leaf_first_label (a rest : string) (after : ascii) (flag : Z) :
  has_flag flag USE_NUMERIC_OIDS = false ->
  has_flag flag NON_LEAF_NAME = true ->
  has_flag flag FAIL_ON_NULL_IID = false ->
  no_nul a = true ->
  no_nul rest = true ->
  strchr a "." = false ->
  has_alpha a = true ->
  has_alpha rest = false ->
  let buf := name_buf ("." +:+ a +:+ "." +:+ rest) after in
  let len := S (String.length a + S (String.length rest)) in
  let rewritten digit :=
    (<[3%nat := digit]> (<[2%nat := "."%char]> buf), 2%nat) in
  let chosen :=
    if strncmp ".ccitt." ("." +:+ a +:+ "." +:+ rest) 7 =? 0
    then rewritten "0"%char
    else if strncmp ".iso." ("." +:+ a +:+ "." +:+ rest) 5 =? 0
    then rewritten "1"%char
    else if strncmp ".joint-iso-ccitt." ("." +:+ a +:+ "." +:+ rest) 17 =? 0
    then rewritten "2"%char
    else (buf, O) in
  __get_label_iid ("." +:+ a +:+ "." +:+ rest) after flag
  = (SUCCESS, Some (string_at (fst chosen) (snd chosen)),
     Some (string_at (fst chosen) len)).
Proof.
  intros Hnum Hleaf Hfail Hna Hnr Hdot Halpha Hrest buf len rewritten chosen.
  assert (no_nul ("." +:+ a +:+ "." +:+ rest) = true) as Hnul
    by (rewrite !no_nul_app, Hna, Hnr; reflexivity).
  assert (String.length ("." +:+ a +:+ "." +:+ rest) = len) as Hlen
    by (rewrite !length_string_app; cbn [String.length]; unfold len; lia).
  assert (buf = (["."%char] ++ list_ascii_of_string a ++ "."%char
                 :: list_ascii_of_string rest ++ [Ascii.zero; after])%list)
    as Hbuf.
  { unfold buf, name_buf. rewrite !list_ascii_of_string_app.
    cbn [list_ascii_of_string]. rewrite <- !app_assoc. reflexivity. }
  unfold __get_label_iid.
  rewrite (c_string_name_buf _ after Hnul), Hlen, Hnum, Hleaf, Hfail.
  fold buf. change (len =? 0)%nat with false. cbv iota.
  pose proof (label_scan_last_label ["."%char] a rest after) as Hscan.
  cbv zeta in Hscan. rewrite <- Hbuf in Hscan.
  rewrite !length_list_ascii in Hscan. cbn [length Nat.add Nat.sub] in Hscan.
  fold len in Hscan.
  rewrite Hscan, label_scan_zero by (try assumption; discriminate).
  cbn [negb orb]. rewrite andb_false_r.
  assert (deref buf 0 = "."%char) as -> by (rewrite Hbuf; reflexivity).
  change (is_dot "." && (0 =? 0)%nat) with true. cbv iota.
  assert (string_at buf 0 = "." +:+ a +:+ "." +:+ rest) as ->
    by (unfold string_at; rewrite drop_0; apply c_string_name_buf; exact Hnul).
  unfold chosen, rewritten.
  repeat match goal with
         | |- context [strncmp ?s ?t ?n =? 0] =>
             destruct (strncmp s t n =? 0)
         end;
    cbv beta iota; rewrite has_flag_lor by discriminate; reflexivity.
Qed.

Lemma string_at_alias (c0 c1 c2 c3 d : ascii) (s : string) (after : ascii) :
  Ascii.eqb d Ascii.zero = false ->
  no_nul s = true ->
  string_at (<[3%nat := d]>
               (<[2%nat := "."%char]>
                  (c0 :: c1 :: c2 :: c3
                   :: list_ascii_of_string s ++ [Ascii.zero; after])))
            2
  = String "." (String d s)
  /\ string_at (<[3%nat := d]>
                  (<[2%nat := "."%char]>
                     (c0 :: c1 :: c2 :: c3
                      :: list_ascii_of_string s ++ [Ascii.zero; after])))
               (4 + String.length s)
     = "".
Proof.
  intros Hd Hs. unfold string_at. split.
  - cbn [insert list_insert drop c_string].
    change (Ascii.eqb "." Ascii.zero) with false. rewrite Hd. cbv iota.
    rewrite c_string_app by exact Hs. reflexivity.
  - cbn [insert list_insert drop Nat.add].
    rewrite drop_app_length' by (rewrite length_list_ascii; reflexivity).
    reflexivity.
Qed.

(** X27: for a name that is not a leaf and starts with a root alias
    followed by numbers only, the label is the whole name with the alias
    overwritten in place from its third character, and the instance is
    empty.  The two characters written turn [.iso.] into [.1.], but leave
    [tt.] of [.ccitt.] and [nt-iso-ccitt.] of [.joint-iso-ccitt.] behind
    the number. *)
Theorem root_alias_rewrite (rest : string) (after : ascii) (flag : Z) :
  has_flag flag USE_NUMERIC_OIDS = false ->
  has_flag flag NON_LEAF_NAME = true ->
  has_flag flag FAIL_ON_NULL_IID = false ->
  no_nul rest = true ->
  has_alpha rest = false ->
  __get_label_iid (".iso." +:+ rest) after flag
  = (SUCCESS, Some (".1." +:+ rest), Some "")
  /\ __get_label_iid (".ccitt." +:+ rest) after flag
     = (SUCCESS, Some (".0tt." +:+ rest), Some "")
  /\ __get_label_iid (".joint-iso-ccitt." +:+ rest) after flag
     = (SUCCESS, Some (".2nt-iso-ccitt." +:+ rest), Some "").
Proof.
  intros Hnum Hleaf Hfail Hnr Hrest. repeat split.
  - change (".iso." +:+ rest) with ("." +:+ "iso" +:+ "." +:+ rest).
    rewrite non_leaf_first_label by (assumption || reflexivity).
    cbv zeta.
    change (strncmp ".ccitt." ("." +:+ "iso" +:+ "." +:+ rest) 7 =? 0)
      with false.
    change (strncmp ".iso." ("." +:+ "iso" +:+ "." +:+ rest) 5 =? 0)
      with true.
    cbv iota. cbn [fst snd].
    destruct (string_at_alias "." "i" "s" "o" "1" ("." +:+ rest) after
                eq_refl) as [Hlabel Hiid];
      [rewrite no_nul_app, Hnr; reflexivity|].
    rewrite length_string_app in Hiid.
    unfold name_buf.
    change (list_ascii_of_string ("." +:+ "iso" +:+ "." +:+ rest))
      with ("."%char :: "i"%char :: "s"%char :: "o"%char
            :: list_ascii_of_string ("." +:+ rest)).
    cbn [app]. rewrite Hlabel.
    change (S (String.length "iso" + S (String.length rest)))
      with (4 + (String.length "." + String.length rest))%nat.
    rewrite Hiid. reflexivity.
  - change (".ccitt." +:+ rest) with ("." +:+ "ccitt" +:+ "." +:+ rest).
    rewrite non_leaf_first_label by (assumption || reflexivity).
    cbv zeta.
    change (strncmp ".ccitt." ("." +:+ "ccitt" +:+ "." +:+ rest) 7 =? 0)
      with true.
    cbv iota. cbn [fst snd].
    destruct (string_at_alias "." "c" "c" "i" "0" ("tt." +:+ rest) after
                eq_refl) as [Hlabel Hiid];
      [rewrite no_nul_app, Hnr; reflexivity|].
    rewrite length_string_app in Hiid.
    unfold name_buf.
    change (list_ascii_of_string ("." +:+ "ccitt" +:+ "." +:+ rest))
      with ("."%char :: "c"%char :: "c"%char :: "i"%char
            :: list_ascii_of_string ("tt." +:+ rest)).
    cbn [app]. rewrite Hlabel.
    change (S (String.length "ccitt" + S (String.length rest)))
      with (4 + (String.length "tt." + String.length rest))%nat.
    rewrite Hiid. reflexivity.
  - change (".joint-iso-ccitt." +:+ rest)
      with ("." +:+ "joint-iso-ccitt" +:+ "." +:+ rest).
    rewrite non_leaf_first_label by (assumption || reflexivity).
    cbv zeta.
    change (strncmp ".ccitt."
              ("." +:+ "joint-iso-ccitt" +:+ "." +:+ rest) 7 =? 0)
      with false.
    change (strncmp ".iso."
              ("." +:+ "joint-iso-ccitt" +:+ "." +:+ rest) 5 =? 0)
      with false.
    change (strncmp ".joint-iso-ccitt."
              ("." +:+ "joint-iso-ccitt" +:+ "." +:+ rest) 17 =? 0)
      with true.
    cbv iota. cbn [fst snd].
    destruct (string_at_alias "." "j" "o" "i" "2"
                ("nt-iso-ccitt." +:+ rest) after eq_refl)
      as [Hlabel Hiid];
      [rewrite no_nul_app, Hnr; reflexivity|].
    rewrite length_string_app in Hiid.
    unfold name_buf.
    change (list_ascii_of_string
              ("." +:+ "joint-iso-ccitt" +:+ "." +:+ rest))
      with ("."%char :: "j"%char :: "o"%char :: "i"%char
            :: list_ascii_of_string ("nt-iso-ccitt." +:+ rest)).
    cbn [app]. rewrite Hlabel.
    change (S (String.length "joint-iso-ccitt" + S (String.length rest)))
      with (4 + (String.length "nt-iso-ccitt." + String.length rest))%nat.
    rewrite Hiid. reflexivity.
Qed.

Lemma root_alias_rewrite_witness :
  __get_label_iid (".iso." +:+ "3.6.1") "000" 4
  = (SUCCESS, Some (".1." +:+ "3.6.1"), Some "")
  /\ __get_label_iid (".ccitt." +:+ "3.6.1") "000" 4
     = (SUCCESS, Some (".0tt." +:+ "3.6.1"), Some "")
  /\ __get_label_iid (".joint-iso-ccitt." +:+ "3.6.1") "000" 4
     = (SUCCESS, Some (".2nt-iso-ccitt." +:+ "3.6.1"), Some "").
Proof.
  apply (root_alias_rewrite "3.6.1" "000" 4); reflexivity.
Defined.

(** ** The byte after the terminator *)

Lemma c_string_ignores_tail (m t1 t2 : list ascii) :
  c_string (m ++ Ascii.zero :: t1) = c_string (m ++ Ascii.zero :: t2).
Proof.
  induction m as [|c m IH]; cbn [app c_string]; [reflexivity|].
  rewrite IH. reflexivity.
Qed.

Lemma string_at_ignores_tail (m : list ascii) (p : nat) (a1 a2 : ascii) :
  (p <= length m)%nat ->
  string_at (m ++ [Ascii.zero; a1]) p = string_at (m ++ [Ascii.zero; a2]) p.
Proof.
  intros Hp. unfold string_at. rewrite !drop_app_le by exact Hp.
  apply c_string_ignores_tail.
Qed.

Lemma code_inj (x y : ascii) : code x - code y = 0 -> x = y.
Proof.
  unfold code. intros H.
  assert (nat_of_ascii x = nat_of_ascii y) as Hn by lia.
  apply (f_equal ascii_of_nat) in Hn. rewrite !ascii_nat_embedding in Hn.
  exact Hn.
Qed.

(** A prefix that [strncmp] finds at the start of a string is no longer
    than the string. *)
Lemma strncmp_prefix_length (p : string) :
  forall s,
    no_nul p = true ->
    strncmp p s (String.length p) = 0 ->
    (String.length p <= String.length s)%nat.
Proof.
  induction p as [|x p IH]; intros s Hp Hcmp; [cbn; lia|].
  cbn [no_nul] in Hp. apply andb_prop in Hp. destruct Hp as [Hx Hp].
  apply negb_true_iff in Hx.
  destruct s as [|y s]; cbn [String.length strncmp peek] in *.
  - apply code_inj in Hcmp. subst x. discriminate.
  - destruct (Ascii.eqb x y) eqn:Hxy.
    + specialize (IH s Hp Hcmp). lia.
    + apply code_inj in Hcmp. subst y. rewrite Ascii.eqb_refl in Hxy.
      discriminate.
Qed.

Lemma numeric_scan_bounds (buf : list ascii) (k : nat) :
  forall lcp icp,
    numeric_scan buf k None = (lcp, Some icp) ->
    is_dot (deref buf icp) = true /\ (lcp < icp <= k)%nat.
Proof.
  assert (forall k icp0 lcp icp,
            numeric_scan buf k (Some icp0) = (lcp, Some icp) ->
            icp = icp0 /\ (lcp <= k)%nat) as Hsome.
  { clear k. induction k as [|k IH]; intros icp0 lcp icp; cbn [numeric_scan].
    - intros [= <- <-]. split; [reflexivity | lia].
    - destruct (is_dot (deref buf (S k))).
      + intros [= <- <-]. split; [reflexivity | lia].
      + intros H. destruct (IH _ _ _ H). split; [assumption | lia]. }
  induction k as [|k IH]; intros lcp icp; cbn [numeric_scan].
  - discriminate.
  - destruct (is_dot (deref buf (S k))) eqn:Hdot.
    + intros H. destruct (Hsome _ _ _ _ H) as [-> Hle].
      split; [exact Hdot | lia].
    + intros H. destruct (IH _ _ H) as [Hd Hb]. split; [exact Hd | lia].
Qed.

Lemma label_scan_bounds (buf : list ascii) (k : nat) :
  forall icp0 found lcp icp found',
    label_scan buf k icp0 found = (lcp, icp, found') ->
    (lcp <= if found then S k else k)%nat /\ (icp <= Nat.max icp0 k)%nat.
Proof.
  induction k as [|k IH]; intros icp0 found lcp icp found';
    cbn [label_scan].
  - intros [= <- <- <-]. destruct found; lia.
  - destruct (is_dot (deref buf (S k))).
    + destruct found.
      * intros [= <- <- <-]. lia.
      * cbn [orb]. intros H. destruct (IH _ _ _ _ _ H) as [H1 H2].
        split; [destruct (isalpha (deref buf (S k))); lia | lia].
    + intros H. destruct (IH _ _ _ _ _ H) as [H1 H2].
      split; [|lia].
      destruct found; cbn [orb] in H1;
        [lia | destruct (isalpha (deref buf (S k))); lia].
Qed.

Section ByteAfter.

Variable name : string.
Variables a1 a2 : ascii.

Local Abbreviation l := (list_ascii_of_string name).

Lemma deref_same (i : nat) :
  (i <= length l)%nat ->
  deref (l ++ [Ascii.zero; a1])%list i = deref (l ++ [Ascii.zero; a2])%list i.
Proof.
  intros Hi. unfold deref.
  destruct (Nat.eq_dec i (length l)) as [->|Hne].
  - rewrite !list_lookup_middle by reflexivity. reflexivity.
  - rewrite !lookup_app_l by lia. reflexivity.
Qed.

Lemma deref_terminator (a : ascii) :
  deref (l ++ [Ascii.zero; a])%list (length l) = Ascii.zero.
Proof.
  apply deref_middle.
Qed.

Lemma numeric_scan_same (k : nat) :
  forall icp,
    (k <= length l)%nat ->
    numeric_scan (l ++ [Ascii.zero; a1])%list k icp
    = numeric_scan (l ++ [Ascii.zero; a2])%list k icp.
Proof.
  induction k as [|k IH]; intros icp Hk; cbn [numeric_scan]; [reflexivity|].
  rewrite deref_same by exact Hk.
  destruct (is_dot (deref (l ++ [Ascii.zero; a2])%list (S k)));
    [destruct icp|]; try reflexivity; apply IH; lia.
Qed.

Lemma label_scan_same (k : nat) :
  forall icp found,
    (k <= length l)%nat ->
    label_scan (l ++ [Ascii.zero; a1])%list k icp found
    = label_scan (l ++ [Ascii.zero; a2])%list k icp found.
Proof.
  induction k as [|k IH]; intros icp found Hk; cbn [label_scan];
    [reflexivity|].
  rewrite deref_same by exact Hk.
  destruct (is_dot (deref (l ++ [Ascii.zero; a2])%list (S k)));
    [destruct found|]; try reflexivity; apply IH; lia.
Qed.

(** The strings read after a write below the terminator. *)
Lemma string_at_insert_same (i p : nat) (c : ascii) :
  (i < length l)%nat ->
  (p <= length l)%nat ->
  string_at (<[i := c]> (l ++ [Ascii.zero; a1])%list) p
  = string_at (<[i := c]> (l ++ [Ascii.zero; a2])%list) p.
Proof.
  intros Hi Hp. rewrite !insert_app_l by exact Hi.
  apply string_at_ignores_tail. rewrite length_insert. exact Hp.
Qed.

Lemma string_at_insert2_same (p : nat) (c d : ascii) :
  (4 <= length l)%nat ->
  (p <= length l)%nat ->
  string_at (<[3%nat := d]> (<[2%nat := c]> (l ++ [Ascii.zero; a1])%list)) p
  = string_at (<[3%nat := d]> (<[2%nat := c]> (l ++ [Ascii.zero; a2])%list)) p.
Proof.
  intros Hl Hp.
  rewrite !(insert_app_l l) by lia.
  rewrite !insert_app_l by (rewrite length_insert; lia).
  apply string_at_ignores_tail. rewrite !length_insert. exact Hp.
Qed.

(** Without [FAIL_ON_NULL_IID] the byte after the terminator has no part
    in the result. *)
Lemma get_label_iid_after_irrelevant (flag : Z) :
  has_flag flag FAIL_ON_NULL_IID = false ->
  no_nul name = true ->
  __get_label_iid name a1 flag = __get_label_iid name a2 flag.
Proof.
  intros Hfail Hnul. unfold __get_label_iid.
  rewrite !(c_string_name_buf _ _ Hnul). unfold name_buf.
  assert (String.length name = length l) as Hlen
    by (rewrite length_list_ascii; reflexivity).
  rewrite Hlen.
  destruct (length l =? 0)%nat; [reflexivity|].
  destruct (has_flag flag USE_NUMERIC_OIDS).
  - destruct (__is_numeric_oid (Some name) =? 0); [reflexivity|].
    rewrite numeric_scan_same by lia.
    destruct (numeric_scan (l ++ [Ascii.zero; a2])%list (length l) None)
      as [lcp [icp|]] eqn:Hscan; [|reflexivity].
    destruct (numeric_scan_bounds _ _ _ _ Hscan) as [Hdot Hb].
    assert (icp <> length l) as Hne
      by (intros ->; rewrite deref_terminator in Hdot; discriminate).
    rewrite (string_at_insert_same icp (S icp)) by lia.
    destruct (has_flag flag USE_LONG_NAMES);
      rewrite (string_at_insert_same icp _) by lia; reflexivity.
  - rewrite label_scan_same by lia.
    destruct (label_scan (l ++ [Ascii.zero; a2])%list (length l) (length l)
                         false) as [[lcp icp] found] eqn:Hscan.
    destruct (label_scan_bounds _ _ _ _ _ _ _ Hscan) as [Hlcp Hicp].
    rewrite Nat.max_id in Hicp.
    rewrite Hfail, !andb_false_r.
    destruct (negb found || false); [reflexivity|].
    destruct (has_flag flag NON_LEAF_NAME).
    + rewrite (deref_same lcp) by exact Hlcp.
      destruct (is_dot (deref (l ++ [Ascii.zero; a2])%list lcp)
                && (lcp =? 0)%nat) eqn:Hroot.
      * apply andb_prop in Hroot. destruct Hroot as [_ Hzero].
        apply Nat.eqb_eq in Hzero. subst lcp.
        assert (forall a, string_at (l ++ [Ascii.zero; a])%list 0 = name)
          as Hname by (intros a; unfold string_at; rewrite drop_0;
              apply (c_string_name_buf name a Hnul)).
        rewrite !Hname.
        destruct (Z.eqb_spec (strncmp ".ccitt." name 7) 0) as [H7|_].
        { pose proof (strncmp_prefix_length ".ccitt." name eq_refl H7) as Hn.
          cbn [String.length] in Hn. rewrite Hlen in Hn.
          rewrite has_flag_lor by discriminate.
          rewrite !(string_at_insert2_same _ "." "0") by lia. reflexivity. }
        destruct (Z.eqb_spec (strncmp ".iso." name 5) 0) as [H5|_].
        { pose proof (strncmp_prefix_length ".iso." name eq_refl H5) as Hn.
          cbn [String.length] in Hn. rewrite Hlen in Hn.
          rewrite has_flag_lor by discriminate.
          rewrite !(string_at_insert2_same _ "." "1") by lia. reflexivity. }
        destruct (Z.eqb_spec (strncmp ".joint-iso-ccitt." name 17) 0)
          as [H17|_].
        { pose proof (strncmp_prefix_length ".joint-iso-ccitt." name eq_refl
                        H17) as Hn.
          cbn [String.length] in Hn. rewrite Hlen in Hn.
          rewrite has_flag_lor by discriminate.
          rewrite !(string_at_insert2_same _ "." "2") by lia. reflexivity. }
        rewrite has_flag_lor by discriminate.
        rewrite !(string_at_ignores_tail l _ a1 a2) by lia. reflexivity.
      * rewrite has_flag_lor by discriminate.
        rewrite !(string_at_ignores_tail l _ a1 a2) by lia. reflexivity.
    + rewrite (deref_same icp) by exact Hicp.
      destruct (Ascii.eqb (deref (l ++ [Ascii.zero; a2])%list icp) Ascii.zero)
        eqn:Hz; cbn [negb].
      * destruct (has_flag flag USE_LONG_NAMES);
          rewrite !(string_at_ignores_tail l _ a1 a2) by lia; reflexivity.
      * assert (icp <> length l) as Hne
          by (intros ->; rewrite deref_terminator in Hz; discriminate).
        rewrite (string_at_insert_same icp (S icp)) by lia.
        destruct (has_flag flag USE_LONG_NAMES);
          rewrite (string_at_insert_same icp _) by lia; reflexivity.
Qed.

End ByteAfter.

(** X28: whatever the attributes of the session are, and whether
    [read_variable] adds [NON_LEAF_NAME] or not, the flags that reach
    [__get_label_iid] never include [FAIL_ON_NULL_IID]; so the character
    the code reads one past the separator, which is the byte after the
    terminator when the name has no instance, never changes the label or
    the instance handed back. *)
Theorem label_ignores_byte_after (h : option netsnmp_session)
    (attrs : session_attrs) (tp : option tree) (name : string)
    (after1 after2 : ascii) :
  no_nul name = true ->
  let flag :=
    label_flag tp (getlabel_flag (fst (get_session_context h attrs))) in
  has_flag flag FAIL_ON_NULL_IID = false
  /\ __get_label_iid name after1 flag = __get_label_iid name after2 flag.
Proof.
  intros Hnul flag.
  assert (has_flag flag FAIL_ON_NULL_IID = false) as Hfail.
  { unfold flag, label_flag, get_session_context.
    destruct (negb (use_long_names attrs =? 0));
      [|destruct (negb (use_numeric attrs =? 0))];
      destruct (__is_leaf tp); reflexivity. }
  split; [exact Hfail|].
  apply get_label_iid_after_irrelevant; assumption.
Qed.

Lemma label_ignores_byte_after_witness :
  let flag :=
    label_flag (Some sys_descr_node)
      (getlabel_flag
         (fst (get_session_context None
                 {| use_long_names := 0; use_numeric := 0; use_enums := 0;
                    use_sprint_value := 0; attr_best_guess := 0;
                    retry_no_such := 0 |}))) in
  has_flag flag FAIL_ON_NULL_IID = false
  /\ __get_label_iid "system.sysDescr" "7" flag
     = __get_label_iid "system.sysDescr" "x" flag.
Proof.
  apply (label_ignores_byte_after None
           {| use_long_names := 0; use_numeric := 0; use_enums := 0;
              use_sprint_value := 0; attr_best_guess := 0;
              retry_no_such := 0 |}
           (Some sys_descr_node) "system.sysDescr" "7" "x").
  reflexivity.
Defined.

Lemma has_flag_lor_other (flag bit other : Z) :
  Z.land other bit = 0 ->
  has_flag (Z.lor flag other) bit = has_flag flag bit.
Proof.
  intros Hdisj. unfold has_flag.
  rewrite Z.land_lor_distr_l, Hdisj, Z.lor_0_r. reflexivity.
Qed.

Lemma string_at_terminator (m : list ascii) (after : ascii) :
  string_at (m ++ [Ascii.zero; after]) (length m) = "".
Proof.
  unfold string_at. rewrite drop_app_length. reflexivity.
Qed.

(** X29: what [NON_LEAF_NAME] does.  With the numeric flag it does
    nothing: the result is the one without it.  Without the numeric flag,
    a call that succeeds hands back an empty instance, whatever the name
    is. *)
Theorem non_leaf_flag_effect (name : string) (after : ascii) (flag : Z) :
  no_nul name = true ->
  if has_flag flag USE_NUMERIC_OIDS
  then __get_label_iid name after (Z.lor flag NON_LEAF_NAME)
       = __get_label_iid name after flag
  else __get_label_iid name after (Z.lor flag NON_LEAF_NAME)
       = (FAILURE, None, None)
       \/ exists label,
            __get_label_iid name after (Z.lor flag NON_LEAF_NAME)
            = (SUCCESS, Some label, Some "").
Proof.
  intros Hnul.
  pose proof (has_flag_lor_other flag USE_NUMERIC_OIDS NON_LEAF_NAME eq_refl)
    as Hnum.
  pose proof (has_flag_lor_other flag USE_LONG_NAMES NON_LEAF_NAME eq_refl)
    as Hlong.
  destruct (has_flag flag USE_NUMERIC_OIDS) eqn:Hmode.
  - unfold __get_label_iid. rewrite Hnum, Hlong, Hmode. reflexivity.
  - unfold __get_label_iid.
    rewrite Hnum, (has_flag_lor flag NON_LEAF_NAME) by discriminate.
    rewrite (c_string_name_buf _ after Hnul). unfold name_buf.
    set (l := list_ascii_of_string name).
    assert (String.length name = length l) as Hlen
      by (unfold l; rewrite length_list_ascii; reflexivity).
    rewrite Hlen.
    destruct (length l =? 0)%nat; [left; reflexivity|].
    destruct (label_scan (l ++ [Ascii.zero; after]) (length l) (length l)
                         false) as [[lcp icp] found].
    match goal with
    | |- context [if ?c then (FAILURE, None, None) else _] => destruct c
    end; [left; reflexivity|].
    right.
    destruct (is_dot (deref (l ++ [Ascii.zero; after]) lcp)
              && (lcp =? 0)%nat) eqn:Hroot;
      [|eexists; rewrite string_at_terminator; reflexivity].
    apply andb_prop in Hroot. destruct Hroot as [_ Hzero].
    apply Nat.eqb_eq in Hzero. subst lcp.
    assert (string_at (l ++ [Ascii.zero; after]) 0 = name) as ->
      by (unfold string_at; rewrite drop_0;
          apply (c_string_name_buf name after Hnul)).
    assert (forall d,
              (4 <= length l)%nat ->
              string_at (<[3%nat := d]>
                           (<[2%nat := "."%char]>
                              (l ++ [Ascii.zero; after])%list))
                        (length l) = "") as Hend.
    { intros d Hl. rewrite (insert_app_l l) by lia.
      rewrite insert_app_l by (rewrite length_insert; lia).
      replace (length l)
        with (length (<[3%nat := d]> (<[2%nat := "."%char]> l)))
        by (rewrite !length_insert; reflexivity).
      apply string_at_terminator. }
    destruct (Z.eqb_spec (strncmp ".ccitt." name 7) 0) as [H7|_].
    { pose proof (strncmp_prefix_length ".ccitt." name eq_refl H7) as Hn.
      cbn [String.length] in Hn. rewrite Hlen in Hn.
      eexists. rewrite Hend by lia. reflexivity. }
    destruct (Z.eqb_spec (strncmp ".iso." name 5) 0) as [H5|_].
    { pose proof (strncmp_prefix_length ".iso." name eq_refl H5) as Hn.
      cbn [String.length] in Hn. rewrite Hlen in Hn.
      eexists. rewrite Hend by lia. reflexivity. }
    destruct (Z.eqb_spec (strncmp ".joint-iso-ccitt." name 17) 0) as [H17|_].
    { pose proof (strncmp_prefix_length ".joint-iso-ccitt." name eq_refl H17)
        as Hn.
      cbn [String.length] in Hn. rewrite Hlen in Hn.
      eexists. rewrite Hend by lia. reflexivity. }
    eexists. rewrite string_at_terminator. reflexivity.
Qed.

Lemma non_leaf_flag_effect_witness :
  __get_label_iid ".iso.org.dod" "000" (Z.lor 0 NON_LEAF_NAME)
  = (FAILURE, None, None)
  \/ exists label,
       __get_label_iid ".iso.org.dod" "000" (Z.lor 0 NON_LEAF_NAME)
       = (SUCCESS, Some label, Some "").
Proof.
  apply (non_leaf_flag_effect ".iso.org.dod" "000" 0). reflexivity.
Defined.
